(** * docs/make_docs.py: the documentation build script

    A shallow embedding of [docs/make_docs.py] (Open3D).  The script is
    sequential glue around the file system, the Python import system, the
    notebook executor and two external programs.  Repository code is embedded
    function by function under its own name; library calls ([str.split],
    [os.path.join], [shutil.rmtree], ...) are given small executable models.

    Conventions.
    - A Python [str] is a Rocq [string]; one [ascii] stands for one character,
      so [len] is [String.length] (exact for the ASCII names and paths the
      script handles).
    - Effects are threaded through a state-and-exception monad [M] over a
      [world]: the process environment, the file system and standard output.
      What a computation did before raising stays in the world.
    - A path names a file-system entry by its spelling; [.], [..] and symbolic
      links are not resolved. *)

From Stdlib Require Import Ascii String.
From stdpp Require Import gmap strings list sorting pretty.

(** ** Python strings *)

Definition LF : ascii := "010"%char.
Definition nl : string := String LF "".
Definition CR : ascii := "013"%char.

(** [s.split(sep)] for a one-character separator: cut at every occurrence,
    always at least one piece. *)
Fixpoint split (sep : ascii) (s : string) : list string :=
  match s with
  | "" => [""]
  | String c s' =>
      if decide (c = sep) then "" :: split sep s'
      else match split sep s' with
           | [] => [String c ""]
           | w :: ws => String c w :: ws
           end
  end.

(** [s.rstrip(ch)] for a one-character set. *)
Fixpoint rstrip (ch : ascii) (s : string) : string :=
  match s with
  | "" => ""
  | String c s' =>
      match rstrip ch s' with
      | "" => if decide (c = ch) then "" else String c ""
      | r => String c r
      end
  end.

(** Iterating over a text file: the lines, each with its terminator, the last
    one possibly without.  Lines end at line feeds; Python's text mode also
    turns a carriage return, alone or before a line feed, into a line feed, so
    the lines are those Python reads for a text that holds no [CR], and
    statements about the lines of a file ask for that. *)
Fixpoint readlines (s : string) : list string :=
  match s with
  | "" => []
  | String c s' =>
      if decide (c = LF) then String c "" :: readlines s'
      else match readlines s' with
           | [] => [String c ""]
           | l :: ls => String c l :: ls
           end
  end.

(** [ch in s] *)
Fixpoint contains (ch : ascii) (s : string) : bool :=
  match s with
  | "" => false
  | String c s' => bool_decide (c = ch) || contains ch s'
  end.

(** [sep.join(l)] *)
Definition join (sep : string) (l : list string) : string := String.concat sep l.

(** [ch * n] *)
Fixpoint str_repeat (ch : ascii) (n : nat) : string :=
  match n with
  | O => ""
  | S n' => String ch (str_repeat ch n')
  end.

(** [l[:n]] *)
Definition slice_to {A} (n : nat) (l : list A) : list A := take n l.

(** [sorted(l)] on strings: ascending in the character-wise lexicographic
    order [String.le]. *)
Definition sorted (l : list string) : list string := merge_sort String.le l.

(** ** Exceptions and the effect monad *)

Inductive exn : Type :=
  | ImportError
  | AttributeError
  | IndexError
  | ValueError (msg : string)
  | FileNotFoundError
  | FileExistsError
  | NotADirectoryError
  | IsADirectoryError
  | CellExecutionError
  | CalledProcessError
  | OtherError (name : string).

Global Instance exn_eq_dec : EqDecision exn.
Proof. solve_decision. Defined.

Inductive result (A : Type) : Type :=
  | Ok (a : A)
  | Raise (e : exn).
Arguments Ok {A} a.
Arguments Raise {A} e.


(** ** Python objects seen through [inspect]

    An object is its kind and the (name, value) pairs [getmembers] enumerates.
    The enumeration order is left free. *)

Inductive pykind : Type := KModule | KClass | KBuiltin | KFunction | KOther.

Global Instance pykind_eq_dec : EqDecision pykind.
Proof. solve_decision. Defined.

#[local] Set Warnings "-register-all".
Inductive pyobj : Type :=
  | PyObj (k : pykind) (ms : list (string * pyobj)).
#[local] Set Warnings "register-all".

Definition kind (o : pyobj) : pykind := let 'PyObj k _ := o in k.
Definition getmembers (o : pyobj) : list (string * pyobj) := let 'PyObj _ ms := o in ms.

Definition isclass (o : pyobj) : bool := bool_decide (kind o = KClass).
Definition isbuiltin (o : pyobj) : bool := bool_decide (kind o = KBuiltin).

Fixpoint assoc {A} (name : string) (ms : list (string * A)) : option A :=
  match ms with
  | [] => None
  | (n, v) :: ms' => if decide (n = name) then Some v else assoc name ms'
  end.

(** [getattr(o, name)] *)
Definition getattr (o : pyobj) (name : string) : result pyobj :=
  match assoc name (getmembers o) with
  | Some v => Ok v
  | None => Raise AttributeError
  end.

(** ** Notebooks (nbformat 4) *)

Record cell : Type := Cell {
  cell_type : string;              (* "code", "markdown" or "raw" *)
  source : string;
  outputs : list string;           (* [c.get("outputs")]; absent reads as empty *)
  execution_count : option Z       (* [c.get("execution_count")]; null or absent is [None] *)
}.

Record notebook : Type := Notebook { cells : list cell }.

Global Instance cell_eq_dec : EqDecision cell.
Proof. solve_decision. Defined.
Global Instance notebook_eq_dec : EqDecision notebook.
Proof. solve_decision. Defined.

(** ** The world *)

Record fsys : Type := FSys {
  dirs : gset string;
  files : gmap string string
}.

Record world : Type := World {
  environ : gmap string string;
  fs : fsys;
  stdout : list string
}.

(** What the script calls and does not define: the import system, the
    notebook codec and executor, and [subprocess.check_call].  The kernel and
    the subprocess see the environment and may change the file system; they
    cannot change this process's environment, and what they print is not
    kept.  The executor is given the notebook and the directory to run in.
    Importing is a lookup: what the code of an imported module does to the
    tree or to the environment while it is loaded is not modelled. *)
Record runtime : Type := Runtime {
  import_module : string → result pyobj;
  nbformat_read : string → result notebook;
  nbformat_write : notebook → string;
  ep_preprocess : gmap string string → notebook → string → fsys → result unit * notebook * fsys;
  check_call : list string → gmap string string → fsys → result unit * fsys
}.

Definition M (A : Type) : Type := world → result A * world.

Definition ret {A} (a : A) : M A := λ w, (Ok a, w).
Definition raise {A} (e : exn) : M A := λ w, (Raise e, w).
Definition bind {A B} (m : M A) (k : A → M B) : M B :=
  λ w, match m w with
       | (Ok a, w') => k a w'
       | (Raise e, w') => (Raise e, w')
       end.

Declare Scope py_scope.
Delimit Scope py_scope with py.
Notation "x <- m ;; k" := (bind m (λ x, k))
  (at level 100, m at next level, right associativity) : py_scope.
Notation "m ;; k" := (bind m (λ _, k))
  (at level 100, right associativity) : py_scope.
Local Open Scope py_scope.

(** [for x in l: body] *)
Fixpoint for_each {A} (l : list A) (body : A → M unit) : M unit :=
  match l with
  | [] => ret tt
  | x :: l' => body x ;; for_each l' body
  end.

Definition lift_result {A} (r : result A) : M A := λ w, (r, w).

(** A file-system primitive run inside [M]. *)
Definition on_fs {A} (f : fsys → result A * fsys) : M A :=
  λ w, let '(r, fs') := f (fs w) in
       (r, World (environ w) fs' (stdout w)).

Definition print (s : string) : M unit :=
  λ w, (Ok tt, World (environ w) (fs w) (stdout w ++ [s])).

(** [os.environ[k] = v] and [k in os.environ] *)
Definition setenv (k v : string) : M unit :=
  λ w, (Ok tt, World (<[k := v]> (environ w)) (fs w) (stdout w)).
Definition in_environ (k : string) : M bool :=
  λ w, (Ok (bool_decide (is_Some (environ w !! k))), w).

(** ** Paths ([os.path] and [pathlib], POSIX flavour) *)

Definition slash : ascii := "/"%char.

Fixpoint all_slashes (s : string) : bool :=
  match s with
  | "" => true
  | String c s' => bool_decide (c = slash) && all_slashes s'
  end.

Fixpoint ends_with_slash (s : string) : bool :=
  match s with
  | "" => false
  | String c "" => bool_decide (c = slash)
  | String _ s' => ends_with_slash s'
  end.

Fixpoint is_prefix (a b : string) : bool :=
  match a, b with
  | "", _ => true
  | String x a', String y b' => bool_decide (x = y) && is_prefix a' b'
  | String _ _, "" => false
  end.

(** [s.startswith(pre)] and [s.endswith(suf)] *)
Definition startswith (pre s : string) : bool := is_prefix pre s.
Definition endswith (suf s : string) : bool :=
  is_prefix (String.rev suf) (String.rev s).

(** Cut at the last [ch]: what stands before it and what after. *)
Fixpoint rcut (ch : ascii) (s : string) : option (string * string) :=
  match s with
  | "" => None
  | String c s' =>
      match rcut ch s' with
      | Some (h, t) => Some (String c h, t)
      | None => if decide (c = ch) then Some ("", s') else None
      end
  end.

(** [os.path.split]: the head keeps its slashes only when it is nothing but
    slashes. *)
Definition os_path_split (p : string) : string * string :=
  match rcut slash p with
  | None => ("", p)
  | Some (h, t) => (if all_slashes h then h +:+ "/" else rstrip slash h, t)
  end.

Definition dirname (p : string) : string := (os_path_split p).1.
Definition basename (p : string) : string := (os_path_split p).2.

(** [os.path.join(a, b)] *)
Definition os_path_join (a b : string) : string :=
  if startswith "/" b then b
  else if bool_decide (a = "") || ends_with_slash a then a +:+ b
  else a +:+ "/" +:+ b.

(** [pathlib]: a [Path] is kept as its string, which the script obtains from
    [os.path.realpath] and so is normalised already.  On another spelling (a
    trailing slash, a doubled slash, a dot) [pathlib] would normalise first
    and these functions do not; see [normal_path]. *)
Definition Path_parent (p : string) : string :=
  let h := dirname p in if decide (h = "") then "." else h.
Definition Path_div (p name : string) : string :=
  if decide (p = ".") then name else os_path_join p name.
Definition Path_name (p : string) : string := basename p.

(** ** File-system primitives

    Permissions and links are left out; the root and the working directory
    always exist. *)

Definition is_dir (f : fsys) (p : string) : bool :=
  bool_decide (p = "/" ∨ p ∈ dirs f).
Definition is_file (f : fsys) (p : string) : bool :=
  bool_decide (is_Some (files f !! p)).
(** [os.path.exists], [Path.exists] *)
Definition path_exists (f : fsys) (p : string) : bool :=
  is_dir f p || is_file f p.

(** Creating an entry [p] needs the directory it lives in. *)
Definition parent_check (f : fsys) (p : string) : result unit :=
  let d := dirname p in
  if bool_decide (p = "") then Raise FileNotFoundError
  else if bool_decide (d = "") || is_dir f d then Ok tt
  else if is_file f d then Raise NotADirectoryError
  else Raise FileNotFoundError.

(** [p] lies strictly below directory [d]; [within] also allows [p = d]. *)
Definition under (d p : string) : bool := is_prefix (d +:+ "/") p.
Definition within (d p : string) : bool := bool_decide (p = d) || under d p.

(** [shutil.rmtree] *)
Definition rmtree (p : string) (f : fsys) : result unit * fsys :=
  if is_dir f p then
    (Ok tt, FSys (filter (λ d, ¬ within p d) (dirs f))
                 (filter (λ kv, ¬ under p kv.1) (files f)))
  else if is_file f p then (Raise NotADirectoryError, f)
  else (Raise FileNotFoundError, f).

(** [os.mkdir] *)
Definition mkdir (p : string) (f : fsys) : result unit * fsys :=
  if path_exists f p then (Raise FileExistsError, f)
  else match parent_check f p with
       | Raise e => (Raise e, f)
       | Ok _ => (Ok tt, FSys ({[p]} ∪ dirs f) (files f))
       end.

(** [os.makedirs(name)] with [exist_ok=False], as the standard library
    writes it: create the head first when it is missing, then the leaf.  A
    head is shorter than its path, so [fuel] past the length is never
    reached. *)
Fixpoint makedirs_go (fuel : nat) (name : string) (f : fsys) : result unit * fsys :=
  match fuel with
  | O => (Raise (OtherError "RecursionError"), f)
  | S fuel' =>
      let '(head, tail) := os_path_split name in
      let '(head, tail) :=
        if decide (tail = "") then os_path_split head else (head, tail) in
      if bool_decide (head ≠ "") && bool_decide (tail ≠ "")
         && negb (path_exists f head) then
        match makedirs_go fuel' head f with
        | (Ok _, f1) | (Raise FileExistsError, f1) =>
            if decide (tail = ".") then (Ok tt, f1) else mkdir name f1
        | (Raise e, f1) => (Raise e, f1)
        end
      else mkdir name f
  end.

Definition makedirs (name : string) : fsys → result unit * fsys :=
  makedirs_go (S (String.length name)) name.

(** [open(p, "w")] followed by [f.write(s)] *)
Definition write_file (p s : string) (f : fsys) : result unit * fsys :=
  if is_dir f p then (Raise IsADirectoryError, f)
  else match parent_check f p with
       | Raise e => (Raise e, f)
       | Ok _ => (Ok tt, FSys (dirs f) (<[p := s]> (files f)))
       end.

(** [open(p)] followed by reading everything *)
Definition read_file (p : string) (f : fsys) : result string * fsys :=
  match files f !! p with
  | Some s => (Ok s, f)
  | None => (Raise (if is_dir f p then IsADirectoryError else FileNotFoundError), f)
  end.

(** [Path.unlink] *)
Definition unlink (p : string) (f : fsys) : result unit * fsys :=
  if is_file f p then (Ok tt, FSys (dirs f) (delete p (files f)))
  else (Raise (if is_dir f p then IsADirectoryError else FileNotFoundError), f).

Fixpoint str_drop (n : nat) (s : string) : string :=
  match n, s with
  | S n', String _ s' => str_drop n' s'
  | _, _ => s
  end.

(** The place below [dst] of an entry [p] found below [src]. *)
Definition rebase (src dst p : string) : string :=
  dst +:+ str_drop (String.length src) p.

(** [shutil.copytree(src, dst)]: [dst] must not exist. *)
Definition copytree (src dst : string) (f : fsys) : result unit * fsys :=
  if negb (is_dir f src) then
    (Raise (if is_file f src then NotADirectoryError else FileNotFoundError), f)
  else
    match makedirs dst f with
    | (Raise e, f1) => (Raise e, f1)
    | (Ok _, f1) =>
        (Ok tt,
         FSys (set_map (rebase src dst) (filter (λ d, under src d) (dirs f)) ∪ dirs f1)
              (list_to_map (prod_map (rebase src dst) id <$>
                            map_to_list (filter (λ kv, under src kv.1) (files f)))
               ∪ files f1))
    end.

(** [shutil.copy(src, dst)] *)
Definition copy (src dst : string) (f : fsys) : result unit * fsys :=
  let dst := if is_dir f dst then os_path_join dst (basename src) else dst in
  match files f !! src with
  | None => (Raise (if is_dir f src then IsADirectoryError else FileNotFoundError), f)
  | Some s =>
      if decide (src = dst) then (Raise (OtherError "SameFileError"), f)
      else write_file dst s f
  end.

(** [Path(d).glob("*.ipynb")]: the entries of [d] with that suffix, in the
    order the directory lists them (here: that of the underlying set). *)
Definition glob_ipynb (d : string) (f : fsys) : list string :=
  if is_dir f d then
    (λ p, Path_div d (basename p)) <$>
      filter (λ p, dirname p = d ∧ endswith ".ipynb" (basename p))
             (elements (dom (files f) ∪ dirs f))
  else [].

(** A path spelled the one way on which the operating system, [pathlib] and
    this model agree: components separated by single slashes, none of them
    empty, a dot or two dots, and so no slash at the end. *)
Definition normal_component (c : string) : bool :=
  negb (bool_decide (c = "")) && negb (bool_decide (c = "."))
  && negb (bool_decide (c = "..")).
Definition is_absolute (p : string) : bool := startswith "/" p.
Definition normal_path (p : string) : bool :=
  forallb normal_component (split slash (if is_absolute p then str_drop 1 p else p)).

(** A tree all of whose entries are spelled normally and anchored as [p] is:
    all from the root, or all from the working directory.  In such a tree no
    two spellings name one entry, and [p] names the entry the operating
    system would find. *)
Definition spelled_as (p : string) (f : fsys) : bool :=
  normal_path p
  && bool_decide (set_Forall (λ k, normal_path k = true ∧ is_absolute k = is_absolute p)
                             (dirs f))
  && bool_decide (map_Forall (λ k _, normal_path k = true ∧ is_absolute k = is_absolute p)
                             (files f)).

Definition fs_query {A} (q : fsys → A) : M A := λ w, (Ok (q (fs w)), w).

Definition dq : string := String "034"%char "".

(** ** [_create_or_clear_dir] *)

Definition _create_or_clear_dir (dir_path : string) : M unit :=
  ex <- fs_query (λ f, path_exists f dir_path) ;;
  (if ex : bool then
     on_fs (rmtree dir_path) ;;
     print ("Removed directory " +:+ dir_path)
   else ret tt) ;;
  on_fs (makedirs dir_path) ;;
  print ("Created directory " +:+ dir_path).

(** ** [class PyAPIDocsBuilder] *)

Module PyAPIDocsBuilder.

Record t : Type := Build {
  output_dir : string;
  module_names : list string
}.

Definition __init__ (output_dir : string) (module_names : list string) : M t :=
  print ("Generating *.rst Python API docs in directory: " +:+ output_dir) ;;
  ret (Build output_dir module_names).

(** The loop of the [except ImportError] branch. *)
Fixpoint traverse (current_module : pyobj) (sub_module_names : list string)
  : result pyobj :=
  match sub_module_names with
  | [] => Ok current_module
  | sub_module_name :: rest =>
      match getattr current_module sub_module_name with
      | Ok m => traverse m rest
      | Raise e => Raise e
      end
  end.

Definition _get_open3d_module (rt : runtime) (full_module_name : string)
  : result pyobj :=
  match import_module rt "open3d" with
  | Raise e => Raise e
  | Ok open3d =>
      match import_module rt full_module_name with
      | Ok module => Ok module
      | Raise ImportError =>
          let current_module := open3d in
          traverse current_module (drop 1 (split "." full_module_name))
      | Raise e => Raise e
      end
  end.

(** The text [_generate_function_doc] writes. *)
Definition function_doc (sub_module_full_name function_name : string) : string :=
  let out_string := "" in
  let out_string := out_string +:+ sub_module_full_name +:+ "." +:+ function_name in
  let out_string := out_string +:+ nl +:+ str_repeat "-" (String.length out_string) in
  let out_string :=
    out_string +:+ nl +:+ nl +:+ ".. currentmodule:: " +:+ sub_module_full_name in
  let out_string :=
    out_string +:+ nl +:+ nl +:+ ".. autofunction:: " +:+ function_name in
  let out_string := out_string +:+ nl in
  out_string.

Definition _generate_function_doc
    (sub_module_full_name function_name output_path : string) : M unit :=
  on_fs (write_file output_path (function_doc sub_module_full_name function_name)).

(** The text [_generate_class_doc] writes. *)
Definition class_doc (sub_module_full_name class_name : string) : string :=
  let out_string := "" in
  let out_string := out_string +:+ sub_module_full_name +:+ "." +:+ class_name in
  let out_string := out_string +:+ nl +:+ str_repeat "-" (String.length out_string) in
  let out_string :=
    out_string +:+ nl +:+ nl +:+ ".. currentmodule:: " +:+ sub_module_full_name in
  let out_string := out_string +:+ nl +:+ nl +:+ ".. autoclass:: " +:+ class_name in
  let out_string := out_string +:+ nl +:+ "    :members:" in
  let out_string := out_string +:+ nl +:+ "    :undoc-members:" in
  let out_string := out_string +:+ nl +:+ "    :inherited-members:" in
  let out_string := out_string +:+ nl in
  out_string.

Definition _generate_class_doc
    (sub_module_full_name class_name output_path : string) : M unit :=
  on_fs (write_file output_path (class_doc sub_module_full_name class_name)).

(** The text of a module file, from the three lists its loops run over. *)
Definition sub_module_doc
    (sub_module_full_name : string)
    (class_names function_names obj_names : list string) : string :=
  let out_string := "" in
  let out_string := out_string +:+ sub_module_full_name in
  let out_string := out_string +:+ nl +:+ str_repeat "-" (String.length out_string) in
  let out_string :=
    out_string +:+ nl +:+ nl +:+ ".. currentmodule:: " +:+ sub_module_full_name in
  let out_string :=
    if bool_decide (0 < length class_names) then
      let out_string := out_string +:+ nl +:+ nl +:+ "**Classes**" in
      let out_string := out_string +:+ nl +:+ nl +:+ ".. autosummary::" in
      let out_string := out_string +:+ nl in
      let out_string :=
        foldl (λ out_string class_name, out_string +:+ nl +:+ "    " +:+ class_name)
              out_string class_names in
      out_string +:+ nl
    else out_string in
  let out_string :=
    if bool_decide (0 < length function_names) then
      let out_string := out_string +:+ nl +:+ nl +:+ "**Functions**" in
      let out_string := out_string +:+ nl +:+ nl +:+ ".. autosummary::" in
      let out_string := out_string +:+ nl in
      let out_string :=
        foldl (λ out_string function_name,
                 out_string +:+ nl +:+ "    " +:+ function_name)
              out_string function_names in
      out_string +:+ nl
    else out_string in
  let out_string :=
    if bool_decide (0 < length obj_names) then
      let out_string := out_string +:+ nl +:+ nl +:+ ".. toctree::" in
      let out_string := out_string +:+ nl +:+ "    :hidden:" in
      let out_string := out_string +:+ nl in
      let out_string :=
        foldl (λ out_string obj_name,
                 out_string +:+ nl +:+ "    " +:+ obj_name +:+ " <"
                 +:+ sub_module_full_name +:+ "." +:+ obj_name +:+ ">")
              out_string obj_names in
      out_string +:+ nl
    else out_string in
  out_string.

(** The lists [_generate_sub_module_doc] puts in the file. *)
Definition listed_classes (class_names : list string) : list string :=
  sorted class_names.
Definition listed_functions (function_names : list string) : list string :=
  sorted function_names.
Definition listed_objs (class_names function_names : list string) : list string :=
  listed_classes class_names ++ listed_functions function_names.

Definition _generate_sub_module_doc
    (sub_module_full_name : string) (class_names function_names : list string)
    (sub_module_doc_path : string) : M unit :=
  let obj_names := listed_objs class_names function_names in
  let class_names := listed_classes class_names in
  let function_names := listed_functions function_names in
  on_fs (write_file sub_module_doc_path
           (sub_module_doc sub_module_full_name class_names function_names obj_names)).

(** The two list comprehensions over [getmembers]. *)
Definition class_names_of (sub_module : pyobj) : list string :=
  (λ obj, obj.1) <$> filter (λ obj, isclass obj.2) (getmembers sub_module).
Definition function_names_of (sub_module : pyobj) : list string :=
  (λ obj, obj.1) <$> filter (λ obj, isbuiltin obj.2) (getmembers sub_module).

Definition _generate_sub_module_class_function_docs
    (sub_module_full_name : string) (sub_module : pyobj) (output_dir : string)
  : M unit :=
  print ("Generating docs for submodule: " +:+ sub_module_full_name) ;;
  (* Class docs *)
  let class_names := class_names_of sub_module in
  for_each class_names (λ class_name,
    let file_name := sub_module_full_name +:+ "." +:+ class_name +:+ ".rst" in
    let output_path := os_path_join output_dir file_name in
    _generate_class_doc sub_module_full_name class_name output_path) ;;
  (* Function docs *)
  let function_names := function_names_of sub_module in
  for_each function_names (λ function_name,
    let file_name := sub_module_full_name +:+ "." +:+ function_name +:+ ".rst" in
    let output_path := os_path_join output_dir file_name in
    _generate_function_doc sub_module_full_name function_name output_path) ;;
  (* Submodule docs *)
  let sub_module_doc_path := os_path_join output_dir (sub_module_full_name +:+ ".rst") in
  _generate_sub_module_doc sub_module_full_name class_names function_names
    sub_module_doc_path.

Definition generate_rst (rt : runtime) (self : t) : M unit :=
  _create_or_clear_dir (output_dir self) ;;
  for_each (module_names self) (λ module_name,
    module <- lift_result (_get_open3d_module rt module_name) ;;
    _generate_sub_module_class_function_docs module_name module (output_dir self)).

End PyAPIDocsBuilder.

(** ** [class SphinxDocsBuilder] *)

(** The characters [\s] matches, among the first 256. *)
Definition is_re_space (c : ascii) : bool :=
  bool_decide (c ∈ [" "; "009"; "010"; "011"; "012"; "013";
                    "028"; "029"; "030"; "031"; "133"; "160"]%char).

Fixpoint lstrip_space (s : string) : string :=
  match s with
  | String c s' => if is_re_space c then lstrip_space s' else s
  | "" => ""
  end.

Fixpoint all_re_space (s : string) : bool :=
  match s with
  | "" => true
  | String c s' => is_re_space c && all_re_space s'
  end.

(** Cut before the first line feed. *)
Fixpoint cut_at_LF (s : string) : string * string :=
  match s with
  | "" => ("", "")
  | String c s' =>
      if decide (c = LF) then ("", s)
      else let '(a, b) := cut_at_LF s' in (String c a, b)
  end.

(** The [re.match] of [_get_module_names_from_index_rst] and its [group(1)]:
    blanks, then the literal python_api/, then a greedy run to the line feed;
    what is left must be blank. *)
Definition match_python_api (line : string) : option string :=
  let s := lstrip_space line in
  if startswith "python_api/" s then
    let '(g, r) := cut_at_LF (str_drop (String.length "python_api/") s) in
    if all_re_space r then Some g else None
  else None.

Module SphinxDocsBuilder.

Record t : Type := Build {
  documented_modules : list string;
  python_api_output_dir : string;
  html_output_dir : string;
  is_release : bool
}.

Definition _get_module_names_from_index_rst : M (list string) :=
  text <- on_fs (read_file "index.rst") ;;
  ret (foldl (λ module_names line,
                match match_python_api line with
                | Some g => module_names ++ [g]
                | None => module_names
                end)
             [] (readlines text)).

Definition __init__ (html_output_dir : string) (is_release : bool) : M t :=
  documented_modules <- _get_module_names_from_index_rst ;;
  ret (Build documented_modules "python_api" html_output_dir is_release).

Definition _gen_python_api_docs (rt : runtime) (self : t) : M unit :=
  pd <- PyAPIDocsBuilder.__init__ (python_api_output_dir self)
                                  (documented_modules self) ;;
  PyAPIDocsBuilder.generate_rst rt pd.

(** [l[1]] *)
Definition item1 (l : list string) : result string :=
  match l !! 1%nat with
  | Some x => Ok x
  | None => Raise IndexError
  end.

(** The list comprehension over the lines of the version file. *)
Fixpoint version_list_of (lines : list string) : result (list string) :=
  match lines with
  | [] => Ok []
  | line :: rest =>
      match item1 (split " " (rstrip LF line)) with
      | Raise e => Raise e
      | Ok v =>
          match version_list_of rest with
          | Raise e => Raise e
          | Ok vs => Ok (v :: vs)
          end
      end
  end.

(** What the comprehension collects from a line: its item at index 1. *)
Definition second_token (line v : string) : Prop :=
  split " " (rstrip LF line) !! 1%nat = Some v.

(** [release_version], from the text of the version file. *)
Definition release_version_of (text : string) : result string :=
  match version_list_of (readlines text) with
  | Raise e => Raise e
  | Ok version_list => Ok (join "." (slice_to 3 version_list))
  end.

Definition subprocess_check_call (rt : runtime) (cmd : list string) : M unit :=
  λ w, let '(r, f') := check_call rt cmd (environ w) (fs w) in
       (r, World (environ w) f' (stdout w)).

(** The command line of either branch. *)
Definition release_cmd (release_version build_dir : string) : list string :=
  ["sphinx-build"; "-b"; "html";
   "-D"; "version=" +:+ release_version;
   "-D"; "release=" +:+ release_version;
   "."; build_dir].
Definition plain_cmd (build_dir : string) : list string :=
  ["sphinx-build"; "-b"; "html"; "."; build_dir].

(** [_run_sphinx] up to the command line it settles on. *)
Definition sphinx_cmd (self : t) : M (list string) :=
  let build_dir := os_path_join (html_output_dir self) "html" in
  if is_release self then
    text <- on_fs (read_file "../src/Open3D/version.txt") ;;
    release_version <- lift_result (release_version_of text) ;;
    print ("Building docs for release: " +:+ release_version) ;;
    ret (release_cmd release_version build_dir)
  else ret (plain_cmd build_dir).

Definition _run_sphinx (rt : runtime) (self : t) : M unit :=
  cmd <- sphinx_cmd self ;;
  print ("Calling: " +:+ dq +:+ join " " cmd +:+ dq) ;;
  subprocess_check_call rt cmd.

Definition run (rt : runtime) (self : t) : M unit :=
  _gen_python_api_docs rt self ;;
  _run_sphinx rt self.

End SphinxDocsBuilder.

(** ** [class DoxygenDocsBuilder] *)

Module DoxygenDocsBuilder.

Record t : Type := Build { html_output_dir : string }.

Definition __init__ (html_output_dir : string) : M t :=
  ret (Build html_output_dir).

Definition run (rt : runtime) (self : t) : M unit :=
  let doxygen_temp_dir := "doxygen" in
  _create_or_clear_dir doxygen_temp_dir ;;
  let cmd := ["doxygen"; "Doxyfile"] in
  print ("Calling: " +:+ dq +:+ join " " cmd +:+ dq) ;;
  SphinxDocsBuilder.subprocess_check_call rt cmd ;;
  on_fs (copytree (os_path_join "doxygen" "html")
                  (os_path_join (os_path_join (html_output_dir self) "html") "cpp_api")) ;;
  ex <- fs_query (λ f, path_exists f doxygen_temp_dir) ;;
  if ex : bool then on_fs (rmtree doxygen_temp_dir) else ret tt.

End DoxygenDocsBuilder.

(** ** [class JupyterDocsBuilder] *)

(** [str(b)] *)
Definition str_bool (b : bool) : string := if b then "True" else "False".

(** A loop that appends to a list as it goes. *)
Fixpoint for_collect {A B} (l : list A) (acc : list B) (body : A → list B → M (list B))
  : M (list B) :=
  match l with
  | [] => ret acc
  | x :: l' => acc' <- body x acc ;; for_collect l' acc' body
  end.

Module JupyterDocsBuilder.

Record t : Type := Build {
  clean_notebooks : bool;
  execute_notebooks : string;
  current_file_dir : string
}.

Definition __init__ (current_file_dir : string) (clean_notebooks : bool)
    (execute_notebooks : string) : M t :=
  if bool_decide (execute_notebooks ∉ ({["auto"; "always"]} : gset string)) then
    raise (ValueError ("Invalid execute option: " +:+ execute_notebooks +:+ "."))
  else
    print ("Notebook execution mode: " +:+ execute_notebooks) ;;
    ret (Build clean_notebooks execute_notebooks current_file_dir).

Definition is_code (c : cell) : bool := bool_decide (cell_type c = "code").

(** Truth values of [c.source], [c.get(outputs)], [c.get(execution_count)] *)
Definition source_truthy (c : cell) : bool := bool_decide (source c ≠ "").
Definition outputs_truthy (c : cell) : bool := bool_decide (outputs c ≠ []).
Definition execution_count_truthy (c : cell) : bool :=
  match execution_count c with
  | Some n => bool_decide (n ≠ 0%Z)
  | None => false
  end.

Definition has_code (nb : notebook) : bool :=
  existsb source_truthy (filter (λ c, is_code c) (cells nb)).
Definition has_output (nb : notebook) : bool :=
  existsb (λ c, outputs_truthy c || execution_count_truthy c)
          (filter (λ c, is_code c) (cells nb)).

Definition execute (self : t) (nb : notebook) : bool :=
  (bool_decide (execute_notebooks self = "auto") && has_code nb
     && negb (has_output nb))
  || bool_decide (execute_notebooks self = "always").

(** [ep.preprocess(nb, ...)]: how it ended, and the notebook object, which
    it changes in place, as it left it. *)
Definition preprocess (rt : runtime) (nb : notebook) (path : string)
  : M (result unit * notebook) :=
  λ w, let '(r, nb', f') := ep_preprocess rt (environ w) nb path (fs w) in
       (Ok (r, nb'), World (environ w) f' (stdout w)).

(** The [try] statement around [ep.preprocess]; returns [nb] as left by it. *)
Definition try_preprocess (rt : runtime) (nb : notebook) (nb_path : string)
  : M notebook :=
  r <- preprocess rt nb (Path_parent nb_path) ;;
  match r with
  | (Ok _, nb') => ret nb'
  | (Raise CellExecutionError, nb') =>
      print ("Execution of " +:+ Path_name nb_path
             +:+ " failed, this will cause Travis to fail.") ;;
      travis <- in_environ "TRAVIS" ;;
      if travis : bool then raise CellExecutionError else ret nb'
  | (Raise e, _) => raise e
  end.

(** The body of the loop over [nb_paths]. *)
Definition process_notebook (rt : runtime) (self : t) (nb_path : string) : M unit :=
  print ("[Processing notebook " +:+ Path_name nb_path +:+ "]") ;;
  text <- on_fs (read_file nb_path) ;;
  nb <- lift_result (nbformat_read rt text) ;;
  let has_code := has_code nb in
  let has_output := has_output nb in
  let execute := execute self nb in
  print ("has_code: " +:+ str_bool has_code +:+ ", has_output: "
         +:+ str_bool has_output +:+ ", execute: " +:+ str_bool execute) ;;
  if execute then
    nb' <- try_preprocess rt nb nb_path ;;
    on_fs (write_file nb_path (nbformat_write rt nb'))
  else ret tt.

(** The body of the loop over [example_dirs]. *)
Definition stage_example_dir (self : t) (example_dir : string)
    (nb_paths : list string) : M (list string) :=
  let in_dir :=
    Path_div (Path_div (Path_div (Path_parent (current_file_dir self)) "examples")
                       "Python") example_dir in
  let out_dir := Path_div (Path_div (current_file_dir self) "tutorial") example_dir in
  on_fs (copy (Path_div (Path_parent in_dir) "open3d_tutorial.py")
              (Path_div (Path_parent out_dir) "open3d_tutorial.py")) ;;
  (if clean_notebooks self then
     stale <- fs_query (glob_ipynb out_dir) ;;
     for_each stale (λ nb_out_path,
       print ("Delete: " +:+ nb_out_path) ;;
       on_fs (unlink nb_out_path))
   else ret tt) ;;
  found <- fs_query (glob_ipynb in_dir) ;;
  for_collect found nb_paths (λ nb_in_path nb_paths,
    let nb_out_path := Path_div out_dir (Path_name nb_in_path) in
    is_f <- fs_query (λ f, is_file f nb_out_path) ;;
    (if negb is_f then
       print ("Copy: " +:+ nb_in_path +:+ nl +:+ "   -> " +:+ nb_out_path) ;;
       on_fs (copy nb_in_path nb_out_path)
     else print "Copy skipped: {}.format(nb_out_path)") ;;
    ret (nb_paths ++ [nb_out_path])).

(** [run] after its first statement. *)
Definition run_body (rt : runtime) (self : t) : M unit :=
  (* Copy TestData directory to the tutorial folder *)
  let test_data_in_dir :=
    Path_div (Path_div (Path_parent (current_file_dir self)) "examples") "TestData" in
  let test_data_out_dir := Path_div (current_file_dir self) "TestData" in
  ex <- fs_query (λ f, path_exists f test_data_out_dir) ;;
  (if ex : bool then on_fs (rmtree test_data_out_dir) else ret tt) ;;
  on_fs (copytree test_data_in_dir test_data_out_dir) ;;
  (* Copy and execute notebooks in the tutorial folder *)
  let example_dirs := ["Basic"; "Advanced"] in
  nb_paths <- for_collect example_dirs [] (stage_example_dir self) ;;
  (* Execute Jupyter notebooks *)
  for_each nb_paths (process_notebook rt self).

Definition run (rt : runtime) (self : t) : M unit :=
  setenv "CI" "true" ;;
  run_body rt self.

End JupyterDocsBuilder.

(** ** The script body *)

Record args : Type := Args {
  arg_clean_notebooks : bool;
  arg_execute_notebooks : string;
  build_sphinx : bool;
  build_doxygen : bool;
  arg_is_release : bool
}.

(** [pwd] is the directory of the script. *)
Definition main (rt : runtime) (pwd : string) (a : args) : M unit :=
  (* Clear output dir if new docs are to be built *)
  let html_output_dir := os_path_join pwd "_out" in
  _create_or_clear_dir html_output_dir ;;
  (* Clear C++ build directory *)
  let cpp_build_dir := os_path_join (os_path_join (os_path_join pwd "_static") "C++") "build" in
  ex <- fs_query (λ f, path_exists f cpp_build_dir) ;;
  (if ex : bool then
     on_fs (rmtree cpp_build_dir) ;;
     print ("Removed directory " +:+ cpp_build_dir)
   else ret tt) ;;
  (if build_sphinx a then
     print "Sphinx build enabled" ;;
     print "Building Jupyter docs" ;;
     jdb <- JupyterDocsBuilder.__init__ pwd (arg_clean_notebooks a)
                                        (arg_execute_notebooks a) ;;
     JupyterDocsBuilder.run rt jdb ;;
     print "Building Sphinx docs" ;;
     sdb <- SphinxDocsBuilder.__init__ html_output_dir (arg_is_release a) ;;
     SphinxDocsBuilder.run rt sdb
   else print "Sphinx build disabled, use --sphinx to enable") ;;
  if build_doxygen a then
    print "Doxygen build enabled" ;;
    ddb <- DoxygenDocsBuilder.__init__ html_output_dir ;;
    DoxygenDocsBuilder.run rt ddb
  else print "Doxygen build disabled, use --doxygen to enable".

(** ** The execution decision as the documentation words it

    Execute when the mode is always, or when it is auto and the notebook has
    a code cell with non-empty source and no code cell with recorded outputs or
    an execution count. *)

Definition has_recorded_output (nb : notebook) : bool :=
  existsb (λ c, bool_decide (outputs c ≠ []) || bool_decide (is_Some (execution_count c)))
          (filter (λ c, JupyterDocsBuilder.is_code c) (cells nb)).

Definition execute_as_documented (mode : string) (nb : notebook) : bool :=
  bool_decide (mode = "always")
  || (bool_decide (mode = "auto") && JupyterDocsBuilder.has_code nb
      && negb (has_recorded_output nb)).

(** ** The process environment: notions *)

(** A computation that leaves the process environment as it found it,
    whether it returns or raises. *)
Definition env_frame {A} (m : M A) : Prop :=
  ∀ w, environ (m w).2 = environ w.

Definition CI_set (env : gmap string string) : Prop := env !! "CI" = Some "true".

(** Goals [env_frame m] are closed from the hints of this base. *)
Create HintDb frame discriminated.
Ltac frame := eauto 200 with frame nocore.

(** Two runtimes that cannot be told apart by a process whose environment
    has CI set to true. *)
Definition agree_when_CI (rt rt' : runtime) : Prop :=
  import_module rt = import_module rt'
  ∧ nbformat_read rt = nbformat_read rt'
  ∧ nbformat_write rt = nbformat_write rt'
  ∧ (∀ env, CI_set env → ep_preprocess rt env = ep_preprocess rt' env)
  ∧ (∀ env cmd, CI_set env → check_call rt cmd env = check_call rt' cmd env).

(** Two computations that do the same from every world with CI set, and
    keep it set. *)
Definition same_under_CI {A} (m m' : M A) : Prop :=
  ∀ w, CI_set (environ w) → m w = m' w ∧ CI_set (environ (m w).2).

(** Two computations that do the same from every world, and return only
    with CI set. *)
Definition same_then_CI {A} (m m' : M A) : Prop :=
  ∀ w, m w = m' w ∧ ∀ a w', m w = (Ok a, w') → CI_set (environ w').

(** ** The emitter seen from the file system *)

(** What a run shows of itself there: how it ended and the tree it left. *)
Definition fs_view {A} (r : result A * world) : result A * fsys := (r.1, fs r.2).

(** [m] does to the file system what [F] does, whatever else the world holds. *)
Definition runs_as {A} (m : M A) (F : fsys → result A * fsys) : Prop :=
  ∀ w, fs_view (m w) = F (fs w).

Definition fs_bind {A B} (F : fsys → result A * fsys) (G : A → fsys → result B * fsys)
  : fsys → result B * fsys :=
  λ f, match F f with
       | (Ok a, f') => G a f'
       | (Raise e, f') => (Raise e, f')
       end.

(** Writing files one after the other, up to the first failure. *)
Fixpoint write_all (kvs : list (string * string)) (f : fsys) : result unit * fsys :=
  match kvs with
  | [] => (Ok tt, f)
  | (p, s) :: rest =>
      match write_file p s f with
      | (Ok _, f') => write_all rest f'
      | (Raise e, f') => (Raise e, f')
      end
  end.

(** The map after those writes. *)
Definition put_all (kvs : list (string * string)) (m : gmap string string)
  : gmap string string :=
  foldl (λ m kv, <[kv.1 := kv.2]> m) m kvs.

(** [open(p, w)] would succeed. *)
Definition writable (f : fsys) (p : string) : Prop :=
  is_dir f p = false ∧ p ≠ "" ∧ (dirname p = "" ∨ is_dir f (dirname p) = true).

(** The text of the file of a module. *)
Definition module_doc_of (name : string) (module : pyobj) : string :=
  PyAPIDocsBuilder.sub_module_doc name
    (PyAPIDocsBuilder.listed_classes (PyAPIDocsBuilder.class_names_of module))
    (PyAPIDocsBuilder.listed_functions (PyAPIDocsBuilder.function_names_of module))
    (PyAPIDocsBuilder.listed_objs (PyAPIDocsBuilder.class_names_of module)
       (PyAPIDocsBuilder.function_names_of module)).

(** The files one module gives rise to, in the order they are written. *)
Definition module_writes (out name : string) (module : pyobj) : list (string * string) :=
  ((λ c, (os_path_join out (name +:+ "." +:+ c +:+ ".rst"),
          PyAPIDocsBuilder.class_doc name c))
     <$> PyAPIDocsBuilder.class_names_of module)
  ++ ((λ f, (os_path_join out (name +:+ "." +:+ f +:+ ".rst"),
             PyAPIDocsBuilder.function_doc name f))
        <$> PyAPIDocsBuilder.function_names_of module)
  ++ [(os_path_join out (name +:+ ".rst"), module_doc_of name module)].

(** [_create_or_clear_dir] and the loop of [generate_rst] on the tree alone. *)
Definition clear_fs (out : string) (f : fsys) : result unit * fsys :=
  if path_exists f out then
    match rmtree out f with
    | (Ok _, f1) => makedirs out f1
    | (Raise e, f1) => (Raise e, f1)
    end
  else makedirs out f.

Fixpoint emit_fs (rt : runtime) (out : string) (names : list string) (f : fsys)
  : result unit * fsys :=
  match names with
  | [] => (Ok tt, f)
  | name :: rest =>
      match PyAPIDocsBuilder._get_open3d_module rt name with
      | Raise e => (Raise e, f)
      | Ok module =>
          match write_all (module_writes out name module) f with
          | (Ok _, f1) => emit_fs rt out rest f1
          | (Raise e, f1) => (Raise e, f1)
          end
      end
  end.

(** Every write of a pass in which all names resolve. *)
Fixpoint all_writes (rt : runtime) (out : string) (names : list string)
  : list (string * string) :=
  match names with
  | [] => []
  | name :: rest =>
      match PyAPIDocsBuilder._get_open3d_module rt name with
      | Ok module => module_writes out name module ++ all_writes rt out rest
      | Raise _ => []
      end
  end.

(** Nothing lies below [out]. *)
Definition empty_below (out : string) (f : fsys) : Prop :=
  ∀ p, under out p = true → (p ∉ dirs f) ∧ files f !! p = None.

(** [out] as [_create_or_clear_dir] leaves it: an empty directory, and not
    also a file, in a directory that exists. *)
Definition fresh_dir (out : string) (f : fsys) : Prop :=
  out ∈ dirs f ∧ files f !! out = None ∧ empty_below out f
  ∧ (dirname out = "" ∨ is_dir f (dirname out) = true).

(** A directory path spelled without a trailing slash or dot.  This is what
    the steps of [makedirs] need; it does not make the spelling normal (see
    [normal_path]). *)
Definition clean_dir (out : string) : bool :=
  negb (bool_decide (out = "")) && negb (ends_with_slash out)
  && negb (bool_decide (basename out = ".")).

(** In a tree, what lies below a path that does not exist?  Nothing. *)
Definition orphan_free (out : string) (f : fsys) : bool :=
  path_exists f out
  || (bool_decide (set_Forall (λ p, ¬ under out p) (dirs f))
      && bool_decide (map_Forall (λ p _, ¬ under out p) (files f))).

(** ** What the emitter is asked to document *)

(** A descriptor file stands for a module, a class of a module or a function
    of a module. *)
Inductive descriptor : Type :=
  | DModule (m : string)
  | DClass (m c : string)
  | DFunction (m f : string).

Definition descriptor_file (d : descriptor) : string :=
  match d with
  | DModule m => m +:+ ".rst"
  | DClass m c => m +:+ "." +:+ c +:+ ".rst"
  | DFunction m f => m +:+ "." +:+ f +:+ ".rst"
  end.

Definition descriptor_path (out : string) (d : descriptor) : string :=
  os_path_join out (descriptor_file d).

Definition descriptor_text (rt : runtime) (d : descriptor) : string :=
  match d with
  | DModule m =>
      match PyAPIDocsBuilder._get_open3d_module rt m with
      | Ok module => module_doc_of m module
      | Raise _ => ""
      end
  | DClass m c => PyAPIDocsBuilder.class_doc m c
  | DFunction m f => PyAPIDocsBuilder.function_doc m f
  end.

(** The modules of the list, and of each the attributes that are classes
    and those that are built-in callables. *)
Definition documented (rt : runtime) (names : list string) (d : descriptor) : Prop :=
  match d with
  | DModule m => m ∈ names
  | DClass m c =>
      m ∈ names ∧ ∃ module, PyAPIDocsBuilder._get_open3d_module rt m = Ok module
                            ∧ c ∈ PyAPIDocsBuilder.class_names_of module
  | DFunction m f =>
      m ∈ names ∧ ∃ module, PyAPIDocsBuilder._get_open3d_module rt m = Ok module
                            ∧ f ∈ PyAPIDocsBuilder.function_names_of module
  end.

(** A valid list of module names.  Every name is free of slashes and
    resolves; the classes and functions of the module have names free of
    slashes and dots, no name standing for both; and no name of the list is
    spelled as a module of the list, a dot, and one of its members. *)
Definition member_name_ok (s : string) : bool :=
  negb (contains slash s) && negb (contains "." s).

Definition documented_names (module : pyobj) : list string :=
  PyAPIDocsBuilder.class_names_of module ++ PyAPIDocsBuilder.function_names_of module.

Definition valid_module (rt : runtime) (name : string) : bool :=
  negb (contains slash name)
  && match PyAPIDocsBuilder._get_open3d_module rt name with
     | Ok module =>
         forallb member_name_ok (documented_names module)
         && forallb (λ c, bool_decide (c ∉ PyAPIDocsBuilder.function_names_of module))
                    (PyAPIDocsBuilder.class_names_of module)
     | Raise _ => false
     end.

Definition no_clash (rt : runtime) (names : list string) (name : string) : bool :=
  match PyAPIDocsBuilder._get_open3d_module rt name with
  | Ok module =>
      forallb (λ c, bool_decide (name +:+ "." +:+ c ∉ names)) (documented_names module)
  | Raise _ => true
  end.

Definition valid_names (rt : runtime) (names : list string) : bool :=
  forallb (valid_module rt) names && forallb (no_clash rt names) names.

(** ** Sample inputs *)

(** A version file in the layout of [src/Open3D/version.txt]. *)
Definition version_txt : string :=
  "OPEN3D_VERSION_MAJOR 1" +:+ nl +:+
  "OPEN3D_VERSION_MINOR 2" +:+ nl +:+
  "OPEN3D_VERSION_PATCH 3" +:+ nl.

(** A version file whose second line carries the whole version. *)
Definition version_on_second_line : string :=
  "Open3D version" +:+ nl +:+
  "version 1 2 3 extra" +:+ nl.

(** A code cell never run, the same cell after a run, and one saved with an
    execution count of zero. *)
Definition fresh_cell : cell := Cell "code" "print(1)" [] None.
Definition run_cell : cell := Cell "code" "print(1)" ["1"] (Some 1%Z).
Definition zero_count_cell : cell := Cell "code" "print(1)" [] (Some 0%Z).

Definition fresh_nb : notebook := Notebook [Cell "markdown" "# Title" [] None; fresh_cell].
Definition run_nb : notebook := Notebook [Cell "markdown" "# Title" [] None; run_cell].
Definition zero_count_nb : notebook := Notebook [zero_count_cell].

Definition auto_builder : JupyterDocsBuilder.t :=
  JupyterDocsBuilder.Build false "auto" "/repo/docs".
Definition always_builder : JupyterDocsBuilder.t :=
  JupyterDocsBuilder.Build false "always" "/repo/docs".

Definition empty_world : world := World ∅ (FSys ∅ ∅) [].

(** A release build in a tree that holds the version file. *)
Definition release_builder : SphinxDocsBuilder.t :=
  SphinxDocsBuilder.Build ["open3d.camera"] "python_api" "/repo/docs/_out" true.
Definition release_world : world :=
  World ∅ (FSys ∅ {["../src/Open3D/version.txt" := version_txt]}) [].

(** A root module in the shape of the compiled package: sub-modules that can
    be reached as attributes and not imported on their own. *)
Definition camera_module : pyobj :=
  PyObj KModule
    [("read_pinhole_camera_intrinsic", PyObj KBuiltin []);
     ("PinholeCameraIntrinsic", PyObj KClass []);
     ("__name__", PyObj KOther []);
     ("PinholeCameraParameters", PyObj KClass [])].
Definition io_module : pyobj :=
  PyObj KModule
    [("write_image", PyObj KBuiltin []); ("read_image", PyObj KBuiltin [])].
Definition open3d_root : pyobj :=
  PyObj KModule [("camera", camera_module); ("io", io_module)].

(** A module whose class is named after its function in the alphabet. *)
Definition lowercase_module : pyobj :=
  PyObj KModule [("a", PyObj KBuiltin []); ("b", PyObj KClass [])].

Definition sample_rt : runtime :=
  Runtime (λ name, if decide (name = "open3d") then Ok open3d_root else Raise ImportError)
          (λ _, Raise (OtherError "NotJSONError"))
          (λ _, "")
          (λ _ nb _ f, (Ok tt, nb, f))
          (λ _ _ f, (Ok tt, f)).

(** A runtime whose kernel and subprocesses misbehave unless CI is true. *)
Definition CI_sensitive_rt : runtime :=
  Runtime (import_module sample_rt) (nbformat_read sample_rt) (nbformat_write sample_rt)
          (λ env nb path f,
             if decide (CI_set env) then ep_preprocess sample_rt env nb path f
             else (Raise (OtherError "TimeoutError"), nb, f))
          (λ cmd env f,
             if decide (CI_set env) then check_call sample_rt cmd env f
             else (Raise CalledProcessError, f)).

Definition sphinx_args : args := Args false "auto" true false false.

(** A notebook codec for the samples: a line per cell, and a reader that
    knows the documents of a given table. *)
Definition render_count (n : option Z) : string :=
  match n with
  | None => "null"
  | Some n => pretty n
  end.
Definition render_cell (c : cell) : string :=
  cell_type c +:+ "|" +:+ source c +:+ "|" +:+ join "," (outputs c) +:+ "|"
  +:+ render_count (execution_count c) +:+ nl.
Definition render_nb (nb : notebook) : string :=
  foldr (λ c s, render_cell c +:+ s) "" (cells nb).
Definition read_known (known : list notebook) (text : string) : result notebook :=
  match list_find (λ nb, render_nb nb = text) known with
  | Some (_, nb) => Ok nb
  | None => Raise (OtherError "NotJSONError")
  end.

(** A kernel in which the first code cell raises: the cell keeps the error
    as its output and the run stops. *)
Fixpoint fail_first_code (cs : list cell) : list cell :=
  match cs with
  | [] => []
  | c :: cs' =>
      if JupyterDocsBuilder.is_code c then
        Cell (cell_type c) (source c) ["ZeroDivisionError"] (Some 1%Z) :: cs'
      else c :: fail_first_code cs'
  end.
Definition failed_nb : notebook := Notebook (fail_first_code (cells fresh_nb)).

Definition failing_rt : runtime :=
  Runtime (import_module sample_rt)
          (read_known [fresh_nb; run_nb; failed_nb])
          render_nb
          (λ _ nb _ f, (Raise CellExecutionError, Notebook (fail_first_code (cells nb)), f))
          (λ _ _ f, (Ok tt, f)).

(** The repository with one tutorial notebook, before anything is staged. *)
Definition repo_fs : fsys :=
  FSys {["/repo"; "/repo/docs"; "/repo/docs/tutorial"; "/repo/docs/tutorial/Basic";
         "/repo/docs/tutorial/Advanced"; "/repo/examples"; "/repo/examples/TestData";
         "/repo/examples/Python"; "/repo/examples/Python/Basic";
         "/repo/examples/Python/Advanced"]}
       {["/repo/examples/Python/open3d_tutorial.py" := "import open3d";
         "/repo/examples/Python/Basic/pointcloud.ipynb" := render_nb fresh_nb]}.
Definition repo_world : world := World ∅ repo_fs [].
Definition travis_world : world := World {["TRAVIS" := "true"]} repo_fs [].

Definition staged_path : string := "/repo/docs/tutorial/Basic/pointcloud.ipynb".

(** The same tree with the notebook staged. *)
Definition staged_fs : fsys :=
  FSys (dirs repo_fs) (<[staged_path := render_nb fresh_nb]> (files repo_fs)).
Definition staged_world : world := World ∅ staged_fs [].

(** The emitter as [SphinxDocsBuilder] sets it up, and a tree that holds the
    output of an earlier build. *)
Definition sample_emitter : PyAPIDocsBuilder.t :=
  PyAPIDocsBuilder.Build "python_api" ["open3d.camera"; "open3d.io"].
Definition stale_world : world :=
  World ∅ (FSys {["python_api"]} {["python_api/open3d.removed.rst" := "stale";
                                   "index.rst" := "python_api/open3d.camera"]}) [].

(** ** Further notions and sample inputs *)

(** The module file as the documentation words it, line by line: the
    title and its underline, the current-module line, the summary of the
    classes in ascending order, the summary of the functions in ascending
    order, and the navigation tree over the classes followed by the
    functions.  A part with nothing to list is left out. *)
Definition summary_lines (heading : string) (names : list string) : list string :=
  match names with
  | [] => []
  | _ => [""; heading; ""; ".. autosummary::"; ""]
         ++ ((λ n, "    " +:+ n) <$> names) ++ [""]
  end.
Definition toctree_lines (name : string) (objs : list string) : list string :=
  match objs with
  | [] => []
  | _ => [""; ".. toctree::"; "    :hidden:"; ""]
         ++ ((λ o, "    " +:+ o +:+ " <" +:+ name +:+ "." +:+ o +:+ ">") <$> objs) ++ [""]
  end.
Definition module_file_lines (name : string) (classes functions : list string)
  : list string :=
  [name; str_repeat "-" (String.length name); ""; ".. currentmodule:: " +:+ name]
  ++ summary_lines "**Classes**" classes
  ++ summary_lines "**Functions**" functions
  ++ toctree_lines name (classes ++ functions).

(** A package whose class [tool] is defined in its sub-module of the same
    name and re-exported: the package and the sub-module both import, and
    the attribute [tool] of the package is the class. *)
Definition tool_module : pyobj := PyObj KModule [("tool", PyObj KClass [])].
Definition pkg_module : pyobj :=
  PyObj KModule [("tool", PyObj KClass []); ("__name__", PyObj KOther [])].
Definition pkg_rt : runtime :=
  Runtime (λ name, if decide (name = "open3d") then Ok open3d_root
                   else if decide (name = "pkg") then Ok pkg_module
                   else if decide (name = "pkg.tool") then Ok tool_module
                   else Raise ImportError)
          (nbformat_read sample_rt) (nbformat_write sample_rt)
          (ep_preprocess sample_rt) (check_call sample_rt).

(** An index file in the layout of [docs/index.rst]: a toctree whose python
    entries are indented; one entry carries trailing blanks. *)
Definition index_rst : string :=
  ".. toctree::" +:+ nl +:+
  "    :caption: Python API" +:+ nl +:+
  nl +:+
  "    python_api/open3d.camera" +:+ nl +:+
  "    python_api/open3d.io  " +:+ nl +:+
  "    tutorial/python_api/not_this" +:+ nl.

(** The sample version file with an empty line at its end. *)
Definition version_txt_blank_line : string := version_txt +:+ nl.
Definition blank_line_world : world :=
  World ∅ (FSys ∅ {["../src/Open3D/version.txt" := version_txt_blank_line]}) [].

(** Names that keep the files of a module in the output directory: the
    module name and the names of its documented members are free of
    slashes. *)
Definition plain_members (name : string) (module : pyobj) : bool :=
  negb (contains slash name)
  && forallb (λ c, negb (contains slash c)) (documented_names module).

(** The generator for the C++ reference as a subprocess: it leaves two
    pages in the html directory below its working directory. *)
Definition doxygen_writes (f : fsys) : fsys :=
  FSys ({["doxygen/html"; "doxygen/html/search"]} ∪ dirs f)
       (<["doxygen/html/index.html" := "<html>index</html>"]>
          (<["doxygen/html/search/search.js" := "var x;"]> (files f))).
Definition doxygen_rt : runtime :=
  Runtime (import_module sample_rt) (nbformat_read sample_rt) (nbformat_write sample_rt)
          (ep_preprocess sample_rt)
          (λ cmd _ f, if decide (cmd = ["doxygen"; "Doxyfile"])
                      then (Ok tt, doxygen_writes f) else (Ok tt, f)).
(** One that fails after having written its pages. *)
Definition doxygen_failing_rt : runtime :=
  Runtime (import_module sample_rt) (nbformat_read sample_rt) (nbformat_write sample_rt)
          (ep_preprocess sample_rt)
          (λ _ _ f, (Raise CalledProcessError, doxygen_writes f)).

Definition doxygen_builder : DoxygenDocsBuilder.t := DoxygenDocsBuilder.Build "/repo/docs/_out".

(** The tree after the site build: the output directory with its html
    directory. *)
Definition site_built_world : world :=
  World ∅ (FSys {["/repo"; "/repo/docs"; "/repo/docs/_out"; "/repo/docs/_out/html"]}
                {["/repo/docs/_out/html/index.html" := "<html>site</html>"]}) [].
(** The same with a C++ reference from an earlier run in place. *)
Definition cpp_api_present_world : world :=
  World ∅ (FSys ({["/repo/docs/_out/html/cpp_api"]} ∪ dirs (fs site_built_world))
                (files (fs site_built_world))) [].

(** The body of the loop over the notebooks found in the examples
    directory. *)
Definition stage_notebook (out_dir nb_in_path : string) (nb_paths : list string)
  : M (list string) :=
  let nb_out_path := Path_div out_dir (Path_name nb_in_path) in
  is_f <- fs_query (λ f, is_file f nb_out_path) ;;
  (if negb is_f then
     print ("Copy: " +:+ nb_in_path +:+ nl +:+ "   -> " +:+ nb_out_path) ;;
     on_fs (copy nb_in_path nb_out_path)
   else print "Copy skipped: {}.format(nb_out_path)") ;;
  ret (nb_paths ++ [nb_out_path]).

(** A tree in which a notebook was staged by an earlier run and has since
    changed in the examples directory. *)
Definition restaged_fs : fsys :=
  FSys (dirs repo_fs)
       (<[staged_path := render_nb run_nb]>
          (<["/repo/examples/Python/Basic/new.ipynb" := render_nb fresh_nb]> (files repo_fs))).
Definition restaged_world : world := World ∅ restaged_fs [].

(** A kernel that gives up on every notebook with an error that is not a
    cell error. *)
Definition timeout_rt : runtime :=
  Runtime (import_module sample_rt)
          (read_known [fresh_nb; run_nb; failed_nb])
          render_nb
          (λ _ nb _ f, (Raise (OtherError "TimeoutError"), nb, f))
          (λ _ _ f, (Ok tt, f)).

(** A kernel that runs every code cell: each gets an output and a count. *)
Definition run_cells (cs : list cell) : list cell :=
  (λ c, if JupyterDocsBuilder.is_code c
        then Cell (cell_type c) (source c) ["1"] (Some 1%Z) else c) <$> cs.
Definition running_rt : runtime :=
  Runtime (import_module sample_rt)
          (read_known [fresh_nb; run_nb; failed_nb])
          render_nb
          (λ _ nb _ f, (Ok tt, Notebook (run_cells (cells nb)), f))
          (λ _ _ f, (Ok tt, f)).


(** The script called without --sphinx and with a mode it would reject,
    and called with nothing at all. *)
Definition bogus_mode_args : args := Args true "bogus" false false true.
Definition no_args : args := Args false "auto" false false false.
(** The same mode with the site build asked for. *)
Definition bogus_sphinx_args : args := Args false "bogus" true true false.

(** A tree that holds the output of an earlier build. *)
Definition built_world : world :=
  World ∅ (FSys {["/repo"; "/repo/docs"; "/repo/docs/_out"; "/repo/docs/_out/html"]}
                {["/repo/docs/_out/html/index.html" := "<html>site</html>";
                  "/repo/docs/index.rst" := index_rst]}) [].

(** What staging may touch: between two trees the directories are the same
    and so is every file that is neither named as a notebook nor as the
    tutorial helper script. *)
Definition only_notebooks_touched (f f' : fsys) : Prop :=
  dirs f' = dirs f
  ∧ ∀ p, endswith ".ipynb" (basename p) = false → basename p ≠ "open3d_tutorial.py" →
         files f' !! p = files f !! p.

(** A stager that cleans, and a tree with notes next to a staged notebook
    that has no source any more. *)
Definition cleaning_builder : JupyterDocsBuilder.t :=
  JupyterDocsBuilder.Build true "auto" "/repo/docs".
Definition notes_world : world :=
  World ∅ (FSys (dirs repo_fs)
             (<["/repo/docs/tutorial/Basic/notes.txt" := "keep"]>
                (<["/repo/docs/tutorial/Basic/gone.ipynb" := render_nb run_nb]>
                   (files repo_fs)))) [].

(** * Properties *)

Local Open Scope py_scope.

(** ** The monad *)

Lemma bind_ok {A B} (m : M A) (k : A → M B) w a w' :
  m w = (Ok a, w') → bind m k w = k a w'.
Proof. unfold bind. by intros ->. Qed.

Lemma bind_raise {A B} (m : M A) (k : A → M B) w e w' :
  m w = (Raise e, w') → bind m k w = (Raise e, w').
Proof. unfold bind. by intros ->. Qed.

(** ** Strings and paths *)

Section strings.

Lemma str_app_cons c (a b : string) : String c a +:+ b = String c (a +:+ b).
Proof. done. Qed.

Lemma str_length_app (a b : string) :
  String.length (a +:+ b) = String.length a + String.length b.
Proof. induction a as [|c a IH]; [done|]. rewrite str_app_cons. simpl. by rewrite IH. Qed.

Lemma string_app_assoc (a b c : string) : (a +:+ b) +:+ c = a +:+ b +:+ c.
Proof. induction a as [|x a IH]; [done|]. rewrite !str_app_cons. by rewrite IH. Qed.

Lemma list_ascii_app (a b : string) :
  list_ascii_of_string (a +:+ b) = list_ascii_of_string a ++ list_ascii_of_string b.
Proof. induction a as [|c a IH]; [done|]. rewrite str_app_cons. simpl. by rewrite IH. Qed.

Lemma string_app_inj_r (a b s : string) : a +:+ s = b +:+ s → a = b.
Proof.
  intros Heq. apply (f_equal list_ascii_of_string) in Heq.
  rewrite !list_ascii_app in Heq. apply app_inv_tail in Heq.
  apply (f_equal string_of_list_ascii) in Heq.
  by rewrite !string_of_list_ascii_of_string in Heq.
Qed.

Lemma contains_app ch (a b : string) :
  contains ch (a +:+ b) = contains ch a || contains ch b.
Proof.
  induction a as [|c a IH]; [done|]. rewrite str_app_cons. simpl.
  by rewrite IH, orb_assoc.
Qed.

Lemma rcut_none ch s : contains ch s = false → rcut ch s = None.
Proof.
  induction s as [|c s IH]; simpl; [done|].
  intros [Hc Hs]%orb_false_iff. rewrite IH by done.
  apply bool_decide_eq_false in Hc. by rewrite decide_False.
Qed.

Lemma rcut_app ch (h t : string) :
  contains ch t = false → rcut ch (h +:+ String ch t) = Some (h, t).
Proof.
  intros Ht. induction h as [|c h IH].
  - change ("" +:+ String ch t) with (String ch t). simpl.
    rewrite (rcut_none _ _ Ht). by rewrite decide_True.
  - rewrite str_app_cons. simpl. by rewrite IH.
Qed.

Lemma rcut_none_inv ch s : rcut ch s = None → contains ch s = false.
Proof.
  induction s as [|c s IH]; simpl; [done|].
  destruct (rcut ch s) as [[??]|]; [done|].
  destruct (decide (c = ch)); [done|]. intros _.
  rewrite bool_decide_eq_false_2 by done. by apply IH.
Qed.

Lemma rcut_some ch s h t :
  rcut ch s = Some (h, t) → s = h +:+ String ch t ∧ contains ch t = false.
Proof.
  revert h. induction s as [|c s IH]; simpl; intros h; [done|].
  destruct (rcut ch s) as [[h' t']|] eqn:Hcut.
  - intros [= <- <-]. by destruct (IH h' eq_refl) as [-> Ht].
  - destruct (decide (c = ch)) as [->|]; [|done]. intros [= <- <-].
    split; [done|]. by apply rcut_none_inv.
Qed.

(** A dotted or slashed name is cut in one way only at its last separator. *)
Lemma sep_app_inj ch (a b a' b' : string) :
  contains ch b = false → contains ch b' = false →
  a +:+ String ch b = a' +:+ String ch b' → a = a' ∧ b = b'.
Proof.
  intros Hb Hb' Heq. apply (f_equal (rcut ch)) in Heq.
  rewrite !rcut_app in Heq by done. by injection Heq.
Qed.

Lemma prefix_app (a b : string) : is_prefix a (a +:+ b) = true.
Proof.
  induction a as [|c a IH]; [done|].
  rewrite str_app_cons. simpl. by rewrite bool_decide_eq_true_2.
Qed.

Lemma prefix_length (a b : string) :
  is_prefix a b = true → String.length a ≤ String.length b.
Proof.
  revert b. induction a as [|x a IH]; intros [|c b]; simpl; try done; try lia.
  intros [_ Hp]%andb_true_iff. apply IH in Hp. lia.
Qed.

Lemma rstrip_length ch s : String.length (rstrip ch s) ≤ String.length s.
Proof.
  induction s as [|c s IH]; simpl; [done|].
  destruct (rstrip ch s); simpl in *; [destruct (decide (c = ch)); simpl; lia|lia].
Qed.

Lemma rstrip_id s : ends_with_slash s = false → rstrip slash s = s.
Proof.
  induction s as [|c s IH]; [done|].
  destruct s as [|c' s'].
  - simpl. intros Hc%bool_decide_eq_false. by rewrite decide_False.
  - intros Hs. change (ends_with_slash (String c (String c' s')))
      with (ends_with_slash (String c' s')) in Hs.
    change (rstrip slash (String c (String c' s')))
      with (match rstrip slash (String c' s') with
            | "" => if decide (c = slash) then "" else String c ""
            | r => String c r
            end).
    by rewrite IH.
Qed.

Lemma all_slashes_ends s : s ≠ "" → all_slashes s = true → ends_with_slash s = true.
Proof.
  induction s as [|c s IH]; [done|]. intros _.
  simpl. intros [Hc Hs]%andb_true_iff. destruct s as [|c' s']; [done|].
  by apply IH.
Qed.

End strings.

Section paths.

Lemma under_length d p : under d p = true → String.length d < String.length p.
Proof.
  unfold under. intros Hp%prefix_length. rewrite str_length_app in Hp. simpl in Hp. lia.
Qed.

Lemma under_irrefl d : under d d = false.
Proof.
  destruct (under d d) eqn:Hu; [|done]. apply under_length in Hu. lia.
Qed.

Lemma under_app d x : under d (d +:+ "/" +:+ x) = true.
Proof.
  unfold under. rewrite <- string_app_assoc. apply prefix_app.
Qed.

Lemma os_path_split_app out x :
  out ≠ "" → ends_with_slash out = false → contains slash x = false →
  os_path_split (out +:+ "/" +:+ x) = (out, x).
Proof.
  intros Hne Hend Hx. unfold os_path_split.
  change (out +:+ "/" +:+ x) with (out +:+ String slash x).
  rewrite rcut_app by done.
  destruct (all_slashes out) eqn:Hall.
  - apply all_slashes_ends in Hall; [congruence|done].
  - by rewrite rstrip_id.
Qed.

Lemma os_path_split_plain x : contains slash x = false → os_path_split x = ("", x).
Proof. intros Hx. unfold os_path_split. by rewrite rcut_none. Qed.

Lemma os_path_split_head_length p :
  String.length (os_path_split p).1 ≤ String.length p.
Proof.
  unfold os_path_split. destruct (rcut slash p) as [[h t]|] eqn:Hcut; simpl; [|lia].
  apply rcut_some in Hcut as [-> _]. rewrite str_length_app. simpl.
  destruct (all_slashes h).
  - rewrite str_length_app. simpl. lia.
  - pose proof (rstrip_length slash h). lia.
Qed.

Lemma os_path_split_head_shorter p :
  (os_path_split p).2 ≠ "" → String.length (os_path_split p).1 < String.length p.
Proof.
  unfold os_path_split. destruct (rcut slash p) as [[h t]|] eqn:Hcut; simpl.
  - intros Ht. apply rcut_some in Hcut as [-> _]. rewrite str_length_app. simpl.
    destruct t as [|c t]; [done|]. simpl.
    destruct (all_slashes h).
    + rewrite str_length_app. simpl. lia.
    + pose proof (rstrip_length slash h). lia.
  - intros Hp. destruct p; [done|]. simpl. lia.
Qed.

(** Joining a clean directory and a plain file name. *)
Lemma os_path_join_plain out x :
  out ≠ "" → ends_with_slash out = false → contains slash x = false →
  os_path_join out x = out +:+ "/" +:+ x.
Proof.
  intros Hne Hend Hx. unfold os_path_join.
  assert (startswith "/" x = false) as ->.
  { destruct x as [|c x]; [done|]. simpl in Hx. apply orb_false_iff in Hx as [Hc _].
    apply bool_decide_eq_false in Hc. unfold startswith. simpl.
    rewrite bool_decide_eq_false_2; [done|]. intros <-. by apply Hc. }
  rewrite bool_decide_eq_false_2 by done. by rewrite Hend.
Qed.

End paths.

(** ** The notebook stager: construction *)

(** C6.  Constructing the stager with an execution mode other than auto and
    always raises [ValueError] at once: the world, and with it the file system,
    is as it was. *)
Theorem init_rejects_other_modes
    (current_file_dir : string) (clean_notebooks : bool) (mode : string) (w : world) :
  mode ≠ "auto" → mode ≠ "always" →
  JupyterDocsBuilder.__init__ current_file_dir clean_notebooks mode w
  = (Raise (ValueError ("Invalid execute option: " +:+ mode +:+ ".")), w).
Proof.
  intros Hauto Halways. unfold JupyterDocsBuilder.__init__.
  rewrite bool_decide_eq_true_2; [done|].
  rewrite elem_of_union, !elem_of_singleton. tauto.
Qed.

Lemma init_rejects_other_modes_witness :
  JupyterDocsBuilder.__init__ "/repo/docs" false "bogus" empty_world
  = (Raise (ValueError "Invalid execute option: bogus."), empty_world).
Proof. by apply (init_rejects_other_modes "/repo/docs" false "bogus"). Defined.

(** The two modes the constructor accepts. *)
Lemma init_accepts_modes current_file_dir clean_notebooks mode w :
  mode = "auto" ∨ mode = "always" →
  ∃ w', JupyterDocsBuilder.__init__ current_file_dir clean_notebooks mode w
        = (Ok (JupyterDocsBuilder.Build clean_notebooks mode current_file_dir), w')
        ∧ fs w' = fs w ∧ environ w' = environ w.
Proof.
  intros Hmode. unfold JupyterDocsBuilder.__init__.
  rewrite bool_decide_eq_false_2;
    [|rewrite elem_of_union, !elem_of_singleton; tauto].
  eexists. split; [reflexivity|]. done.
Qed.

(** ** The notebook stager: the execution decision *)

Section decision.
Import JupyterDocsBuilder.

Lemma has_code_spec nb :
  has_code nb = true ↔ ∃ c, c ∈ cells nb ∧ cell_type c = "code" ∧ source c ≠ "".
Proof.
  unfold has_code. rewrite existsb_exists. split.
  - intros (c & Hin & Hsrc). exists c.
    apply list_elem_of_In, list_elem_of_filter in Hin as [Hcode Hin].
    unfold is_code in Hcode. unfold source_truthy in Hsrc.
    apply bool_decide_eq_true in Hsrc. apply Is_true_true, bool_decide_eq_true in Hcode.
    done.
  - intros (c & Hin & Hcode & Hsrc). exists c. split.
    + apply list_elem_of_In, list_elem_of_filter. split; [|done].
      unfold is_code. by apply bool_decide_spec.
    + unfold source_truthy. by apply bool_decide_eq_true.
Qed.

Lemma has_output_spec nb :
  has_output nb = true ↔
  ∃ c, c ∈ cells nb ∧ cell_type c = "code"
       ∧ (outputs c ≠ [] ∨ ∃ n, execution_count c = Some n ∧ n ≠ 0%Z).
Proof.
  unfold has_output. rewrite existsb_exists. split.
  - intros (c & Hin & Hout). exists c.
    apply list_elem_of_In, list_elem_of_filter in Hin as [Hcode Hin].
    unfold is_code in Hcode. apply Is_true_true, bool_decide_eq_true in Hcode.
    split; [done|]. split; [done|].
    apply orb_true_iff in Hout as [Hout | Hout].
    + left. by apply bool_decide_eq_true in Hout.
    + right. unfold execution_count_truthy in Hout.
      destruct (execution_count c) as [n|]; [|done].
      exists n. by apply bool_decide_eq_true in Hout.
  - intros (c & Hin & Hcode & Hout). exists c. split.
    + apply list_elem_of_In, list_elem_of_filter. split; [|done].
      unfold is_code. by apply bool_decide_spec.
    + apply orb_true_iff. destruct Hout as [Hout | (n & Hn & Hnz)].
      * left. by apply bool_decide_eq_true.
      * right. unfold execution_count_truthy. rewrite Hn.
        by apply bool_decide_eq_true.
Qed.

(** C7, with the execution count read as Python reads it.  A notebook is
    executed exactly when the mode is always, or the mode is auto and the
    notebook has a code cell with non-empty source and no code cell with
    non-empty outputs or a non-zero execution count.  So a code-bearing
    notebook without prior outputs is executed under auto, and the same
    notebook with recorded outputs is skipped under auto and executed under
    always. *)
Theorem execute_decision self nb :
  (execute self nb = true ↔
     execute_notebooks self = "always"
     ∨ (execute_notebooks self = "auto"
        ∧ (∃ c, c ∈ cells nb ∧ cell_type c = "code" ∧ source c ≠ "")
        ∧ ¬ (∃ c, c ∈ cells nb ∧ cell_type c = "code"
                  ∧ (outputs c ≠ [] ∨ ∃ n, execution_count c = Some n ∧ n ≠ 0%Z))))
  ∧ execute auto_builder fresh_nb = true
  ∧ execute auto_builder run_nb = false
  ∧ execute always_builder run_nb = true.
Proof.
  split; [|done].
  unfold execute. rewrite orb_true_iff, !andb_true_iff, negb_true_iff.
  rewrite !bool_decide_eq_true, has_code_spec.
  rewrite <- not_true_iff_false, has_output_spec. tauto.
Qed.

(** C7 as worded fails on a count of zero: the cell has an execution count,
    yet the notebook is executed under auto. *)
Lemma execute_zero_count :
  execute auto_builder zero_count_nb = true
  ∧ execute_as_documented (execute_notebooks auto_builder) zero_count_nb = false
  ∧ (∃ c, c ∈ cells zero_count_nb ∧ cell_type c = "code"
          ∧ is_Some (execution_count c)).
Proof.
  split; [done|]. split; [done|].
  exists zero_count_cell. split; [apply list_elem_of_here|]. split; [done|]. by eexists.
Qed.

(** Where no code cell holds a zero count, code and documentation agree. *)
Lemma execute_as_documented_agrees self nb :
  (∀ c, c ∈ cells nb → execution_count c ≠ Some 0%Z) →
  execute self nb = execute_as_documented (execute_notebooks self) nb.
Proof.
  intros Hnz. unfold execute, execute_as_documented.
  assert (has_output nb = has_recorded_output nb) as ->.
  { unfold has_output, has_recorded_output.
    assert (Hsub : ∀ c, c ∈ filter (λ c, is_code c) (cells nb) → c ∈ cells nb).
    { intros c Hc. by apply list_elem_of_filter in Hc as [_ ?]. }
    induction (filter (λ c, is_code c) (cells nb)) as [|c l IH]; [done|].
    simpl. rewrite IH; [|intros c' Hc'; apply Hsub; by right].
    f_equal. f_equal. unfold execution_count_truthy.
    specialize (Hnz c (Hsub c (list_elem_of_here _ _))).
    destruct (execution_count c) as [n|] eqn:Hn.
    - rewrite bool_decide_eq_true_2 by (intros ->; done).
      by rewrite bool_decide_eq_true_2 by by eexists.
    - by rewrite bool_decide_eq_false_2 by by intros [? ?]. }
  destruct (bool_decide (execute_notebooks self = "auto")),
    (bool_decide (execute_notebooks self = "always")),
    (has_code nb), (has_recorded_output nb); done.
Qed.

End decision.

(** ** The static-site invoker: the release version *)

Section release_version.
Import SphinxDocsBuilder.

Lemma version_list_of_tokens lines vs :
  Forall2 second_token lines vs → version_list_of lines = Ok vs.
Proof.
  induction 1 as [|line v lines vs Hv _ IH]; [done|].
  simpl. unfold item1. unfold second_token in Hv. by rewrite Hv, IH.
Qed.

Lemma version_list_of_inv lines vs :
  version_list_of lines = Ok vs → Forall2 second_token lines vs.
Proof.
  revert vs. induction lines as [|line lines IH]; intros vs; simpl.
  - intros [= <-]. constructor.
  - unfold item1.
    destruct (split " " (rstrip LF line) !! 1%nat) as [v|] eqn:Hv; [|done].
    destruct (version_list_of lines) as [vs'|]; [|done].
    intros [= <-]. constructor; [done|]. by apply IH.
Qed.

(** C1, as the code has it.  In release mode the version string handed to
    the site builder is made of the second blank-separated token of each
    line of the version file, the first three of them joined with dots.
    The version file holds no carriage return, so that its lines are the
    lines Python reads. *)
Theorem release_version_second_tokens rt self w text vs :
  is_release self = true →
  files (fs w) !! "../src/Open3D/version.txt" = Some text →
  contains CR text = false →
  Forall2 second_token (readlines text) vs →
  let v := join "." (slice_to 3 vs) in
  let cmd := release_cmd v (os_path_join (html_output_dir self) "html") in
  release_version_of text = Ok v
  ∧ (sphinx_cmd self w).1 = Ok cmd
  ∧ (_run_sphinx rt self w).1 = (check_call rt cmd (environ w) (fs w)).1.
Proof.
  intros Hrel Hfile _ Htok v cmd.
  assert (Hv : release_version_of text = Ok v).
  { unfold release_version_of. by rewrite (version_list_of_tokens _ _ Htok). }
  assert (Hcmd : sphinx_cmd self w
                 = (Ok cmd, World (environ w) (fs w)
                              (stdout w ++ ["Building docs for release: " +:+ v]))).
  { unfold sphinx_cmd. rewrite Hrel.
    unfold bind at 1. unfold on_fs, read_file. rewrite Hfile.
    destruct w as [env f out]; simpl in *. destruct f as [ds fl]; simpl in *.
    unfold bind at 1. unfold lift_result. by rewrite Hv. }
  split; [done|]. split; [by rewrite Hcmd|].
  unfold _run_sphinx. rewrite (bind_ok _ _ _ _ _ Hcmd).
  unfold bind, print, subprocess_check_call; simpl.
  by destruct (check_call rt cmd (environ w) (fs w)).
Qed.

Lemma release_version_second_tokens_witness :
  release_version_of version_txt = Ok "1.2.3"
  ∧ (sphinx_cmd release_builder release_world).1
    = Ok ["sphinx-build"; "-b"; "html"; "-D"; "version=1.2.3"; "-D"; "release=1.2.3";
          "."; "/repo/docs/_out/html"].
Proof.
  destruct (release_version_second_tokens sample_rt release_builder release_world
              version_txt ["1"; "2"; "3"])
    as (Hv & Hcmd & _).
  - reflexivity.
  - reflexivity.
  - reflexivity.
  - repeat constructor.
  - split; [exact Hv | exact Hcmd].
Defined.

(** C1 as worded fails: with the whole version on the second line, that
    line contributes its second token only. *)
Lemma release_version_second_line :
  nth_error (readlines version_on_second_line) 1
    = Some ("version 1 2 3 extra" +:+ nl)
  ∧ release_version_of version_on_second_line = Ok "version.1"
  ∧ release_version_of version_on_second_line ≠ Ok "1.2.3".
Proof. split; [reflexivity|]. split; [reflexivity|]. discriminate. Qed.

(** The text 1.2.3 has no dot followed by 1 in it. *)
Lemma not_dot_one (a t : string) : a +:+ String "." (String "1" t) ≠ "1.2.3".
Proof.
  intros H.
  do 6 (destruct a as [|? a]; [discriminate H|];
        rewrite str_app_cons in H; first [discriminate H | injection H as _ H]).
Qed.

(** No version file with that second line gives 1.2.3: the line always
    contributes the single token 1, after a dot. *)
Lemma release_version_never_from_second_line text first rest v :
  readlines text = first :: ("version 1 2 3 extra" +:+ nl) :: rest →
  release_version_of text = Ok v → v ≠ "1.2.3".
Proof.
  intros Hlines. unfold release_version_of. rewrite Hlines. simpl.
  destruct (item1 (split " " (rstrip LF first))) as [v0|]; [|done].
  change (item1 (split " " (rstrip LF ("version 1 2 3 extra" +:+ nl)))) with (@Ok string "1").
  destruct (version_list_of rest) as [vs|]; [|done].
  intros [= <-]. unfold join, slice_to. simpl.
  destruct vs as [|v2 vs]; simpl; apply not_dot_one.
Qed.

End release_version.

(** ** The reference emitter: resolving a module name *)

Lemma split_first_segment sep (x rest : string) :
  contains sep x = false →
  split sep (x +:+ String sep rest) = x :: split sep rest.
Proof.
  induction x as [|c x IH]; simpl; intros Hx.
  - by rewrite decide_True.
  - apply orb_false_iff in Hx as [Hc Hx]. apply bool_decide_eq_false in Hc.
    rewrite decide_False by done. by rewrite IH.
Qed.

Lemma split_no_sep sep s : contains sep s = false → split sep s = [s].
Proof.
  induction s as [|c s IH]; simpl; [done|].
  intros [Hc Hs]%orb_false_iff. apply bool_decide_eq_false in Hc.
  rewrite decide_False by done. by rewrite IH.
Qed.

Lemma contains_str_repeat ch c n : c ≠ ch → contains ch (str_repeat c n) = false.
Proof.
  intros Hne. induction n as [|n IH]; simpl; [done|].
  by rewrite bool_decide_eq_false_2.
Qed.

Section resolve.
Import PyAPIDocsBuilder.

Lemma traverse_raise o names e : traverse o names = Raise e → e = AttributeError.
Proof.
  revert o. induction names as [|n names IH]; intros o; simpl; [done|].
  unfold getattr. destruct (assoc n (getmembers o)) as [m|]; [apply IH|].
  by intros [= <-].
Qed.

Lemma traverse_singleton o name : traverse o [name] = getattr o name.
Proof. simpl. by destruct (getattr o name). Qed.

Lemma fallback_traverse rt root (x rest : string) :
  import_module rt "open3d" = Ok root →
  contains "." x = false →
  import_module rt (x +:+ "." +:+ rest) = Raise ImportError →
  _get_open3d_module rt (x +:+ "." +:+ rest) = traverse root (split "." rest).
Proof.
  intros Hroot Hx Himp. unfold _get_open3d_module. rewrite Hroot, Himp.
  change (x +:+ "." +:+ rest) with (x +:+ String "." rest).
  by rewrite split_first_segment.
Qed.

(** C10.  When the direct import fails, the first dotted segment is dropped
    unread and the rest is looked up attribute by attribute from the root
    module: whatever stands before the first dot, [X.camera] resolves to the
    root module's [camera]. *)
Theorem fallback_drops_first_segment rt root (x rest : string) :
  import_module rt "open3d" = Ok root →
  contains "." x = false →
  import_module rt (x +:+ "." +:+ rest) = Raise ImportError →
  _get_open3d_module rt (x +:+ "." +:+ rest) = traverse root (split "." rest)
  ∧ (rest = "camera" →
     _get_open3d_module rt (x +:+ "." +:+ rest) = getattr root "camera").
Proof.
  intros Hroot Hx Himp. rewrite (fallback_traverse rt root x rest) by done.
  split; [done|]. intros ->. apply traverse_singleton.
Qed.

Lemma fallback_drops_first_segment_witness :
  _get_open3d_module sample_rt "no_such_package.camera" = Ok camera_module.
Proof.
  destruct (fallback_drops_first_segment sample_rt open3d_root "no_such_package" "camera")
    as [_ Hcamera]; [reflexivity | reflexivity | reflexivity |].
  exact (Hcamera eq_refl).
Defined.

(** Two unimportable names that differ in the first segment only resolve
    alike. *)
Lemma fallback_first_segment_irrelevant rt root (x x' rest : string) :
  import_module rt "open3d" = Ok root →
  contains "." x = false → contains "." x' = false →
  import_module rt (x +:+ "." +:+ rest) = Raise ImportError →
  import_module rt (x' +:+ "." +:+ rest) = Raise ImportError →
  _get_open3d_module rt (x +:+ "." +:+ rest) = _get_open3d_module rt (x' +:+ "." +:+ rest).
Proof.
  intros Hroot Hx Hx' Hi Hi'.
  by rewrite !(fallback_traverse rt root) by done.
Qed.

(** A name that neither imports nor resolves by traversal. *)
Lemma unresolvable_raises rt root name :
  import_module rt "open3d" = Ok root →
  import_module rt name = Raise ImportError →
  (∀ m, traverse root (drop 1 (split "." name)) ≠ Ok m) →
  _get_open3d_module rt name = Raise AttributeError.
Proof.
  intros Hroot Himp Htr. unfold _get_open3d_module. rewrite Hroot, Himp.
  destruct (traverse root (drop 1 (split "." name))) as [m|e] eqn:Ht.
  - by destruct (Htr m).
  - by rewrite (traverse_raise _ _ _ Ht).
Qed.

Lemma for_each_app {A} (l1 l2 : list A) (body : A → M unit) w :
  for_each (l1 ++ l2) body w = (for_each l1 body ;; for_each l2 body) w.
Proof.
  revert w. induction l1 as [|x l1 IH]; intros w; simpl.
  - done.
  - unfold bind. destruct (body x w) as [[[]|e] w1]; [|done].
    by rewrite IH.
Qed.

(** A name that does not resolve ends the pass where it stands. *)
Lemma unresolved_module_aborts rt out (before after : list string) (name : string) e w :
  _get_open3d_module rt name = Raise e →
  generate_rst rt (Build out (before ++ name :: after)) w
  = (generate_rst rt (Build out before) ;; raise e) w.
Proof.
  intros Hname. unfold generate_rst; simpl.
  unfold bind at 1. unfold bind at 2. unfold bind at 2.
  destruct (_create_or_clear_dir out w) as [[[]|e'] w0]; [|done].
  rewrite for_each_app. unfold bind at 1.
  destruct (for_each before _ w0) as [[[]|e'] w1]; [|done].
  simpl. unfold bind at 1. unfold bind at 1. unfold lift_result.
  by rewrite Hname.
Qed.

(** C8.  A module name that neither imports nor resolves from the root
    module ends the pass with [AttributeError]: the run is the run over the
    names before it followed by the raise, so nothing is skipped and no later
    name is handled. *)
Theorem unresolvable_module_aborts rt root out (before after : list string)
    (name : string) w :
  import_module rt "open3d" = Ok root →
  import_module rt name = Raise ImportError →
  (∀ m, traverse root (drop 1 (split "." name)) ≠ Ok m) →
  generate_rst rt (Build out (before ++ name :: after)) w
  = (generate_rst rt (Build out before) ;; raise AttributeError) w.
Proof.
  intros Hroot Himp Htr. apply unresolved_module_aborts.
  by apply (unresolvable_raises rt root).
Qed.

Lemma unresolvable_module_aborts_witness :
  (generate_rst sample_rt (Build "python_api" ["open3d.camera"; "open3d.nowhere"; "open3d.io"])
     empty_world).1 = Raise AttributeError
  ∧ (generate_rst sample_rt (Build "python_api" ["open3d.camera"; "open3d.nowhere"; "open3d.io"])
       empty_world).2
    = (generate_rst sample_rt (Build "python_api" ["open3d.camera"]) empty_world).2.
Proof.
  change ["open3d.camera"; "open3d.nowhere"; "open3d.io"]
    with (["open3d.camera"] ++ "open3d.nowhere" :: ["open3d.io"]).
  rewrite (unresolvable_module_aborts sample_rt open3d_root "python_api"
             ["open3d.camera"] ["open3d.io"] "open3d.nowhere" empty_world).
  - split; vm_compute; reflexivity.
  - reflexivity.
  - reflexivity.
  - intros m; vm_compute; discriminate.
Defined.

End resolve.

(** ** The process environment *)

Section environment.

Lemma frame_ret {A} (a : A) : env_frame (ret a).
Proof. done. Qed.
Lemma frame_raise {A} e : env_frame (@raise A e).
Proof. done. Qed.
Lemma frame_print s : env_frame (print s).
Proof. done. Qed.
Lemma frame_fs_query {A} (q : fsys → A) : env_frame (fs_query q).
Proof. done. Qed.
Lemma frame_lift_result {A} (r : result A) : env_frame (lift_result r).
Proof. done. Qed.
Lemma frame_in_environ k : env_frame (in_environ k).
Proof. done. Qed.
Lemma frame_on_fs {A} (f : fsys → result A * fsys) : env_frame (on_fs f).
Proof. intros w. unfold on_fs. by destruct (f (fs w)). Qed.

Lemma frame_bind {A B} (m : M A) (k : A → M B) :
  env_frame m → (∀ a, env_frame (k a)) → env_frame (bind m k).
Proof.
  intros Hm Hk w. unfold bind. specialize (Hm w).
  destruct (m w) as [[a|e] w1]; simpl in *; [|done].
  by rewrite Hk.
Qed.

Lemma frame_for_each {A} (l : list A) (body : A → M unit) :
  (∀ x, env_frame (body x)) → env_frame (for_each l body).
Proof.
  intros Hbody. induction l as [|x l IH]; simpl; [apply frame_ret|].
  apply frame_bind; [apply Hbody | done].
Qed.

Lemma frame_for_collect {A B} (l : list A) (acc : list B) body :
  (∀ x acc, env_frame (body x acc)) → env_frame (for_collect l acc body).
Proof.
  intros Hbody. revert acc. induction l as [|x l IH]; intros acc; simpl.
  - apply frame_ret.
  - apply frame_bind; [apply Hbody | intros acc'; apply IH].
Qed.

Lemma frame_preprocess rt nb path : env_frame (JupyterDocsBuilder.preprocess rt nb path).
Proof.
  intros w. unfold JupyterDocsBuilder.preprocess.
  by destruct (ep_preprocess rt (environ w) nb path (fs w)) as [[o nb'] f'].
Qed.

Lemma frame_check_call rt cmd : env_frame (SphinxDocsBuilder.subprocess_check_call rt cmd).
Proof.
  intros w. unfold SphinxDocsBuilder.subprocess_check_call.
  by destruct (check_call rt cmd (environ w) (fs w)).
Qed.

End environment.

#[global] Hint Resolve frame_ret frame_raise frame_print frame_fs_query frame_lift_result
  frame_in_environ frame_on_fs frame_preprocess frame_check_call frame_bind
  frame_for_each frame_for_collect : frame.
#[global] Hint Extern 1 (env_frame ((λ _, _) _)) => progress cbv beta : frame.
#[global] Hint Extern 2 (env_frame (if ?b then _ else _)) => destruct b : frame.
#[global] Hint Extern 2 (env_frame (match ?x with _ => _ end)) => destruct x : frame.

Section environment_of_the_builders.

Lemma frame_create_or_clear_dir dir_path : env_frame (_create_or_clear_dir dir_path).
Proof. unfold _create_or_clear_dir. frame. Qed.

Lemma frame_generate_rst rt self : env_frame (PyAPIDocsBuilder.generate_rst rt self).
Proof.
  unfold PyAPIDocsBuilder.generate_rst.
  apply frame_bind; [apply frame_create_or_clear_dir|intros _].
  apply frame_for_each; intros name. apply frame_bind; [frame|intros module].
  unfold PyAPIDocsBuilder._generate_sub_module_class_function_docs,
    PyAPIDocsBuilder._generate_class_doc, PyAPIDocsBuilder._generate_function_doc,
    PyAPIDocsBuilder._generate_sub_module_doc.
  frame.
Qed.

Lemma frame_process_notebook rt self nb_path :
  env_frame (JupyterDocsBuilder.process_notebook rt self nb_path).
Proof.
  unfold JupyterDocsBuilder.process_notebook, JupyterDocsBuilder.try_preprocess. frame.
Qed.

Lemma frame_run_body rt self : env_frame (JupyterDocsBuilder.run_body rt self).
Proof.
  unfold JupyterDocsBuilder.run_body.
  do 3 (apply frame_bind; [frame|intros ?]).
  apply frame_bind.
  - apply frame_for_collect. intros d acc.
    unfold JupyterDocsBuilder.stage_example_dir. frame.
  - intros nb_paths. apply frame_for_each. intros p. apply frame_process_notebook.
Qed.

Lemma frame_sphinx_run rt self : env_frame (SphinxDocsBuilder.run rt self).
Proof.
  unfold SphinxDocsBuilder.run, SphinxDocsBuilder._gen_python_api_docs,
    SphinxDocsBuilder._run_sphinx, SphinxDocsBuilder.sphinx_cmd,
    PyAPIDocsBuilder.__init__.
  apply frame_bind; [|intros _; frame].
  apply frame_bind; [frame|intros pd]. apply frame_generate_rst.
Qed.

Lemma frame_doxygen_run rt self : env_frame (DoxygenDocsBuilder.run rt self).
Proof.
  unfold DoxygenDocsBuilder.run.
  apply frame_bind; [apply frame_create_or_clear_dir|intros _]. frame.
Qed.

(** The only write to the environment in the script. *)
Lemma run_environ rt self w :
  environ (JupyterDocsBuilder.run rt self w).2 = <["CI" := "true"]> (environ w).
Proof.
  unfold JupyterDocsBuilder.run. unfold bind, setenv.
  apply (frame_run_body rt self).
Qed.

End environment_of_the_builders.

Section runtimes_agree.

Lemma same_frame {A} (m : M A) : env_frame m → same_under_CI m m.
Proof. intros Hm w Hw. split; [done|]. by rewrite Hm. Qed.

Lemma same_bind {A B} (m m' : M A) (k k' : A → M B) :
  same_under_CI m m' → (∀ a, same_under_CI (k a) (k' a)) →
  same_under_CI (bind m k) (bind m' k').
Proof.
  intros Hm Hk w Hw. destruct (Hm w Hw) as [Heq Hci].
  unfold bind. rewrite <- Heq.
  destruct (m w) as [[a|e] w1]; simpl in *; [|done].
  apply Hk, Hci.
Qed.

Lemma same_for_each {A} (l : list A) (body body' : A → M unit) :
  (∀ x, same_under_CI (body x) (body' x)) →
  same_under_CI (for_each l body) (for_each l body').
Proof.
  intros Hbody. induction l as [|x l IH]; simpl.
  - apply same_frame, frame_ret.
  - apply same_bind; [apply Hbody | done].
Qed.

Context (rt rt' : runtime) (Hrt : agree_when_CI rt rt').

Lemma same_preprocess nb path :
  same_under_CI (JupyterDocsBuilder.preprocess rt nb path)
                (JupyterDocsBuilder.preprocess rt' nb path).
Proof.
  intros w Hw. split; [|by rewrite frame_preprocess].
  unfold JupyterDocsBuilder.preprocess.
  destruct Hrt as (_ & _ & _ & Hep & _). by rewrite (Hep _ Hw).
Qed.

Lemma same_check_call cmd :
  same_under_CI (SphinxDocsBuilder.subprocess_check_call rt cmd)
                (SphinxDocsBuilder.subprocess_check_call rt' cmd).
Proof.
  intros w Hw. split; [|by rewrite frame_check_call].
  unfold SphinxDocsBuilder.subprocess_check_call.
  destruct Hrt as (_ & _ & _ & _ & Hcc). by rewrite (Hcc _ _ Hw).
Qed.

Lemma same_process_notebook self nb_path :
  same_under_CI (JupyterDocsBuilder.process_notebook rt self nb_path)
                (JupyterDocsBuilder.process_notebook rt' self nb_path).
Proof.
  unfold JupyterDocsBuilder.process_notebook.
  destruct Hrt as (_ & Hread & Hwrite & _ & _). rewrite Hread, Hwrite.
  apply same_bind; [apply same_frame; frame|intros _].
  apply same_bind; [apply same_frame; frame|intros text].
  apply same_bind; [apply same_frame; frame|intros nb].
  apply same_bind; [apply same_frame; frame|intros _].
  destruct (JupyterDocsBuilder.execute self nb); [|apply same_frame; frame].
  apply same_bind; [|intros nb'; apply same_frame; frame].
  unfold JupyterDocsBuilder.try_preprocess.
  apply same_bind; [apply same_preprocess|intros [o nb']].
  apply same_frame. frame.
Qed.

Lemma same_run_body self :
  same_under_CI (JupyterDocsBuilder.run_body rt self) (JupyterDocsBuilder.run_body rt' self).
Proof.
  unfold JupyterDocsBuilder.run_body.
  do 3 (apply same_bind; [apply same_frame; frame|intros ?]).
  apply same_bind.
  - apply same_frame, frame_for_collect. intros d acc.
    unfold JupyterDocsBuilder.stage_example_dir. frame.
  - intros nb_paths. apply same_for_each. intros p. apply same_process_notebook.
Qed.

Lemma same_generate_rst self :
  PyAPIDocsBuilder.generate_rst rt self = PyAPIDocsBuilder.generate_rst rt' self.
Proof.
  unfold PyAPIDocsBuilder.generate_rst, PyAPIDocsBuilder._get_open3d_module.
  destruct Hrt as (Himp & _). by rewrite Himp.
Qed.

Lemma same_sphinx_run self :
  same_under_CI (SphinxDocsBuilder.run rt self) (SphinxDocsBuilder.run rt' self).
Proof.
  unfold SphinxDocsBuilder.run, SphinxDocsBuilder._gen_python_api_docs.
  apply same_bind.
  - apply same_bind; [apply same_frame; unfold PyAPIDocsBuilder.__init__; frame|].
    intros pd. rewrite same_generate_rst. apply same_frame, frame_generate_rst.
  - intros _. unfold SphinxDocsBuilder._run_sphinx.
    apply same_bind;
      [apply same_frame; unfold SphinxDocsBuilder.sphinx_cmd; frame|intros cmd].
    apply same_bind; [apply same_frame; frame|intros _]. apply same_check_call.
Qed.

Lemma same_doxygen_run self :
  same_under_CI (DoxygenDocsBuilder.run rt self) (DoxygenDocsBuilder.run rt' self).
Proof.
  unfold DoxygenDocsBuilder.run.
  apply same_bind; [apply same_frame, frame_create_or_clear_dir|intros _].
  apply same_bind; [apply same_frame; frame|intros _].
  apply same_bind; [apply same_check_call|intros _].
  apply same_frame. frame.
Qed.

Lemma same_run self w :
  JupyterDocsBuilder.run rt self w = JupyterDocsBuilder.run rt' self w.
Proof.
  unfold JupyterDocsBuilder.run, bind, setenv.
  apply same_run_body. apply lookup_insert_eq.
Qed.

End runtimes_agree.

Section script_environment.

Lemma bind_ext {A B} (m : M A) (k k' : A → M B) w :
  (∀ a w1, k a w1 = k' a w1) → bind m k w = bind m k' w.
Proof. intros Hk. unfold bind. destruct (m w) as [[a|e] w1]; [apply Hk|done]. Qed.

Lemma bind_assoc {A B C} (m : M A) (k : A → M B) (h : B → M C) w :
  bind (bind m k) h w = bind m (λ a, bind (k a) h) w.
Proof. unfold bind. by destruct (m w) as [[a|e] w1]. Qed.

Lemma bind_same_after {A B} (m m' : M A) (k k' : A → M B) w :
  m w = m' w →
  (∀ a w1, m w = (Ok a, w1) → k a w1 = k' a w1) →
  bind m k w = bind m' k' w.
Proof.
  intros Hm Hk. unfold bind. rewrite <- Hm.
  destruct (m w) as [[a|e] w1]; [by apply Hk|done].
Qed.

Lemma agree_when_CI_sensitive : agree_when_CI sample_rt CI_sensitive_rt.
Proof.
  repeat split; try done; intros; simpl; by destruct (decide _).
Qed.

Lemma then_CI_bind_l {A B} (m : M A) (k k' : A → M B) :
  (∀ a, same_then_CI (k a) (k' a)) → same_then_CI (bind m k) (bind m k').
Proof.
  intros Hk w. unfold bind. destruct (m w) as [[a|e] w1]; [apply Hk|done].
Qed.

Lemma then_CI_bind_r {A B} (m m' : M A) (k k' : A → M B) :
  same_then_CI m m' → (∀ a, same_under_CI (k a) (k' a)) →
  same_then_CI (bind m k) (bind m' k').
Proof.
  intros Hm Hk w. destruct (Hm w) as [Heq Hci]. unfold bind. rewrite <- Heq.
  destruct (m w) as [[a|e] w1]; [|done].
  destruct (Hk a w1 (Hci a w1 eq_refl)) as [Hkeq Hkci]. split; [done|].
  intros b w' Hb. by rewrite Hb in Hkci.
Qed.

Lemma then_CI_run rt rt' self :
  agree_when_CI rt rt' →
  same_then_CI (JupyterDocsBuilder.run rt self) (JupyterDocsBuilder.run rt' self).
Proof.
  intros Hrt w. split; [by apply same_run|]. intros a w' Hrun.
  pose proof (run_environ rt self w) as Henv. rewrite Hrun in Henv.
  simpl in Henv. rewrite Henv. apply lookup_insert_eq.
Qed.

(** With the site build requested, the whole script is blind to what the
    kernel and the subprocesses would do without CI. *)
Lemma same_main rt rt' pwd a w :
  agree_when_CI rt rt' → build_sphinx a = true →
  main rt pwd a w = main rt' pwd a w.
Proof.
  intros Hrt Hsphinx. unfold main. rewrite Hsphinx.
  apply bind_ext; intros _ w1. apply bind_ext; intros ex w2.
  apply bind_ext; intros _ w3.
  apply then_CI_bind_r.
  - do 3 (apply then_CI_bind_l; intros ?).
    apply then_CI_bind_r; [by apply then_CI_run|intros _].
    apply same_bind; [apply same_frame; frame|intros _].
    apply same_bind.
    { apply same_frame. unfold SphinxDocsBuilder.__init__,
        SphinxDocsBuilder._get_module_names_from_index_rst. frame. }
    intros sdb. by apply same_sphinx_run.
  - intros _. destruct (build_doxygen a); [|apply same_frame; frame].
    apply same_bind; [apply same_frame; frame|intros _].
    apply same_bind; [apply same_frame; unfold DoxygenDocsBuilder.__init__; frame|].
    intros ddb. by apply same_doxygen_run.
Qed.

(** C9.  [run] begins by setting CI to true in the process environment and
    nothing after it in [run] touches the environment: however [run] ends,
    the environment is the old one with CI set to true.  The notebook kernel
    is therefore only ever started with CI true, and so are the site builder
    and whatever else the script starts after [run]. *)
Theorem run_sets_CI rt self w :
  JupyterDocsBuilder.run rt self w
  = JupyterDocsBuilder.run_body rt self
      (World (<["CI" := "true"]> (environ w)) (fs w) (stdout w))
  ∧ environ (JupyterDocsBuilder.run rt self w).2 = <["CI" := "true"]> (environ w)
  ∧ (∀ rt', agree_when_CI rt rt' →
            JupyterDocsBuilder.run rt self w = JupyterDocsBuilder.run rt' self w)
  ∧ (∀ rt' pwd a, agree_when_CI rt rt' → build_sphinx a = true →
                  main rt pwd a w = main rt' pwd a w).
Proof.
  split; [done|]. split; [apply run_environ|].
  split; [intros rt' Hrt; by apply same_run|].
  intros rt' pwd a Hrt Ha. by apply same_main.
Qed.

Lemma run_sets_CI_witness :
  environ (JupyterDocsBuilder.run sample_rt auto_builder empty_world).2 !! "CI" = Some "true"
  ∧ JupyterDocsBuilder.run sample_rt auto_builder empty_world
    = JupyterDocsBuilder.run CI_sensitive_rt auto_builder empty_world
  ∧ main sample_rt "/repo/docs" sphinx_args empty_world
    = main CI_sensitive_rt "/repo/docs" sphinx_args empty_world.
Proof.
  destruct (run_sets_CI sample_rt auto_builder empty_world) as (_ & Henv & Hrun & Hmain).
  split; [rewrite Henv; reflexivity|].
  split; [apply Hrun, agree_when_CI_sensitive|].
  apply Hmain; [apply agree_when_CI_sensitive | reflexivity].
Defined.

End script_environment.

(** ** The notebook stager: a failing notebook *)

Section cell_error.
Import JupyterDocsBuilder.

Lemma write_file_ok p s f :
  is_dir f p = false → parent_check f p = Ok tt →
  write_file p s f = (Ok tt, FSys (dirs f) (<[p := s]> (files f))).
Proof. intros Hd Hp. unfold write_file. by rewrite Hd, Hp. Qed.

(** The loop body up to the call of the kernel. *)
Lemma process_notebook_executes rt self nb_path w text nb :
  files (fs w) !! nb_path = Some text →
  nbformat_read rt text = Ok nb →
  execute self nb = true →
  process_notebook rt self nb_path w
  = (nb' <- try_preprocess rt nb nb_path ;;
     on_fs (write_file nb_path (nbformat_write rt nb')))
      (World (environ w) (fs w)
         (stdout w ++ ["[Processing notebook " +:+ Path_name nb_path +:+ "]";
                       "has_code: " +:+ str_bool (has_code nb) +:+ ", has_output: "
                       +:+ str_bool (has_output nb) +:+ ", execute: True"])).
Proof.
  intros Hfile Hread Hexec. unfold process_notebook.
  unfold bind at 1. unfold print at 1. unfold bind at 1.
  unfold on_fs at 1, read_file; simpl. rewrite Hfile.
  unfold bind at 1. unfold lift_result. rewrite Hread.
  unfold bind at 1. unfold print at 1. simpl. rewrite Hexec.
  by rewrite <- app_assoc.
Qed.

(** A notebook the decision passes over is read and left alone. *)
Lemma process_notebook_skips rt self nb_path w text nb :
  files (fs w) !! nb_path = Some text →
  nbformat_read rt text = Ok nb →
  execute self nb = false →
  process_notebook rt self nb_path w
  = (Ok tt,
     World (environ w) (fs w)
       (stdout w ++ ["[Processing notebook " +:+ Path_name nb_path +:+ "]";
                     "has_code: " +:+ str_bool (has_code nb) +:+ ", has_output: "
                     +:+ str_bool (has_output nb) +:+ ", execute: False"])).
Proof.
  intros Hfile Hread Hexec. unfold process_notebook.
  unfold bind at 1. unfold print at 1. unfold bind at 1.
  unfold on_fs at 1, read_file; simpl. rewrite Hfile.
  unfold bind at 1. unfold lift_result. rewrite Hread.
  unfold bind at 1. unfold print at 1. simpl. rewrite Hexec.
  unfold ret. by rewrite <- app_assoc.
Qed.

Lemma try_preprocess_cell_error rt nb nb_path w nb' f' :
  ep_preprocess rt (environ w) nb (Path_parent nb_path) (fs w)
  = (Raise CellExecutionError, nb', f') →
  try_preprocess rt nb nb_path w
  = (if bool_decide (is_Some (environ w !! "TRAVIS"))
     then Raise CellExecutionError else Ok nb',
     World (environ w) f'
       (stdout w ++ ["Execution of " +:+ Path_name nb_path
                     +:+ " failed, this will cause Travis to fail."])).
Proof.
  intros Hep. unfold try_preprocess. unfold bind at 1.
  unfold preprocess. rewrite Hep.
  unfold bind, print, in_environ, raise, ret; simpl.
  by destruct (bool_decide (is_Some (environ w !! "TRAVIS"))).
Qed.

(** C2, as the code has it.  When the kernel raises a cell-execution error
    the stager looks for TRAVIS in the environment.  With TRAVIS set the
    error is raised again and the stager writes nothing.  Without TRAVIS the
    error is swallowed and the stager goes on to write the notebook, as the
    failed run left it, over the staged file. *)
Theorem cell_error_handling rt self nb_path w text nb nb' f' :
  files (fs w) !! nb_path = Some text →
  nbformat_read rt text = Ok nb →
  execute self nb = true →
  ep_preprocess rt (environ w) nb (Path_parent nb_path) (fs w)
  = (Raise CellExecutionError, nb', f') →
  let r := process_notebook rt self nb_path w in
  (is_Some (environ w !! "TRAVIS") → r.1 = Raise CellExecutionError ∧ fs r.2 = f')
  ∧ (environ w !! "TRAVIS" = None →
     (r.1, fs r.2) = write_file nb_path (nbformat_write rt nb') f'
     ∧ (is_dir f' nb_path = false → parent_check f' nb_path = Ok tt →
        r.1 = Ok tt
        ∧ fs r.2 = FSys (dirs f') (<[nb_path := nbformat_write rt nb']> (files f')))).
Proof.
  intros Hfile Hread Hexec Hep r.
  assert (Hr : ∃ out,
    r = (let '(x, w') :=
           (if bool_decide (is_Some (environ w !! "TRAVIS"))
            then Raise CellExecutionError else Ok nb',
            World (environ w) f' out) in
         match x with
         | Ok a => on_fs (write_file nb_path (nbformat_write rt a)) w'
         | Raise e => (Raise e, w')
         end)).
  { eexists. subst r.
    rewrite (process_notebook_executes rt self nb_path w text nb) by done.
    unfold bind at 1. by rewrite (try_preprocess_cell_error _ _ _ _ nb' f'). }
  destruct Hr as [out Hr]. clearbody r. subst r. split.
  - intros Htravis. by rewrite bool_decide_eq_true_2.
  - intros Htravis. rewrite bool_decide_eq_false_2 by (rewrite Htravis; by intros [? ?]).
    unfold on_fs; simpl.
    destruct (write_file nb_path (nbformat_write rt nb') f') as [r f''] eqn:Hw.
    split; [done|]. intros Hd Hp. rewrite (write_file_ok _ _ _ Hd Hp) in Hw.
    by injection Hw as <- <-.
Qed.

Lemma cell_error_handling_witness :
  (process_notebook failing_rt auto_builder staged_path staged_world).1 = Ok tt
  ∧ files (fs (process_notebook failing_rt auto_builder staged_path staged_world).2)
      !! staged_path = Some (render_nb failed_nb).
Proof.
  destruct (cell_error_handling failing_rt auto_builder staged_path staged_world
              (render_nb fresh_nb) fresh_nb failed_nb staged_fs)
    as [_ Hswallow]; [reflexivity..|].
  destruct (Hswallow eq_refl) as [_ Hwrite].
  destruct Hwrite as [Hok Hfs]; [reflexivity | reflexivity |].
  split; [exact Hok|]. rewrite Hfs. reflexivity.
Defined.

(** C2 as worded fails: outside Travis the failing notebook is staged, run,
    and its file then holds the failed run instead of what was staged. *)
Lemma cell_error_rewrites_file :
  environ repo_world !! "TRAVIS" = None
  ∧ files (fs repo_world) !! "/repo/examples/Python/Basic/pointcloud.ipynb"
    = Some (render_nb fresh_nb)
  ∧ (run failing_rt auto_builder repo_world).1 = Ok tt
  ∧ files (fs (run failing_rt auto_builder repo_world).2) !! staged_path
    = Some (render_nb failed_nb)
  ∧ render_nb failed_nb ≠ render_nb fresh_nb.
Proof. repeat split; try (vm_compute; reflexivity). vm_compute. discriminate. Qed.

(** With TRAVIS set the same run ends in the error and the staged copy is
    as it was staged. *)
Lemma cell_error_under_travis :
  (run failing_rt auto_builder travis_world).1 = Raise CellExecutionError
  ∧ files (fs (run failing_rt auto_builder travis_world).2) !! staged_path
    = Some (render_nb fresh_nb).
Proof. split; vm_compute; reflexivity. Qed.

End cell_error.

(** ** The reference emitter: the module file *)

Section module_file.
Import PyAPIDocsBuilder.

Lemma sorted_Sorted l : Sorted String.le (sorted l).
Proof. apply Sorted_merge_sort, _. Qed.

Lemma sorted_Permutation l : sorted l ≡ₚ l.
Proof. apply merge_sort_Permutation. Qed.

(** [sorted] sees its argument as a multiset. *)
Lemma sorted_order_irrelevant l l' : l ≡ₚ l' → sorted l = sorted l'.
Proof.
  intros Hperm. apply (Sorted_unique String.le); [apply sorted_Sorted..|].
  by rewrite !sorted_Permutation.
Qed.

Lemma class_names_of_Permutation k ms ms' :
  ms ≡ₚ ms' → class_names_of (PyObj k ms) ≡ₚ class_names_of (PyObj k ms').
Proof. intros Hperm. unfold class_names_of; simpl. by rewrite Hperm. Qed.

Lemma function_names_of_Permutation k ms ms' :
  ms ≡ₚ ms' → function_names_of (PyObj k ms) ≡ₚ function_names_of (PyObj k ms').
Proof. intros Hperm. unfold function_names_of; simpl. by rewrite Hperm. Qed.

(** Text as lines joined by line feeds: adding a line feed and a line. *)
Lemma join_snoc (l : list string) (x : string) :
  l ≠ [] → join nl l +:+ nl +:+ x = join nl (l ++ [x]).
Proof.
  intros Hl. induction l as [|y l IH]; [done|].
  destruct l as [|z l].
  - done.
  - change (join nl (y :: z :: l)) with (y +:+ nl +:+ join nl (z :: l)).
    change (join nl ((y :: z :: l) ++ [x]))
      with (y +:+ nl +:+ join nl ((z :: l) ++ [x])).
    rewrite <- IH by done. by rewrite !string_app_assoc.
Qed.

Lemma join_snoc_blank (l : list string) : l ≠ [] → join nl l +:+ nl = join nl (l ++ [""]).
Proof.
  intros Hl. rewrite <- join_snoc by done.
  f_equal.
Qed.

Lemma join_fold (g : string → string) (l names : list string) :
  l ≠ [] →
  foldl (λ out n, out +:+ nl +:+ g n) (join nl l) names = join nl (l ++ (g <$> names)).
Proof.
  revert l. induction names as [|n names IH]; intros l Hl; simpl.
  - by rewrite app_nil_r.
  - rewrite join_snoc by done. rewrite IH by (by destruct l).
    by rewrite <- app_assoc.
Qed.

Lemma join_snoc2 (l : list string) (x : string) :
  l ≠ [] → join nl l +:+ nl +:+ nl +:+ x = join nl (l ++ [""; x]).
Proof.
  intros Hl. replace (l ++ [""; x]) with ((l ++ [""]) ++ [x]) by by rewrite <- app_assoc.
  rewrite <- join_snoc by (by destruct l). rewrite <- join_snoc by done.
  by rewrite !string_app_assoc.
Qed.

(** A summary as the code appends it, and as its lines. *)
Lemma summary_text (heading : string) (l names : list string) :
  l ≠ [] →
  (if bool_decide (0 < length names)
   then foldl (λ out n, out +:+ nl +:+ "    " +:+ n)
          (((join nl l +:+ nl +:+ nl +:+ heading) +:+ nl +:+ nl +:+ ".. autosummary::")
           +:+ nl) names +:+ nl
   else join nl l)
  = join nl (l ++ summary_lines heading names).
Proof.
  intros Hl. destruct names as [|n names].
  - simpl. by rewrite app_nil_r.
  - rewrite bool_decide_eq_true_2 by (simpl; lia).
    rewrite join_snoc2 by done.
    rewrite join_snoc2 by (by destruct l).
    rewrite join_snoc_blank by (by destruct l).
    rewrite (join_fold (λ n, "    " +:+ n)) by (by destruct l).
    rewrite join_snoc_blank by (by destruct l).
    unfold summary_lines. f_equal. by rewrite <- !app_assoc.
Qed.

Lemma toctree_text (name : string) (l objs : list string) :
  l ≠ [] →
  (if bool_decide (0 < length objs)
   then foldl (λ out o, out +:+ nl +:+ "    " +:+ o +:+ " <" +:+ name +:+ "." +:+ o +:+ ">")
          (((join nl l +:+ nl +:+ nl +:+ ".. toctree::") +:+ nl +:+ "    :hidden:")
           +:+ nl) objs +:+ nl
   else join nl l)
  = join nl (l ++ toctree_lines name objs).
Proof.
  intros Hl. destruct objs as [|o objs].
  - simpl. by rewrite app_nil_r.
  - rewrite bool_decide_eq_true_2 by (simpl; lia).
    rewrite join_snoc2 by done.
    rewrite join_snoc by (by destruct l).
    rewrite join_snoc_blank by (by destruct l).
    rewrite (join_fold (λ o, "    " +:+ o +:+ " <" +:+ name +:+ "." +:+ o +:+ ">"))
      by (by destruct l).
    rewrite join_snoc_blank by (by destruct l).
    unfold toctree_lines. f_equal. by rewrite <- !app_assoc.
Qed.

(** The text of the module file is its lines, joined. *)
Lemma sub_module_doc_lines name classes functions :
  sub_module_doc name classes functions (classes ++ functions)
  = join nl (module_file_lines name classes functions).
Proof.
  unfold sub_module_doc. change ("" +:+ name) with name. cbv zeta.
  set (head := (name +:+ nl +:+ str_repeat "-" (String.length name))
               +:+ nl +:+ nl +:+ ".. currentmodule:: " +:+ name).
  assert (Hhead : head = join nl [name; str_repeat "-" (String.length name); "";
                                  ".. currentmodule:: " +:+ name]).
  { subst head. by rewrite !string_app_assoc. }
  clearbody head. subst head.
  rewrite (summary_text "**Classes**") by done.
  rewrite (summary_text "**Functions**") by done.
  rewrite toctree_text by done.
  unfold module_file_lines. by rewrite <- !app_assoc.
Qed.

Lemma split_join_lines (l : list string) :
  l ≠ [] → Forall (λ x, contains LF x = false) l → split LF (join nl l) = l.
Proof.
  intros Hl Hplain. induction Hplain as [|x l Hx Hplain IH]; [done|].
  destruct l as [|y l].
  - simpl. by apply split_no_sep.
  - change (join nl (x :: y :: l)) with (x +:+ String LF (join nl (y :: l))).
    rewrite split_first_segment by done. by rewrite IH.
Qed.

Lemma module_file_lines_plain name classes functions :
  contains LF name = false →
  Forall (λ n, contains LF n = false) (classes ++ functions) →
  Forall (λ x, contains LF x = false) (module_file_lines name classes functions).
Proof.
  intros Hname Hall. pose proof Hall as [Hc Hf]%Forall_app.
  assert (Hsummary : ∀ heading names,
            contains LF heading = false → Forall (λ n, contains LF n = false) names →
            Forall (λ x, contains LF x = false) (summary_lines heading names)).
  { intros heading names Hh Hn. destruct names as [|n names]; [constructor|].
    unfold summary_lines. repeat (apply Forall_cons; split; [done|]).
    apply Forall_app. split; [|by repeat constructor].
    apply Forall_fmap. eapply Forall_impl; [exact Hn|]. intros x Hx. simpl.
    by rewrite contains_app, Hx. }
  unfold module_file_lines.
  apply Forall_app. split; [|apply Forall_app; split; [|apply Forall_app; split]].
  - apply Forall_cons. split; [done|]. apply Forall_cons.
    split; [by apply contains_str_repeat|]. apply Forall_cons. split; [done|].
    apply Forall_cons. split; [by rewrite contains_app, Hname|]. constructor.
  - by apply Hsummary.
  - by apply Hsummary.
  - destruct (classes ++ functions) as [|o objs] eqn:Hobjs; [constructor|].
    unfold toctree_lines. repeat (apply Forall_cons; split; [done|]).
    apply Forall_app. split; [|by repeat constructor].
    apply Forall_fmap. eapply Forall_impl; [exact Hall|]. intros x Hx. simpl.
    by rewrite !contains_app, Hx, Hname.
Qed.

(** C4, with the navigation tree as the code orders it.  The text written
    to the module file is, line by line: the title and its underline, the
    current-module line, the summary of the class names in ascending order,
    the summary of the function names in ascending order, and the navigation
    tree over the first list followed by the second.  The lists hold the
    names that were passed in, and they, and with them the file, are the
    same for every order in which the module's attributes are enumerated. *)
Theorem module_file_lists_sorted name class_names function_names path :
  _generate_sub_module_doc name class_names function_names path
  = on_fs (write_file path
             (sub_module_doc name (listed_classes class_names)
                (listed_functions function_names)
                (listed_objs class_names function_names)))
  ∧ sub_module_doc name (listed_classes class_names) (listed_functions function_names)
      (listed_objs class_names function_names)
    = join nl (module_file_lines name (listed_classes class_names)
                 (listed_functions function_names))
  ∧ (contains LF name = false →
     Forall (λ n, contains LF n = false) (class_names ++ function_names) →
     split LF (sub_module_doc name (listed_classes class_names)
                 (listed_functions function_names)
                 (listed_objs class_names function_names))
     = module_file_lines name (listed_classes class_names)
         (listed_functions function_names))
  ∧ Sorted String.le (listed_classes class_names)
  ∧ listed_classes class_names ≡ₚ class_names
  ∧ Sorted String.le (listed_functions function_names)
  ∧ listed_functions function_names ≡ₚ function_names
  ∧ listed_objs class_names function_names
    = listed_classes class_names ++ listed_functions function_names
  ∧ (∀ k ms ms', ms ≡ₚ ms' →
       listed_classes (class_names_of (PyObj k ms))
       = listed_classes (class_names_of (PyObj k ms'))
       ∧ listed_functions (function_names_of (PyObj k ms))
         = listed_functions (function_names_of (PyObj k ms'))
       ∧ _generate_sub_module_doc name (class_names_of (PyObj k ms))
           (function_names_of (PyObj k ms)) path
         = _generate_sub_module_doc name (class_names_of (PyObj k ms'))
             (function_names_of (PyObj k ms')) path).
Proof.
  split; [done|]. split; [apply sub_module_doc_lines|]. split.
  { intros Hname Hnames. unfold listed_objs. rewrite sub_module_doc_lines.
    apply split_join_lines; [done|]. apply module_file_lines_plain; [done|].
    unfold listed_classes, listed_functions. by rewrite !sorted_Permutation. }
  split; [apply sorted_Sorted|]. split; [apply sorted_Permutation|].
  split; [apply sorted_Sorted|]. split; [apply sorted_Permutation|]. split; [done|].
  intros k ms ms' Hperm.
  pose proof (sorted_order_irrelevant _ _ (class_names_of_Permutation k _ _ Hperm)) as Hc.
  pose proof (sorted_order_irrelevant _ _ (function_names_of_Permutation k _ _ Hperm)) as Hf.
  split; [done|]. split; [done|].
  unfold _generate_sub_module_doc, listed_objs, listed_classes, listed_functions.
  by rewrite Hc, Hf.
Qed.

(** The file of the sample camera module, however its members are
    enumerated. *)
Lemma module_file_lists_sorted_witness :
  split LF (module_doc_of "open3d.camera" camera_module)
  = ["open3d.camera"; "-------------"; ""; ".. currentmodule:: open3d.camera";
     ""; "**Classes**"; ""; ".. autosummary::"; "";
     "    PinholeCameraIntrinsic"; "    PinholeCameraParameters"; "";
     ""; "**Functions**"; ""; ".. autosummary::"; "";
     "    read_pinhole_camera_intrinsic"; "";
     ""; ".. toctree::"; "    :hidden:"; "";
     "    PinholeCameraIntrinsic <open3d.camera.PinholeCameraIntrinsic>";
     "    PinholeCameraParameters <open3d.camera.PinholeCameraParameters>";
     "    read_pinhole_camera_intrinsic <open3d.camera.read_pinhole_camera_intrinsic>";
     ""].
Proof.
  destruct (module_file_lists_sorted "open3d.camera" (class_names_of camera_module)
              (function_names_of camera_module) "python_api/open3d.camera.rst")
    as (_ & _ & Hlines & _).
  unfold module_doc_of. rewrite Hlines.
  - vm_compute. reflexivity.
  - reflexivity.
  - repeat constructor.
Defined.

(** The names of the sample camera module, however enumerated. *)
Lemma module_file_lists_sample :
  listed_classes (class_names_of camera_module)
  = ["PinholeCameraIntrinsic"; "PinholeCameraParameters"]
  ∧ listed_functions (function_names_of camera_module) = ["read_pinhole_camera_intrinsic"]
  ∧ listed_objs (class_names_of camera_module) (function_names_of camera_module)
    = ["PinholeCameraIntrinsic"; "PinholeCameraParameters"; "read_pinhole_camera_intrinsic"].
Proof. repeat split; vm_compute; reflexivity. Qed.

(** C4 as worded fails for the navigation tree: it is ordered within its
    two parts, not across them, so a function named before a class still
    comes after it, in the list and in the file that is written. *)
Lemma toctree_classes_first :
  class_names_of lowercase_module = ["b"]
  ∧ function_names_of lowercase_module = ["a"]
  ∧ listed_objs (class_names_of lowercase_module) (function_names_of lowercase_module)
    = ["b"; "a"]
  ∧ ¬ Sorted String.le
        (listed_objs (class_names_of lowercase_module) (function_names_of lowercase_module))
  ∧ split LF (module_doc_of "m" lowercase_module)
    = ["m"; "-"; ""; ".. currentmodule:: m";
       ""; "**Classes**"; ""; ".. autosummary::"; ""; "    b"; "";
       ""; "**Functions**"; ""; ".. autosummary::"; ""; "    a"; "";
       ""; ".. toctree::"; "    :hidden:"; ""; "    b <m.b>"; "    a <m.a>"; ""].
Proof.
  split; [reflexivity|]. split; [reflexivity|]. split; [vm_compute; reflexivity|].
  split; [|vm_compute; reflexivity].
  intros Hs.
  change (listed_objs (class_names_of lowercase_module) (function_names_of lowercase_module))
    with ["b"; "a"] in Hs.
  inversion Hs as [|? ? _ Hhd]; subst. inversion Hhd as [|? ? Hle]; subst.
  by vm_compute in Hle.
Qed.

End module_file.

(** ** The reference emitter on the file system *)

Section emitter_on_fs.

Lemma runs_as_ret {A} (a : A) : runs_as (ret a) (λ f, (Ok a, f)).
Proof. done. Qed.

Lemma runs_as_print s : runs_as (print s) (λ f, (Ok tt, f)).
Proof. done. Qed.

Lemma runs_as_on_fs {A} (F : fsys → result A * fsys) : runs_as (on_fs F) F.
Proof. intros w. unfold fs_view, on_fs. by destruct (F (fs w)). Qed.

Lemma runs_as_fs_query {A} (q : fsys → A) : runs_as (fs_query q) (λ f, (Ok (q f), f)).
Proof. done. Qed.

Lemma runs_as_lift_result {A} (r : result A) : runs_as (lift_result r) (λ f, (r, f)).
Proof. done. Qed.

Lemma runs_as_bind {A B} (m : M A) (k : A → M B) F G :
  runs_as m F → (∀ a, runs_as (k a) (G a)) → runs_as (bind m k) (fs_bind F G).
Proof.
  intros Hm Hk w. specialize (Hm w). unfold fs_view, bind, fs_bind in *.
  destruct (m w) as [[a|e] w1]; simpl in *; rewrite <- Hm; [apply Hk|done].
Qed.

Lemma runs_as_seq {A B} (m : M A) (k : M B) F G :
  runs_as m F → runs_as k G → runs_as (m ;; k) (fs_bind F (λ _, G)).
Proof. intros Hm Hk. apply runs_as_bind; [done|]. by intros _. Qed.

Lemma runs_as_ext {A} (m : M A) F F' :
  runs_as m F → (∀ f, F f = F' f) → runs_as m F'.
Proof. intros Hm HF w. by rewrite <- HF. Qed.

(** Printing changes nothing on the tree. *)
Lemma runs_as_after_print {A} s (m : M A) F :
  runs_as m F → runs_as (print s ;; m) F.
Proof.
  intros Hm. eapply runs_as_ext; [apply runs_as_seq; [apply runs_as_print|apply Hm]|].
  done.
Qed.

Lemma runs_as_then_print {A} s (m : M A) F :
  runs_as m F → runs_as (m ;; print s) (fs_bind F (λ _ f, (Ok tt, f))).
Proof. intros Hm. apply runs_as_seq; [done|apply runs_as_print]. Qed.

Lemma write_all_app kvs kvs' f :
  write_all (kvs ++ kvs') f = fs_bind (write_all kvs) (λ _, write_all kvs') f.
Proof.
  revert f. induction kvs as [|[p s] kvs IH]; intros f; simpl; [done|].
  unfold fs_bind in *. simpl.
  destruct (write_file p s f) as [[[]|e] f1]; [apply IH|done].
Qed.

Lemma runs_as_for_each_write {A} (l : list A) (g : A → string * string) :
  runs_as (for_each l (λ x, on_fs (write_file (g x).1 (g x).2))) (write_all (g <$> l)).
Proof.
  induction l as [|x l IH]; simpl; [done|].
  eapply runs_as_ext; [apply runs_as_seq; [apply runs_as_on_fs|apply IH]|].
  intros f. unfold fs_bind. destruct (g x) as [p s]; simpl.
  by destruct (write_file p s f) as [[[]|e] f1].
Qed.

Lemma runs_as_module_docs name module out :
  runs_as (PyAPIDocsBuilder._generate_sub_module_class_function_docs name module out)
          (write_all (module_writes out name module)).
Proof.
  unfold PyAPIDocsBuilder._generate_sub_module_class_function_docs.
  apply runs_as_after_print.
  eapply runs_as_ext.
  - apply runs_as_seq.
    + apply (runs_as_for_each_write _
               (λ c, (os_path_join out (name +:+ "." +:+ c +:+ ".rst"),
                      PyAPIDocsBuilder.class_doc name c))).
    + apply runs_as_seq.
      * apply (runs_as_for_each_write _
                 (λ c, (os_path_join out (name +:+ "." +:+ c +:+ ".rst"),
                        PyAPIDocsBuilder.function_doc name c))).
      * apply runs_as_on_fs.
  - intros f. unfold module_writes. rewrite write_all_app. unfold fs_bind.
    destruct (write_all _ f) as [[[]|e] f1]; [|done].
    rewrite write_all_app. unfold fs_bind.
    destruct (write_all _ f1) as [[[]|e] f2]; [|done].
    simpl. unfold module_doc_of. by destruct (write_file _ _ f2) as [[[]|e] f3].
Qed.

Lemma runs_as_create_or_clear_dir out :
  runs_as (_create_or_clear_dir out) (clear_fs out).
Proof.
  unfold _create_or_clear_dir. eapply runs_as_ext.
  - apply (runs_as_bind _ _ (λ f, (Ok (path_exists f out), f))
             (λ ex : bool,
                fs_bind (if ex then rmtree out else λ f, (Ok tt, f))
                        (λ _, fs_bind (makedirs out) (λ _ f, (Ok tt, f)))));
      [apply runs_as_fs_query|].
    intros ex. apply runs_as_seq.
    + destruct ex; [|apply runs_as_ret].
      eapply runs_as_ext; [apply runs_as_then_print, runs_as_on_fs|].
      intros f. unfold fs_bind. by destruct (rmtree out f) as [[[]|e] f1].
    + apply runs_as_then_print, runs_as_on_fs.
  - intros f. unfold fs_bind, clear_fs. destruct (path_exists f out).
    + destruct (rmtree out f) as [[[]|e] f1]; [|done].
      by destruct (makedirs out f1) as [[[]|e] f2].
    + by destruct (makedirs out f) as [[[]|e] f2].
Qed.

Lemma runs_as_generate_rst rt out names :
  runs_as (PyAPIDocsBuilder.generate_rst rt (PyAPIDocsBuilder.Build out names))
          (fs_bind (clear_fs out) (λ _, emit_fs rt out names)).
Proof.
  unfold PyAPIDocsBuilder.generate_rst; simpl.
  apply runs_as_seq; [apply runs_as_create_or_clear_dir|].
  induction names as [|name names IH]; simpl; [done|].
  eapply runs_as_ext.
  - apply runs_as_seq; [|apply IH].
    apply (runs_as_bind _ _
             (λ f, (PyAPIDocsBuilder._get_open3d_module rt name, f))
             (λ module, write_all (module_writes out name module)));
      [apply runs_as_lift_result|].
    intros module. apply runs_as_module_docs.
  - intros f. unfold fs_bind.
    destruct (PyAPIDocsBuilder._get_open3d_module rt name) as [module|e]; [|done].
    by destruct (write_all _ f) as [[[]|e] f1].
Qed.

End emitter_on_fs.

Section writes.

Lemma is_dir_dirs f f' p : dirs f = dirs f' → is_dir f p = is_dir f' p.
Proof. intros Hd. unfold is_dir. by rewrite Hd. Qed.

Lemma parent_check_ok f p :
  parent_check f p = Ok tt ↔ p ≠ "" ∧ (dirname p = "" ∨ is_dir f (dirname p) = true).
Proof.
  unfold parent_check. case_bool_decide as Hp.
  - split; [done|]. by intros [? _].
  - case_bool_decide as Hd; simpl.
    + split; [|done]. intros _. split; [done|]. by left.
    + destruct (is_dir f (dirname p)); simpl.
      * split; [|done]. intros _. split; [done|]. by right.
      * split; [by destruct (is_file f (dirname p))|]. intros [_ [?|?]]; done.
Qed.

Lemma writable_dirs f f' p : dirs f = dirs f' → writable f p → writable f' p.
Proof.
  intros Hd (Hnd & Hne & Hpar). unfold writable.
  by rewrite <- !(is_dir_dirs f f') by done.
Qed.

Lemma write_file_writable p s f :
  writable f p → write_file p s f = (Ok tt, FSys (dirs f) (<[p := s]> (files f))).
Proof.
  intros (Hnd & Hne & Hpar). unfold write_file. rewrite Hnd.
  by rewrite (proj2 (parent_check_ok f p)).
Qed.

Lemma write_file_inv p s f f' :
  write_file p s f = (Ok tt, f') →
  writable f p ∧ f' = FSys (dirs f) (<[p := s]> (files f)).
Proof.
  unfold write_file. destruct (is_dir f p) eqn:Hnd; [done|].
  destruct (parent_check f p) as [[]|e] eqn:Hpar; [|done].
  intros [= <-]. split; [|done]. apply parent_check_ok in Hpar as [? ?]. done.
Qed.

Lemma put_all_cons p s kvs m : put_all ((p, s) :: kvs) m = put_all kvs (<[p := s]> m).
Proof. done. Qed.

Lemma put_all_app kvs kvs' m : put_all (kvs ++ kvs') m = put_all kvs' (put_all kvs m).
Proof. unfold put_all. apply foldl_app. Qed.

Lemma write_all_writable kvs f :
  Forall (λ kv, writable f kv.1) kvs →
  write_all kvs f = (Ok tt, FSys (dirs f) (put_all kvs (files f))).
Proof.
  revert f. induction kvs as [|[p s] kvs IH]; intros f Hall; simpl.
  - by destruct f.
  - apply Forall_cons in Hall as [Hp Hall]. rewrite (write_file_writable _ _ _ Hp).
    rewrite IH; [done|]. eapply Forall_impl; [exact Hall|].
    intros kv. by apply writable_dirs.
Qed.

Lemma write_all_inv kvs f f' :
  write_all kvs f = (Ok tt, f') →
  Forall (λ kv, writable f kv.1) kvs ∧ f' = FSys (dirs f) (put_all kvs (files f)).
Proof.
  revert f. induction kvs as [|[p s] kvs IH]; intros f; simpl.
  - intros [= <-]. split; [constructor|by destruct f].
  - destruct (write_file p s f) as [[[]|e] f1] eqn:Hw; [|done].
    apply write_file_inv in Hw as [Hp ->]. intros [Hall ->]%IH. split; [|done].
    constructor; [done|]. eapply Forall_impl; [exact Hall|].
    intros kv. by apply writable_dirs.
Qed.

Lemma put_all_lookup_notin kvs m p : p ∉ kvs.*1 → put_all kvs m !! p = m !! p.
Proof.
  revert m. induction kvs as [|[q s] kvs IH]; intros m Hp; [done|].
  rewrite put_all_cons. rewrite fmap_cons, not_elem_of_cons in Hp. destruct Hp as [Hq Hp].
  rewrite IH by done. by rewrite lookup_insert_ne.
Qed.

Lemma put_all_lookup_in kvs m p :
  p ∈ kvs.*1 → ∃ s, (p, s) ∈ kvs ∧ put_all kvs m !! p = Some s.
Proof.
  revert m. induction kvs as [|[q s] kvs IH]; intros m Hp; [by apply elem_of_nil in Hp|].
  rewrite put_all_cons. destruct (decide (p ∈ kvs.*1)) as [Hin|Hnotin].
  - destruct (IH (<[q := s]> m) Hin) as (s' & Hs' & Hl). exists s'. split; [by right|done].
  - rewrite fmap_cons, elem_of_cons in Hp. destruct Hp as [->|Hp]; [|done].
    exists s. split; [by left|]. rewrite put_all_lookup_notin by done.
    apply lookup_insert_eq.
Qed.

Lemma emit_fs_inv rt out names f f' :
  emit_fs rt out names f = (Ok tt, f') →
  Forall (λ name, ∃ module, PyAPIDocsBuilder._get_open3d_module rt name = Ok module) names
  ∧ write_all (all_writes rt out names) f = (Ok tt, f').
Proof.
  revert f. induction names as [|name names IH]; intros f; simpl.
  - intros [= <-]. by split.
  - destruct (PyAPIDocsBuilder._get_open3d_module rt name) as [module|e] eqn:Hm; [|done].
    destruct (write_all (module_writes out name module) f) as [[[]|e] f1] eqn:Hw; [|done].
    intros [Hall Hrest]%IH. split; [constructor; [by exists module|done]|].
    rewrite write_all_app. unfold fs_bind. by rewrite Hw.
Qed.

Lemma emit_fs_intro rt out names f r f' :
  Forall (λ name, ∃ module, PyAPIDocsBuilder._get_open3d_module rt name = Ok module) names →
  write_all (all_writes rt out names) f = (r, f') →
  emit_fs rt out names f = (r, f').
Proof.
  revert f. induction names as [|name names IH]; intros f Hall; simpl; [done|].
  apply Forall_cons in Hall as [[module Hm] Hall]. rewrite Hm.
  rewrite write_all_app. unfold fs_bind.
  destruct (write_all (module_writes out name module) f) as [[[]|e] f1]; [|done].
  by apply IH.
Qed.

End writes.

Section directories.

Lemma rmtree_inv p f f' :
  rmtree p f = (Ok tt, f') →
  is_dir f p = true
  ∧ dirs f' = filter (λ d, ¬ within p d) (dirs f)
  ∧ files f' = filter (λ kv, ¬ under p kv.1) (files f).
Proof.
  unfold rmtree. destruct (is_dir f p); [|by destruct (is_file f p)].
  by intros [= <-].
Qed.

Lemma mkdir_inv p f f' :
  mkdir p f = (Ok tt, f') →
  path_exists f p = false ∧ parent_check f p = Ok tt
  ∧ f' = FSys ({[p]} ∪ dirs f) (files f).
Proof.
  unfold mkdir. destruct (path_exists f p); [done|].
  destruct (parent_check f p) as [[]|e]; [|done]. by intros [= <-].
Qed.

Lemma mkdir_any p f r f' :
  mkdir p f = (r, f') →
  files f' = files f ∧ dirs f ⊆ dirs f' ∧ ∀ d, d ∈ dirs f' → d ∈ dirs f ∨ d = p.
Proof.
  assert (Hsame : files f = files f ∧ dirs f ⊆ dirs f
                  ∧ ∀ d, d ∈ dirs f → d ∈ dirs f ∨ d = p).
  { split; [done|]. split; [done|]. intros d Hd. by left. }
  unfold mkdir. destruct (path_exists f p); [by intros [= <- <-]|].
  destruct (parent_check f p) as [[]|e]; intros [= <- <-]; [simpl|done].
  split; [done|]. split; [apply union_subseteq_r|].
  intros d. rewrite elem_of_union, elem_of_singleton. tauto.
Qed.

(** [makedirs] adds directories only, none of them longer than its argument. *)
Lemma makedirs_go_any fuel name f r f' :
  makedirs_go fuel name f = (r, f') →
  files f' = files f ∧ dirs f ⊆ dirs f'
  ∧ ∀ d, d ∈ dirs f' → d ∈ dirs f ∨ String.length d ≤ String.length name.
Proof.
  revert name f r f'. induction fuel as [|fuel IH]; intros name f r f'; simpl.
  { intros [= <- <-]. split; [done|]. split; [done|]. intros d Hd. by left. }
  pose proof (os_path_split_head_length name) as Hlen1.
  destruct (os_path_split name) as [head tail] eqn:Hsplit. simpl in Hlen1.
  assert (∃ head' tail',
            (if decide (tail = "") then os_path_split head else (head, tail))
            = (head', tail') ∧ String.length head' ≤ String.length name)
    as (head' & tail' & -> & Hlen).
  { destruct (decide (tail = "")).
    - pose proof (os_path_split_head_length head) as Hlen2.
      destruct (os_path_split head) as [h2 t2]. simpl in Hlen2.
      exists h2, t2. split; [done|lia].
    - by exists head, tail. }
  destruct (bool_decide (head' ≠ "") && bool_decide (tail' ≠ "")
            && negb (path_exists f head')).
  - destruct (makedirs_go fuel head' f) as [r1 f1] eqn:Hrec.
    apply IH in Hrec as (Hfiles & Hsub & Hadded).
    assert (Hmk : ∀ r f', mkdir name f1 = (r, f') →
              files f' = files f ∧ dirs f ⊆ dirs f'
              ∧ ∀ d, d ∈ dirs f' → d ∈ dirs f ∨ String.length d ≤ String.length name).
    { intros r2 f2 (Hf2 & Hs2 & Ha2)%mkdir_any. split; [congruence|]. split; [by etrans|].
      intros d [Hd| ->]%Ha2; [|by right].
      destruct (Hadded d Hd) as [?|?]; [by left|right; lia]. }
    assert (Hskip : files f1 = files f ∧ dirs f ⊆ dirs f1
              ∧ ∀ d, d ∈ dirs f1 → d ∈ dirs f ∨ String.length d ≤ String.length name).
    { split; [done|]. split; [done|]. intros d Hd.
      destruct (Hadded d Hd) as [?|?]; [by left|right; lia]. }
    destruct r1 as [[]|e].
    + destruct (decide (tail' = ".")); [by intros [= <- <-]|apply Hmk].
    + destruct e; try (by intros [= <- <-]).
      destruct (decide (tail' = ".")); [by intros [= <- <-]|apply Hmk].
  - intros (Hf2 & Hs2 & Ha2)%mkdir_any. split; [done|]. split; [done|].
    intros d [Hd| ->]%Ha2; [by left|by right].
Qed.

Lemma mkdir_raises p f e f' :
  mkdir p f = (Raise e, f') →
  e = FileExistsError ∨ e = FileNotFoundError ∨ e = NotADirectoryError.
Proof.
  unfold mkdir. destruct (path_exists f p); [intros [= <- _]; by left|].
  unfold parent_check.
  destruct (bool_decide (p = "")); [intros [= <- _]; right; by left|].
  destruct (bool_decide (dirname p = "") || is_dir f (dirname p)); [done|].
  destruct (is_file f (dirname p)); intros [= <- _]; right; [by right|by left].
Qed.

(** The recursion of [makedirs] ends before its fuel does. *)
Lemma makedirs_go_fuel_enough fuel name f :
  String.length name < fuel →
  (makedirs_go fuel name f).1 ≠ Raise (OtherError "RecursionError").
Proof.
  revert name f. induction fuel as [|fuel IH]; intros name f Hfuel; [lia|]. simpl.
  pose proof (os_path_split_head_length name) as Hlen1.
  pose proof (os_path_split_head_shorter name) as Hshort1.
  destruct (os_path_split name) as [head tail] eqn:Hsplit. simpl in Hlen1, Hshort1.
  assert (∃ head' tail',
            (if decide (tail = "") then os_path_split head else (head, tail))
            = (head', tail')
            ∧ (tail' ≠ "" → String.length head' < String.length name))
    as (head' & tail' & -> & Hshort).
  { destruct (decide (tail = "")).
    - pose proof (os_path_split_head_shorter head) as Hshort2.
      destruct (os_path_split head) as [h2 t2]. simpl in Hshort2.
      exists h2, t2. split; [done|]. intros Ht2. specialize (Hshort2 Ht2). lia.
    - exists head, tail. split; [done|]. intros _. by apply Hshort1. }
  assert (Hmk : ∀ f1, (mkdir name f1).1 ≠ Raise (OtherError "RecursionError")).
  { intros f1. destruct (mkdir name f1) as [[[]|e] f2] eqn:Hmk; [done|].
    apply mkdir_raises in Hmk as [->|[->| ->]]; done. }
  destruct (bool_decide (head' ≠ "") && bool_decide (tail' ≠ "")
            && negb (path_exists f head')) eqn:Hcond; [|apply Hmk].
  apply andb_true_iff in Hcond as [[_ Htail%bool_decide_eq_true]%andb_true_iff _].
  specialize (IH head' f). specialize (Hshort Htail).
  destruct (makedirs_go fuel head' f) as [[[]|e] f1].
  - destruct (decide (tail' = ".")); [done|apply Hmk].
  - destruct e; simpl in *; try done.
    + destruct (decide (tail' = ".")); [done|apply Hmk].
    + intros [= ->]. apply IH; [lia|done].
Qed.

Lemma makedirs_no_recursion_error name f :
  (makedirs name f).1 ≠ Raise (OtherError "RecursionError").
Proof. apply makedirs_go_fuel_enough. lia. Qed.

Lemma ends_with_slash_app h : ends_with_slash (h +:+ "/") = true.
Proof.
  induction h as [|c h IH]; [done|]. rewrite str_app_cons.
  destruct h as [|c' h']; [done|]. exact IH.
Qed.

Lemma basename_nonempty name :
  name ≠ "" → ends_with_slash name = false → basename name ≠ "".
Proof.
  intros Hne Hend. unfold basename, os_path_split.
  destruct (rcut slash name) as [[h t]|] eqn:Hcut; simpl; [|done].
  apply rcut_some in Hcut as [-> _]. intros ->.
  change (h +:+ String slash "") with (h +:+ "/") in Hend.
  by rewrite ends_with_slash_app in Hend.
Qed.

Lemma clean_dir_inv out :
  clean_dir out = true →
  out ≠ "" ∧ ends_with_slash out = false ∧ basename out ≠ "" ∧ basename out ≠ "."
  ∧ String.length (dirname out) < String.length out.
Proof.
  unfold clean_dir. rewrite !andb_true_iff, !negb_true_iff.
  intros [[Hne%bool_decide_eq_false Hend] Hdot%bool_decide_eq_false].
  pose proof (basename_nonempty _ Hne Hend) as Hbase.
  repeat split; try done. by apply os_path_split_head_shorter.
Qed.

(** For a clean path a successful [makedirs] ends in [mkdir] of the path, on
    a tree that differs by shorter directories at most. *)
Lemma makedirs_go_clean fuel out f f' :
  clean_dir out = true →
  makedirs_go fuel out f = (Ok tt, f') →
  ∃ f1, mkdir out f1 = (Ok tt, f') ∧ files f1 = files f ∧ dirs f ⊆ dirs f1
        ∧ ∀ d, d ∈ dirs f1 → d ∈ dirs f ∨ String.length d < String.length out.
Proof.
  intros (Hne & Hend & Hbase & Hdot & Hshort)%clean_dir_inv.
  destruct fuel as [|fuel]; simpl; [done|].
  unfold basename, dirname in *.
  destruct (os_path_split out) as [head tail] eqn:Hsplit. simpl in *.
  rewrite decide_False by done.
  destruct (bool_decide (head ≠ "") && bool_decide (tail ≠ "")
            && negb (path_exists f head)).
  - destruct (makedirs_go fuel head f) as [r1 f1] eqn:Hrec.
    apply makedirs_go_any in Hrec as (Hfiles & Hsub & Hadded).
    assert (Hmk : mkdir out f1 = (Ok tt, f') →
              ∃ f1, mkdir out f1 = (Ok tt, f') ∧ files f1 = files f ∧ dirs f ⊆ dirs f1
                    ∧ ∀ d, d ∈ dirs f1 → d ∈ dirs f ∨ String.length d < String.length out).
    { intros Hmk. exists f1. repeat split; try done.
      intros d Hd. destruct (Hadded d Hd) as [?|?]; [by left|right; lia]. }
    destruct r1 as [[]|e].
    + by rewrite decide_False by done.
    + destruct e; try done. by rewrite decide_False by done.
  - intros Hmk. exists f. repeat split; try done. intros d Hd. by left.
Qed.

(** Where the parent is there, [makedirs] is [mkdir]. *)
Lemma makedirs_parent_exists out f :
  clean_dir out = true →
  dirname out = "" ∨ path_exists f (dirname out) = true →
  makedirs out f = mkdir out f.
Proof.
  intros (Hne & Hend & Hbase & Hdot & Hshort)%clean_dir_inv Hparent.
  unfold makedirs. simpl. unfold basename, dirname in *.
  destruct (os_path_split out) as [head tail] eqn:Hsplit. simpl in *.
  rewrite decide_False by done.
  destruct Hparent as [-> | ->]; [done|].
  by rewrite andb_false_r.
Qed.

Lemma is_dir_mono f f' p : dirs f ⊆ dirs f' → is_dir f p = true → is_dir f' p = true.
Proof.
  unfold is_dir. intros Hsub Hp%bool_decide_eq_true. apply bool_decide_eq_true.
  destruct Hp as [?|?]; [by left|right; by apply Hsub].
Qed.

Lemma rmtree_empty_below out f f' : rmtree out f = (Ok tt, f') → empty_below out f'.
Proof.
  intros (_ & Hdirs & Hfiles)%rmtree_inv p Hp. rewrite Hdirs, Hfiles. split.
  - rewrite elem_of_filter. intros [Hw _]. apply Hw. unfold within.
    by rewrite Hp, orb_true_r.
  - apply map_lookup_filter_None. right. intros s _ Hn. simpl in Hn. by rewrite Hp in Hn.
Qed.

Lemma orphan_free_empty_below out f :
  orphan_free out f = true → path_exists f out = false → empty_below out f.
Proof.
  unfold orphan_free. intros Ho Hex. rewrite Hex in Ho. simpl in Ho.
  apply andb_true_iff in Ho as [Hd%bool_decide_eq_true Hf%bool_decide_eq_true].
  intros p Hp. split.
  - intros Hin. specialize (Hd p Hin). simpl in Hd. by rewrite Hp in Hd.
  - destruct (files f !! p) as [s|] eqn:Hl; [|done].
    specialize (Hf p s Hl). simpl in Hf. by rewrite Hp in Hf.
Qed.

Lemma makedirs_fresh out f f0 :
  clean_dir out = true → empty_below out f →
  makedirs out f = (Ok tt, f0) → fresh_dir out f0.
Proof.
  intros Hclean Hempty Hmk.
  destruct (makedirs_go_clean _ _ _ _ Hclean Hmk) as (f1 & Hmkdir & Hfiles & Hsub & Hadded).
  apply mkdir_inv in Hmkdir as (Hex & Hpar & ->).
  apply orb_false_iff in Hex as [_ Hfile]. apply bool_decide_eq_false in Hfile.
  split; [|split; [|split]]; simpl.
  - apply elem_of_union_l. by apply elem_of_singleton.
  - destruct (files f1 !! out) eqn:Hl; [|done]. destruct Hfile. by eexists.
  - intros p Hp. split.
    + intros [Hin%elem_of_singleton|Hin]%elem_of_union.
      * subst p. by rewrite under_irrefl in Hp.
      * destruct (Hadded p Hin) as [Hp'|Hp']; [by apply (Hempty p Hp)|].
        apply under_length in Hp. lia.
    + simpl. rewrite Hfiles. by apply Hempty.
  - apply parent_check_ok in Hpar as [_ [?|Hd]]; [by left|right].
    eapply is_dir_mono; [|exact Hd]. simpl. apply union_subseteq_r.
Qed.

(** Clearing a directory leaves it fresh. *)
Lemma clear_fs_fresh out f f0 :
  clean_dir out = true → orphan_free out f = true →
  clear_fs out f = (Ok tt, f0) → fresh_dir out f0.
Proof.
  intros Hclean Horphan. unfold clear_fs.
  destruct (path_exists f out) eqn:Hex.
  - destruct (rmtree out f) as [[[]|e] f1] eqn:Hrm; [|done].
    apply makedirs_fresh; [done|]. by eapply rmtree_empty_below.
  - apply makedirs_fresh; [done|]. by apply orphan_free_empty_below.
Qed.

Lemma fresh_dir_is_dir out f : fresh_dir out f → is_dir f out = true.
Proof. intros (Hin & _). apply bool_decide_eq_true. by right. Qed.

(** Clearing again, after files were written into the fresh directory:
    the directories are as before and the files below it are gone. *)
Lemma clear_fs_again out f0 kvs :
  clean_dir out = true → fresh_dir out f0 → out ∉ kvs.*1 →
  clear_fs out (FSys (dirs f0) (put_all kvs (files f0)))
  = (Ok tt, FSys (dirs f0)
              (filter (λ kv, ¬ under out kv.1) (put_all kvs (files f0)))).
Proof.
  intros Hclean (Hin & Hnofile & Hempty & Hparent) Hkeys.
  pose proof (clean_dir_inv _ Hclean) as (Hne & Hend & Hbase & Hdot & Hshort).
  assert (Hroot : out ≠ "/") by (by intros ->).
  unfold clear_fs.
  assert (path_exists (FSys (dirs f0) (put_all kvs (files f0))) out = true) as ->.
  { unfold path_exists, is_dir. simpl. rewrite bool_decide_eq_true_2; [done|by right]. }
  unfold rmtree.
  assert (is_dir (FSys (dirs f0) (put_all kvs (files f0))) out = true) as ->.
  { unfold is_dir. simpl. rewrite bool_decide_eq_true_2; [done|by right]. }
  simpl.
  set (fr := FSys (filter (λ d, ¬ within out d) (dirs f0))
                  (filter (λ kv, ¬ under out kv.1) (put_all kvs (files f0)))).
  assert (Hdirs_r : ∀ d, d ∈ dirs fr ↔ d ∈ dirs f0 ∧ d ≠ out).
  { intros d. simpl. rewrite elem_of_filter. unfold within. split.
    - intros [Hw Hd]. split; [done|]. intros ->. apply Hw.
      by rewrite bool_decide_eq_true_2.
    - intros [Hd Hneq]. split; [|done]. intros Hw%Is_true_true.
      apply orb_true_iff in Hw as [Heq%bool_decide_eq_true|Hu]; [done|].
      by destruct (Hempty d Hu). }
  rewrite makedirs_parent_exists; [|done|].
  2:{ destruct Hparent as [?|Hd]; [by left|right].
      unfold path_exists. apply orb_true_iff. left.
      apply bool_decide_eq_true in Hd. apply bool_decide_eq_true.
      destruct Hd as [?|Hd]; [by left|right]. apply Hdirs_r. split; [done|].
      intros Heq. rewrite Heq in Hshort. lia. }
  unfold mkdir.
  assert (path_exists fr out = false) as ->.
  { unfold path_exists. apply orb_false_iff. split.
    - apply bool_decide_eq_false. intros [?|Hd]; [done|]. by apply Hdirs_r in Hd as [_ ?].
    - apply bool_decide_eq_false. intros [s Hs]. subst fr. simpl in Hs.
      apply map_lookup_filter_Some in Hs as [Hs _].
      rewrite put_all_lookup_notin in Hs by done. congruence. }
  assert (parent_check fr out = Ok tt) as ->.
  { apply parent_check_ok. split; [done|]. destruct Hparent as [?|Hd]; [by left|right].
    apply bool_decide_eq_true in Hd. apply bool_decide_eq_true.
    destruct Hd as [?|Hd]; [by left|right]. apply Hdirs_r. split; [done|].
    intros Heq. rewrite Heq in Hshort. lia. }
  f_equal. f_equal. apply set_eq. intros d.
  rewrite elem_of_union, elem_of_singleton, Hdirs_r.
  destruct (decide (d = out)) as [->|Hneq]; [|tauto].
  split; [done|]. by left.
Qed.

End directories.

Section idempotence.
Import PyAPIDocsBuilder.

Lemma put_all_lookup_indep kvs m m' p :
  p ∈ kvs.*1 → put_all kvs m !! p = put_all kvs m' !! p.
Proof.
  revert m m'. induction kvs as [|[q s] kvs IH]; intros m m' Hp;
    [by apply elem_of_nil in Hp|].
  rewrite !put_all_cons. destruct (decide (p ∈ kvs.*1)) as [Hin|Hnotin]; [by apply IH|].
  rewrite fmap_cons, elem_of_cons in Hp. destruct Hp as [->|Hp]; [|done].
  rewrite !put_all_lookup_notin by done. by rewrite !lookup_insert_eq.
Qed.

(** Writing the same files again after the directory was cleared gives the
    same map. *)
Lemma put_all_after_clear out kvs (m : gmap string string) :
  (∀ p, under out p = true → m !! p = None) →
  put_all kvs (filter (λ kv, ¬ under out kv.1) (put_all kvs m)) = put_all kvs m.
Proof.
  intros Hempty. apply map_eq. intros p.
  destruct (decide (p ∈ kvs.*1)) as [Hin|Hnotin]; [by apply put_all_lookup_indep|].
  rewrite !put_all_lookup_notin by done.
  destruct (under out p) eqn:Hu.
  - rewrite (Hempty p Hu). apply map_lookup_filter_None. right.
    intros s _ Hn. simpl in Hn. by rewrite Hu in Hn.
  - destruct (m !! p) as [s|] eqn:Hl.
    + apply map_lookup_filter_Some. split; [by rewrite put_all_lookup_notin|].
      simpl. intros Hn%Is_true_true. congruence.
    + apply map_lookup_filter_None. left. by rewrite put_all_lookup_notin.
Qed.

Lemma generate_rst_fs rt out names w r w' :
  generate_rst rt (Build out names) w = (r, w') →
  fs_bind (clear_fs out) (λ _, emit_fs rt out names) (fs w) = (r, fs w').
Proof.
  intros Hrun. pose proof (runs_as_generate_rst rt out names w) as Hfs.
  by rewrite Hrun in Hfs.
Qed.

(** C5.  A second pass over the same names, with the modules unchanged,
    succeeds as the first did and leaves the file system, and so the output
    directory, exactly as the first left it. *)
Theorem generate_rst_idempotent rt out names w w1 :
  clean_dir out = true →
  orphan_free out (fs w) = true →
  generate_rst rt (Build out names) w = (Ok tt, w1) →
  ∃ w2, generate_rst rt (Build out names) w1 = (Ok tt, w2) ∧ fs w2 = fs w1.
Proof.
  intros Hclean Horphan Hrun. apply generate_rst_fs in Hrun. unfold fs_bind in Hrun.
  destruct (clear_fs out (fs w)) as [[[]|e] f0] eqn:Hclear; [|done].
  pose proof (clear_fs_fresh _ _ _ Hclean Horphan Hclear) as Hfresh.
  apply emit_fs_inv in Hrun as [Hres Hwrite].
  apply write_all_inv in Hwrite as [Hwritable Hfs1].
  set (kvs := all_writes rt out names) in *.
  assert (Hkeys : out ∉ kvs.*1).
  { intros Hin. apply put_all_lookup_in with (m := ∅) in Hin as (s & Hin & _).
    rewrite Forall_forall in Hwritable. destruct (Hwritable _ Hin) as [Hnd _].
    simpl in Hnd. by rewrite (fresh_dir_is_dir _ _ Hfresh) in Hnd. }
  destruct (generate_rst rt (Build out names) w1) as [r w2] eqn:Hrun2.
  apply generate_rst_fs in Hrun2. unfold fs_bind in Hrun2.
  rewrite Hfs1, (clear_fs_again _ _ _ Hclean Hfresh Hkeys) in Hrun2.
  rewrite (emit_fs_intro _ _ _ _ (Ok tt)
             (FSys (dirs f0) (put_all kvs (files f0))) Hres) in Hrun2.
  - injection Hrun2 as <- Hfs2. exists w2. split; [done|]. by rewrite Hfs1.
  - fold kvs. rewrite write_all_writable.
    + simpl. f_equal. f_equal. apply put_all_after_clear.
      intros p Hp. destruct Hfresh as (_ & _ & Hempty & _). by apply Hempty.
    + eapply Forall_impl; [exact Hwritable|]. intros kv. by apply writable_dirs.
Qed.

Lemma generate_rst_idempotent_witness :
  ∃ w2, generate_rst sample_rt sample_emitter (generate_rst sample_rt sample_emitter stale_world).2
        = (Ok tt, w2)
        ∧ fs w2 = fs (generate_rst sample_rt sample_emitter stale_world).2.
Proof.
  apply (generate_rst_idempotent sample_rt "python_api" ["open3d.camera"; "open3d.io"]
           stale_world).
  - vm_compute. reflexivity.
  - vm_compute. reflexivity.
  - vm_compute. reflexivity.
Defined.

(** What the first pass makes of the stale tree. *)
Lemma generate_rst_replaces_stale_output :
  files (fs (generate_rst sample_rt sample_emitter stale_world).2)
    !! "python_api/open3d.removed.rst" = None
  ∧ files (fs (generate_rst sample_rt sample_emitter stale_world).2)
      !! "python_api/open3d.io.rst"
    = Some (sub_module_doc "open3d.io" [] ["read_image"; "write_image"]
              ["read_image"; "write_image"])
  ∧ files (fs (generate_rst sample_rt sample_emitter stale_world).2) !! "index.rst"
    = Some "python_api/open3d.camera".
Proof. repeat split; vm_compute; reflexivity. Qed.

End idempotence.

(** ** The reference emitter: one file for each thing documented *)

Section one_file_each.
Import PyAPIDocsBuilder.

Lemma elem_of_module_writes out name module p s :
  (p, s) ∈ module_writes out name module ↔
  (∃ c, c ∈ class_names_of module ∧ p = descriptor_path out (DClass name c)
        ∧ s = class_doc name c)
  ∨ (∃ f, f ∈ function_names_of module ∧ p = descriptor_path out (DFunction name f)
          ∧ s = function_doc name f)
  ∨ (p = descriptor_path out (DModule name) ∧ s = module_doc_of name module).
Proof.
  unfold module_writes, descriptor_path. simpl.
  rewrite !elem_of_app, !list_elem_of_fmap, list_elem_of_singleton.
  split.
  - intros [(c & [= -> ->] & Hc)|[(f & [= -> ->] & Hf)|[= -> ->]]]; eauto 10.
  - intros [(c & Hc & -> & ->)|[(f & Hf & -> & ->)|[-> ->]]]; eauto 10.
Qed.

Lemma elem_of_all_writes rt out names p s :
  Forall (λ name, ∃ module, _get_open3d_module rt name = Ok module) names →
  (p, s) ∈ all_writes rt out names ↔
  ∃ d, documented rt names d ∧ p = descriptor_path out d ∧ s = descriptor_text rt d.
Proof.
  induction 1 as [|name names [module Hm] _ IH]; simpl.
  - split; [by intros ?%elem_of_nil|].
    intros ([m|m c|m f] & Hd & _); simpl in Hd; [|destruct Hd as [Hd _]..];
      by apply elem_of_nil in Hd.
  - rewrite Hm, elem_of_app, elem_of_module_writes, IH. split.
    + intros [[(c & Hc & -> & ->)|[(f & Hf & -> & ->)|[-> ->]]]|(d & Hd & -> & ->)].
      * exists (DClass name c). simpl. split; [|done]. split; [by left|eauto].
      * exists (DFunction name f). simpl. split; [|done]. split; [by left|eauto].
      * exists (DModule name). simpl. rewrite Hm. split; [by left|done].
      * exists d. split; [|done]. destruct d as [m|m c|m f]; simpl in *.
        -- by right.
        -- destruct Hd as [? ?]. split; [by right|done].
        -- destruct Hd as [? ?]. split; [by right|done].
    + intros ([m|m c|m f] & Hd & -> & ->); simpl in Hd.
      * apply elem_of_cons in Hd as [->|Hd].
        -- left. right. right. simpl. by rewrite Hm.
        -- right. by exists (DModule m).
      * destruct Hd as [Hin (module' & Hm' & Hc)].
        apply elem_of_cons in Hin as [->|Hin].
        -- left. left. exists c. rewrite Hm in Hm'. injection Hm' as <-. by repeat split.
        -- right. exists (DClass m c). simpl.
           split; [split; [done|by exists module']|done].
      * destruct Hd as [Hin (module' & Hm' & Hf)].
        apply elem_of_cons in Hin as [->|Hin].
        -- left. right. left. exists f. rewrite Hm in Hm'. injection Hm' as <-.
           by repeat split.
        -- right. exists (DFunction m f). simpl.
           split; [split; [done|by exists module']|done].
Qed.

(** What validity says of one name of the list. *)
Lemma valid_names_inv rt names m :
  valid_names rt names = true → m ∈ names →
  contains slash m = false
  ∧ ∃ module, _get_open3d_module rt m = Ok module
      ∧ (∀ c, c ∈ documented_names module →
              contains slash c = false ∧ contains "." c = false
              ∧ m +:+ "." +:+ c ∉ names)
      ∧ (∀ c, c ∈ class_names_of module → c ∉ function_names_of module).
Proof.
  unfold valid_names. intros [Hv Hc]%andb_true_iff Hm.
  rewrite forallb_forall in Hv, Hc. apply list_elem_of_In in Hm.
  specialize (Hv m Hm). specialize (Hc m Hm). unfold valid_module, no_clash in *.
  apply andb_true_iff in Hv as [Hslash%negb_true_iff Hv]. split; [done|].
  destruct (_get_open3d_module rt m) as [module|e]; [|done]. exists module.
  apply andb_true_iff in Hv as [Hnames Hdisj].
  rewrite forallb_forall in Hnames, Hdisj, Hc. split; [done|]. split.
  - intros c Hin%list_elem_of_In. specialize (Hnames c Hin). specialize (Hc c Hin).
    unfold member_name_ok in Hnames.
    apply andb_true_iff in Hnames as [H1%negb_true_iff H2%negb_true_iff].
    by apply bool_decide_eq_true in Hc.
  - intros c Hin%list_elem_of_In. specialize (Hdisj c Hin).
    by apply bool_decide_eq_true in Hdisj.
Qed.

Lemma valid_names_resolve rt names :
  valid_names rt names = true →
  Forall (λ name, ∃ module, _get_open3d_module rt name = Ok module) names.
Proof.
  intros Hv. apply Forall_forall. intros m Hm.
  destruct (valid_names_inv _ _ _ Hv Hm) as (_ & module & Hmod & _). by exists module.
Qed.

Lemma documented_file_plain rt names d :
  valid_names rt names = true → documented rt names d →
  contains slash (descriptor_file d) = false.
Proof.
  intros Hv Hd. destruct d as [m|m c|m f]; simpl in *.
  - destruct (valid_names_inv _ _ _ Hv Hd) as (Hm & _). by rewrite contains_app, Hm.
  - destruct Hd as [Hin (module & Hmod & Hc)].
    destruct (valid_names_inv _ _ _ Hv Hin) as (Hm & module' & Hmod' & Hnames & _).
    rewrite Hmod in Hmod'. injection Hmod' as <-.
    destruct (Hnames c) as (Hs & _); [apply elem_of_app; by left|].
    by rewrite !contains_app, Hm, Hs.
  - destruct Hd as [Hin (module & Hmod & Hf)].
    destruct (valid_names_inv _ _ _ Hv Hin) as (Hm & module' & Hmod' & Hnames & _).
    rewrite Hmod in Hmod'. injection Hmod' as <-.
    destruct (Hnames f) as (Hs & _); [apply elem_of_app; by right|].
    by rewrite !contains_app, Hm, Hs.
Qed.

(** Two documented things with the same file are the same thing. *)
Lemma descriptor_file_inj rt names d d' :
  valid_names rt names = true → documented rt names d → documented rt names d' →
  descriptor_file d = descriptor_file d' → d = d'.
Proof.
  intros Hv Hd Hd' Hfile.
  assert (Hmember : ∀ m c, documented rt names (DClass m c) ∨ documented rt names (DFunction m c) →
            m ∈ names ∧ contains "." c = false ∧ m +:+ "." +:+ c ∉ names).
  { intros m c [[Hin (module & Hmod & Hc)]|[Hin (module & Hmod & Hc)]];
      destruct (valid_names_inv _ _ _ Hv Hin) as (_ & module' & Hmod' & Hnames & _);
      rewrite Hmod in Hmod'; injection Hmod' as <-;
      (destruct (Hnames c) as (_ & ? & ?); [apply elem_of_app; eauto|done]). }
  assert (Hstrip : ∀ a b c e : string,
            a +:+ "." +:+ b +:+ ".rst" = c +:+ "." +:+ e +:+ ".rst" →
            contains "." b = false → contains "." e = false → a = c ∧ b = e).
  { intros a b c e Heq Hb He.
    rewrite <- !(string_app_assoc _ "." _), <- !(string_app_assoc _ _ ".rst") in Heq.
    apply string_app_inj_r in Heq. rewrite !string_app_assoc in Heq.
    by apply (sep_app_inj "."%char). }
  assert (Hmod_member : ∀ m m' c, m +:+ ".rst" = m' +:+ "." +:+ c +:+ ".rst" →
            m = m' +:+ "." +:+ c).
  { intros m m' c Heq. rewrite <- !(string_app_assoc _ "." _),
      <- !(string_app_assoc _ _ ".rst") in Heq.
    apply string_app_inj_r in Heq. by rewrite string_app_assoc in Heq. }
  destruct d as [m|m c|m f], d' as [m'|m' c'|m' f']; simpl in Hfile.
  - apply string_app_inj_r in Hfile. by subst.
  - apply Hmod_member in Hfile. subst m.
    destruct (Hmember m' c') as (_ & _ & Hclash); [by left|]. by destruct Hclash.
  - apply Hmod_member in Hfile. subst m.
    destruct (Hmember m' f') as (_ & _ & Hclash); [by right|]. by destruct Hclash.
  - symmetry in Hfile. apply Hmod_member in Hfile. subst m'.
    destruct (Hmember m c) as (_ & _ & Hclash); [by left|]. by destruct Hclash.
  - destruct (Hmember m c) as (_ & Hc & _); [by left|].
    destruct (Hmember m' c') as (_ & Hc' & _); [by left|].
    destruct (Hstrip _ _ _ _ Hfile Hc Hc') as [-> ->]. done.
  - destruct (Hmember m c) as (_ & Hc & _); [by left|].
    destruct (Hmember m' f') as (_ & Hf' & _); [by right|].
    destruct (Hstrip _ _ _ _ Hfile Hc Hf') as [-> ->].
    destruct Hd as [Hin (module & Hmod & Hcl)]. destruct Hd' as [_ (module' & Hmod' & Hfn)].
    rewrite Hmod in Hmod'. injection Hmod' as <-.
    destruct (valid_names_inv _ _ _ Hv Hin) as (_ & module' & Hmod' & _ & Hdisj).
    rewrite Hmod in Hmod'. injection Hmod' as <-. by destruct (Hdisj _ Hcl).
  - symmetry in Hfile. apply Hmod_member in Hfile. subst m'.
    destruct (Hmember m f) as (_ & _ & Hclash); [by right|]. by destruct Hclash.
  - destruct (Hmember m f) as (_ & Hf & _); [by right|].
    destruct (Hmember m' c') as (_ & Hc' & _); [by left|].
    destruct (Hstrip _ _ _ _ Hfile Hf Hc') as [-> ->].
    destruct Hd' as [Hin (module & Hmod & Hcl)]. destruct Hd as [_ (module' & Hmod' & Hfn)].
    rewrite Hmod in Hmod'. injection Hmod' as <-.
    destruct (valid_names_inv _ _ _ Hv Hin) as (_ & module' & Hmod' & _ & Hdisj).
    rewrite Hmod in Hmod'. injection Hmod' as <-. by destruct (Hdisj _ Hcl).
  - destruct (Hmember m f) as (_ & Hf & _); [by right|].
    destruct (Hmember m' f') as (_ & Hf' & _); [by right|].
    destruct (Hstrip _ _ _ _ Hfile Hf Hf') as [-> ->]. done.
Qed.

Lemma descriptor_path_clean rt out names d :
  clean_dir out = true → valid_names rt names = true → documented rt names d →
  descriptor_path out d = out +:+ "/" +:+ descriptor_file d
  ∧ dirname (descriptor_path out d) = out
  ∧ under out (descriptor_path out d) = true.
Proof.
  intros (Hne & Hend & _)%clean_dir_inv Hv Hd.
  pose proof (documented_file_plain _ _ _ Hv Hd) as Hplain.
  unfold descriptor_path. rewrite os_path_join_plain by done.
  split; [done|]. split; [|apply under_app].
  unfold dirname. by rewrite os_path_split_app.
Qed.

(** C3, with validity spelled out.  For a list of module names each of
    which resolves, in which no name of a module or of a documented member
    holds a slash, no member name holds a dot or stands for both a class and
    a function, and no name is spelled as a module of the list, a dot, and
    one of its documented members, and for an output directory that could
    be cleared, the pass succeeds, and afterwards: every module of the
    list, every class of such a module and every built-in callable of such a
    module has its file, with the text written for it; the output directory
    holds no other file; and no two of them share a file. *)
Theorem emitter_one_file_each rt out names w w0 :
  clean_dir out = true →
  orphan_free out (fs w) = true →
  valid_names rt names = true →
  _create_or_clear_dir out w = (Ok tt, w0) →
  ∃ w', generate_rst rt (Build out names) w = (Ok tt, w')
    ∧ (∀ d, documented rt names d →
            files (fs w') !! descriptor_path out d = Some (descriptor_text rt d))
    ∧ (∀ p, under out p = true → is_Some (files (fs w') !! p) →
            ∃ d, documented rt names d ∧ p = descriptor_path out d)
    ∧ (∀ d d', documented rt names d → documented rt names d' →
               descriptor_path out d = descriptor_path out d' → d = d')
    ∧ dirs (fs w') = dirs (fs w0).
Proof.
  intros Hclean Horphan Hv Hclear.
  pose proof (runs_as_create_or_clear_dir out w) as Hclear_fs.
  rewrite Hclear in Hclear_fs. unfold fs_view in Hclear_fs. simpl in Hclear_fs.
  symmetry in Hclear_fs.
  pose proof (clear_fs_fresh _ _ _ Hclean Horphan Hclear_fs) as Hfresh.
  pose proof (valid_names_resolve _ _ Hv) as Hres.
  pose proof (clean_dir_inv _ Hclean) as (Hne & Hend & _).
  set (kvs := all_writes rt out names).
  assert (Hinj : ∀ d d', documented rt names d → documented rt names d' →
                         descriptor_path out d = descriptor_path out d' → d = d').
  { intros d d' Hd Hd' Hpath.
    destruct (descriptor_path_clean rt out names d) as (Hp & _); [done..|].
    destruct (descriptor_path_clean rt out names d') as (Hp' & _); [done..|].
    rewrite Hp, Hp' in Hpath. apply (inj (String.app out)) in Hpath.
    apply (inj (String.app "/")) in Hpath.
    by apply (descriptor_file_inj rt names). }
  assert (Hwritable : Forall (λ kv, writable (fs w0) kv.1) kvs).
  { apply Forall_forall. intros [p s] Hin. simpl.
    apply (elem_of_all_writes _ _ _ _ _ Hres) in Hin as (d & Hd & -> & _).
    destruct (descriptor_path_clean rt out names d) as (Hp & Hdir & Hunder); [done..|].
    destruct Hfresh as (Hout & _ & Hempty & _). repeat split.
    - apply bool_decide_eq_false. intros [Hroot|Hin].
      + rewrite Hp in Hroot. destruct out as [|c [|c' out']]; done.
      + by destruct (Hempty _ Hunder).
    - rewrite Hp. by destruct out.
    - right. rewrite Hdir. apply bool_decide_eq_true. by right. }
  destruct (generate_rst rt (Build out names) w) as [r w'] eqn:Hrun.
  apply generate_rst_fs in Hrun. unfold fs_bind in Hrun. rewrite Hclear_fs in Hrun.
  rewrite (emit_fs_intro _ _ _ _ _ _ Hres (write_all_writable _ _ Hwritable)) in Hrun.
  injection Hrun as <- Hfs. exists w'. split; [done|]. rewrite <- Hfs. simpl. fold kvs.
  split; [|split; [|split; [exact Hinj|done]]].
  - intros d Hd.
    assert (Hin : (descriptor_path out d, descriptor_text rt d) ∈ kvs).
    { apply (elem_of_all_writes _ _ _ _ _ Hres). by exists d. }
    destruct (put_all_lookup_in kvs (files (fs w0)) (descriptor_path out d))
      as (s & Hs & ->).
    { apply list_elem_of_fmap. by exists (descriptor_path out d, descriptor_text rt d). }
    apply (elem_of_all_writes _ _ _ _ _ Hres) in Hs as (d' & Hd' & Hpath & ->).
    by rewrite (Hinj d d' Hd Hd' Hpath).
  - intros p Hunder Hsome. destruct (decide (p ∈ kvs.*1)) as [Hin|Hnotin].
    + apply list_elem_of_fmap in Hin as ([p' s] & -> & Hin).
      apply (elem_of_all_writes _ _ _ _ _ Hres) in Hin as (d & Hd & -> & _).
      by exists d.
    + rewrite put_all_lookup_notin in Hsome by done.
      destruct Hfresh as (_ & _ & Hempty & _). destruct (Hempty _ Hunder) as [_ Hnone].
      rewrite Hnone in Hsome. by destruct Hsome.
Qed.

Lemma emitter_one_file_each_witness :
  ∃ w', generate_rst sample_rt sample_emitter stale_world = (Ok tt, w')
    ∧ files (fs w') !! "python_api/open3d.camera.PinholeCameraIntrinsic.rst"
      = Some (class_doc "open3d.camera" "PinholeCameraIntrinsic")
    ∧ files (fs w') !! "python_api/open3d.io.read_image.rst"
      = Some (function_doc "open3d.io" "read_image")
    ∧ files (fs w') !! "python_api/open3d.io.rst"
      = Some (module_doc_of "open3d.io" io_module).
Proof.
  destruct (emitter_one_file_each sample_rt "python_api" ["open3d.camera"; "open3d.io"]
              stale_world (_create_or_clear_dir "python_api" stale_world).2)
    as (w' & Hrun & Hfiles & _); [vm_compute; reflexivity..|].
  exists w'. split; [exact Hrun|]. split; [|split].
  - apply (Hfiles (DClass "open3d.camera" "PinholeCameraIntrinsic")).
    split; [apply list_elem_of_here|]. exists camera_module.
    split; [reflexivity|]. apply list_elem_of_here.
  - apply (Hfiles (DFunction "open3d.io" "read_image")).
    split; [apply list_elem_of_further, list_elem_of_here|]. exists io_module.
    split; [reflexivity|]. apply list_elem_of_further, list_elem_of_here.
  - apply (Hfiles (DModule "open3d.io")).
    apply list_elem_of_further, list_elem_of_here.
Defined.

(** Why validity asks that no name be spelled as a module and one of its
    members: the file of the member is then the file of that other module,
    and the later write wins. *)
Lemma clash_overwrites_class_file :
  valid_names sample_rt ["open3d.camera"; "open3d.camera.PinholeCameraIntrinsic"] = false
  ∧ documented sample_rt ["open3d.camera"; "open3d.camera.PinholeCameraIntrinsic"]
      (DClass "open3d.camera" "PinholeCameraIntrinsic")
  ∧ (generate_rst sample_rt
       (Build "python_api" ["open3d.camera"; "open3d.camera.PinholeCameraIntrinsic"])
       empty_world).1 = Ok tt
  ∧ files (fs (generate_rst sample_rt
                 (Build "python_api" ["open3d.camera"; "open3d.camera.PinholeCameraIntrinsic"])
                 empty_world).2)
      !! "python_api/open3d.camera.PinholeCameraIntrinsic.rst"
    = Some (module_doc_of "open3d.camera.PinholeCameraIntrinsic" (PyObj KClass [])).
Proof.
  split; [vm_compute; reflexivity|]. split.
  - split; [apply list_elem_of_here|]. exists camera_module.
    split; [reflexivity|]. apply list_elem_of_here.
  - split; vm_compute; reflexivity.
Qed.

(** C3 as worded fails where a listed module is spelled as another listed
    module, a dot, and one of its classes: each name is fine by itself and
    the pass returns, yet the class and the module have one file between
    them, and it holds the text of the module. *)
Lemma clash_shares_one_file :
  forallb (valid_module pkg_rt) ["pkg"; "pkg.tool"] = true
  ∧ valid_names pkg_rt ["pkg"; "pkg.tool"] = false
  ∧ (generate_rst pkg_rt (Build "python_api" ["pkg"; "pkg.tool"]) empty_world).1 = Ok tt
  ∧ documented pkg_rt ["pkg"; "pkg.tool"] (DClass "pkg" "tool")
  ∧ documented pkg_rt ["pkg"; "pkg.tool"] (DModule "pkg.tool")
  ∧ descriptor_path "python_api" (DClass "pkg" "tool")
    = descriptor_path "python_api" (DModule "pkg.tool")
  ∧ files (fs (generate_rst pkg_rt (Build "python_api" ["pkg"; "pkg.tool"])
                 empty_world).2)
      !! descriptor_path "python_api" (DClass "pkg" "tool")
    = Some (descriptor_text pkg_rt (DModule "pkg.tool"))
  ∧ descriptor_text pkg_rt (DModule "pkg.tool") ≠ descriptor_text pkg_rt (DClass "pkg" "tool")
  ∧ size (files (fs (generate_rst pkg_rt (Build "python_api" ["pkg"; "pkg.tool"])
                       empty_world).2)) = 3.
Proof.
  split; [vm_compute; reflexivity|]. split; [vm_compute; reflexivity|].
  split; [vm_compute; reflexivity|]. split.
  { split; [apply list_elem_of_here|]. exists pkg_module.
    split; [reflexivity|]. apply list_elem_of_here. }
  split; [apply list_elem_of_further, list_elem_of_here|].
  split; [reflexivity|]. split; [vm_compute; reflexivity|].
  split; [vm_compute; discriminate|]. vm_compute. reflexivity.
Qed.

End one_file_each.

(** * Further properties of the script *)

(** ** Cutting strings *)

Section cutting.

Lemma split_with_sep sep s :
  contains sep s = true → ∃ a b rest, split sep s = a :: b :: rest.
Proof.
  induction s as [|c s IH]; simpl; [done|].
  intros Hc. destruct (decide (c = sep)) as [->|Hne].
  - destruct s as [|c' s']; simpl; [by eexists _, _, _|].
    destruct (decide (c' = sep)); [by eexists _, _, _|].
    destruct (split sep s'); by eexists _, _, _.
  - rewrite bool_decide_eq_false_2 in Hc by done. simpl in Hc.
    destruct (IH Hc) as (a & b & rest & ->). by eexists _, _, _.
Qed.

Lemma lstrip_space_blanks pre s :
  all_re_space pre = true → lstrip_space (pre +:+ s) = lstrip_space s.
Proof.
  induction pre as [|c pre IH]; [done|]. rewrite str_app_cons. simpl.
  intros [Hc Hpre]%andb_true_iff. rewrite Hc. by apply IH.
Qed.

Lemma lstrip_space_cut s :
  ∃ pre, s = pre +:+ lstrip_space s ∧ all_re_space pre = true.
Proof.
  induction s as [|c s (pre & Hs & Hpre)]; [by exists ""|]. simpl.
  destruct (is_re_space c) eqn:Hc.
  - exists (String c pre). rewrite str_app_cons, <- Hs. simpl. by rewrite Hc.
  - by exists "".
Qed.

Lemma is_prefix_cut a s :
  is_prefix a s = true → s = a +:+ str_drop (String.length a) s.
Proof.
  revert s. induction a as [|x a IH]; intros [|c s]; simpl; try done.
  intros [Hx%bool_decide_eq_true Ha]%andb_true_iff. subst c.
  rewrite str_app_cons. f_equal. by apply IH.
Qed.

Lemma cut_at_LF_parts s :
  s = (cut_at_LF s).1 +:+ (cut_at_LF s).2
  ∧ contains LF (cut_at_LF s).1 = false
  ∧ ((cut_at_LF s).2 = "" ∨ ∃ r, (cut_at_LF s).2 = String LF r).
Proof.
  induction s as [|c s (Hs & Hg & Hr)]; simpl; [by repeat split; left|].
  destruct (decide (c = LF)) as [->|Hne]; simpl; [by repeat split; eauto|].
  destruct (cut_at_LF s) as [g r]; simpl in *.
  rewrite str_app_cons, <- Hs. simpl. by rewrite bool_decide_eq_false_2.
Qed.

Lemma cut_at_LF_app g r :
  contains LF g = false → (r = "" ∨ ∃ r', r = String LF r') →
  cut_at_LF (g +:+ r) = (g, r).
Proof.
  intros Hg Hr. induction g as [|c g IH].
  - change ("" +:+ r) with r. by destruct Hr as [->|[r' ->]].
  - simpl in Hg. apply orb_false_iff in Hg as [Hc%bool_decide_eq_false Hg].
    rewrite str_app_cons. simpl. rewrite decide_False by done. by rewrite IH.
Qed.

End cutting.

(** ** The static-site invoker: the module names of the index *)

Section index_file.
Import SphinxDocsBuilder.

(** X1.  The pattern of [_get_module_names_from_index_rst] matches a line
    exactly when it is blanks, the literal python_api/, a run free of line
    feeds, and then nothing or a line feed with blanks at most; the name it
    captures is that run, whole, trailing blanks included. *)
Theorem index_line_match line g :
  match_python_api line = Some g ↔
  ∃ pre rest, line = pre +:+ "python_api/" +:+ g +:+ rest
     ∧ all_re_space pre = true ∧ contains LF g = false
     ∧ all_re_space rest = true ∧ (rest = "" ∨ ∃ r, rest = String LF r).
Proof.
  unfold match_python_api, startswith. split.
  - destruct (lstrip_space_cut line) as (pre & Hline & Hpre).
    destruct (is_prefix "python_api/" (lstrip_space line)) eqn:Hp; [|done].
    apply is_prefix_cut in Hp.
    destruct (cut_at_LF_parts (str_drop (String.length "python_api/") (lstrip_space line)))
      as (Hcut & Hg & Hr).
    destruct (cut_at_LF _) as [g' r]; simpl in *.
    destruct (all_re_space r) eqn:Hblank; [|done]. intros [= <-].
    exists pre, r. split; [|done]. by rewrite Hline at 1; rewrite Hp at 1; rewrite Hcut at 1.
  - intros (pre & rest & -> & Hpre & Hg & Hblank & Hrest).
    rewrite (lstrip_space_blanks _ _ Hpre).
    change (lstrip_space ("python_api/" +:+ g +:+ rest)) with ("python_api/" +:+ g +:+ rest).
    rewrite prefix_app.
    change (str_drop (String.length "python_api/") ("python_api/" +:+ g +:+ rest))
      with (g +:+ rest).
    by rewrite (cut_at_LF_app _ _ Hg Hrest), Hblank.
Qed.

Lemma collect_matches {A B} (f : A → option B) (l : list A) (acc : list B) :
  foldl (λ acc x, match f x with Some g => acc ++ [g] | None => acc end) acc l
  = acc ++ omap f l.
Proof.
  revert acc. induction l as [|x l IH]; intros acc; simpl; [by rewrite app_nil_r|].
  rewrite IH. destruct (f x); [by rewrite <- app_assoc|done].
Qed.

(** X2.  The builder is constructed from the index file alone: its modules
    are the captures of the matching lines, in the order of the lines and
    as often as they occur, the reference directory is python_api whatever
    the output directory, and nothing is written or printed.  Without an
    index file the construction raises and no builder exists. *)
Theorem sphinx_init_reads_index html_output_dir is_release w :
  (∀ text, files (fs w) !! "index.rst" = Some text → contains CR text = false →
     __init__ html_output_dir is_release w
     = (Ok (Build (omap match_python_api (readlines text)) "python_api"
                  html_output_dir is_release), w))
  ∧ (files (fs w) !! "index.rst" = None → is_dir (fs w) "index.rst" = false →
     __init__ html_output_dir is_release w = (Raise FileNotFoundError, w)).
Proof.
  unfold __init__, _get_module_names_from_index_rst, bind, on_fs, read_file, ret.
  destruct w as [env [ds fl] out]; simpl. split.
  - intros text -> _. by rewrite collect_matches.
  - by intros -> ->.
Qed.

Lemma sphinx_init_reads_index_witness :
  __init__ "/repo/docs/_out" false (World ∅ (FSys ∅ {["index.rst" := index_rst]}) [])
  = (Ok (Build ["open3d.camera"; "open3d.io  "] "python_api" "/repo/docs/_out" false),
     World ∅ (FSys ∅ {["index.rst" := index_rst]}) [])
  ∧ __init__ "/repo/docs/_out" false empty_world = (Raise FileNotFoundError, empty_world).
Proof.
  destruct (sphinx_init_reads_index "/repo/docs/_out" false
              (World ∅ (FSys ∅ {["index.rst" := index_rst]}) [])) as [Hread _].
  destruct (sphinx_init_reads_index "/repo/docs/_out" false empty_world) as [_ Hmiss].
  split; [exact (Hread index_rst eq_refl eq_refl) | exact (Hmiss eq_refl eq_refl)].
Defined.

End index_file.

(** ** The static-site invoker: the version file *)

Section version_file.
Import SphinxDocsBuilder.

Lemma item1_split_raises sep s e :
  item1 (split sep s) = Raise e ↔ e = IndexError ∧ contains sep s = false.
Proof.
  unfold item1. destruct (contains sep s) eqn:Hc.
  - destruct (split_with_sep _ _ Hc) as (a & b & rest & ->). simpl.
    split; [done|]. by intros [_ ?].
  - rewrite (split_no_sep _ _ Hc). simpl. split; [by intros [= <-]|]. by intros [-> _].
Qed.

Lemma version_list_of_raises lines e :
  version_list_of lines = Raise e ↔
  e = IndexError ∧ ∃ line, line ∈ lines ∧ contains " " (rstrip LF line) = false.
Proof.
  revert e. induction lines as [|line lines IH]; intros e; simpl.
  - split; [done|]. by intros [_ (line & ?%elem_of_nil & _)].
  - destruct (item1 (split " " (rstrip LF line))) as [v|e'] eqn:Hv.
    + assert (Hblank : contains " " (rstrip LF line) = true).
      { destruct (contains " " (rstrip LF line)) eqn:Hc; [done|].
        by rewrite (proj2 (item1_split_raises " " _ IndexError)) in Hv. }
      destruct (version_list_of lines) as [vs|e'].
      * split; [done|]. intros [-> (l & [->|Hin]%elem_of_cons & Hl)]; [congruence|].
        assert (Hr : @Ok (list string) vs = Raise IndexError) by (apply IH; eauto).
        done.
      * split.
        -- intros [= <-]. destruct (proj1 (IH e') eq_refl) as [-> (l & Hin & Hl)].
           split; [done|]. exists l. split; [by right|done].
        -- intros [-> _]. by destruct (proj1 (IH e') eq_refl) as [-> _].
    + apply item1_split_raises in Hv as [-> Hc]. split.
      * intros [= <-]. split; [done|]. exists line. split; [by left|done].
      * by intros [-> _].
Qed.

(** X3.  A release build fails with [IndexError], before the site builder
    is started, exactly when some line of the version file, wherever it
    stands, has no blank in it once its line feed is stripped: an empty line
    is enough.  The comprehension raises nothing else. *)
Theorem release_version_index_error rt self w text :
  is_release self = true →
  files (fs w) !! "../src/Open3D/version.txt" = Some text →
  contains CR text = false →
  (∀ e, release_version_of text = Raise e →
        e = IndexError ∧ _run_sphinx rt self w = (Raise IndexError, w))
  ∧ ((∃ v, release_version_of text = Ok v)
     ↔ ∀ line, line ∈ readlines text → contains " " (rstrip LF line) = true).
Proof.
  intros Hrel Hfile _. split.
  - intros e He. unfold release_version_of in He.
    destruct (version_list_of (readlines text)) as [vs|e'] eqn:Hvs; [done|].
    injection He as ->. pose proof (proj1 (version_list_of_raises _ _) Hvs) as [-> _].
    split; [done|].
    unfold _run_sphinx, sphinx_cmd. rewrite Hrel.
    unfold bind, on_fs, read_file, lift_result, release_version_of.
    rewrite Hfile, Hvs. by destruct w as [env [ds fl] out].
  - unfold release_version_of.
    destruct (version_list_of (readlines text)) as [vs|e] eqn:Hvs.
    + split; [|by eauto]. intros _ line Hin.
      destruct (contains " " (rstrip LF line)) eqn:Hc; [done|].
      assert (Hr : version_list_of (readlines text) = Raise IndexError).
      { apply version_list_of_raises. eauto. }
      congruence.
    + apply version_list_of_raises in Hvs as [-> (line & Hin & Hc)].
      split; [by intros [v ?]|]. intros Hall. specialize (Hall line Hin). congruence.
Qed.

Lemma release_version_index_error_witness :
  _run_sphinx sample_rt release_builder blank_line_world
  = (Raise IndexError, blank_line_world).
Proof.
  destruct (release_version_index_error sample_rt release_builder blank_line_world
              version_txt_blank_line) as [Hraise _]; [reflexivity..|].
  apply (Hraise IndexError). reflexivity.
Defined.



End version_file.

(** ** The reference emitter: a name without a dot *)

Section dotless.
Import PyAPIDocsBuilder.

(** X5.  A name without a dot that cannot be imported is not an error: the
    traversal has no segment left to look up and the root module itself is
    returned, so the pass documents the root module under that name. *)
Theorem dotless_name_resolves_to_root rt root name module_names out w :
  import_module rt "open3d" = Ok root →
  contains "." name = false →
  import_module rt name = Raise ImportError →
  _get_open3d_module rt name = Ok root
  ∧ generate_rst rt (Build out (name :: module_names)) w
    = (_create_or_clear_dir out ;;
       _generate_sub_module_class_function_docs name root out ;;
       for_each module_names (λ module_name,
         module <- lift_result (_get_open3d_module rt module_name) ;;
         _generate_sub_module_class_function_docs module_name module out)) w.
Proof.
  intros Hroot Hdot Himp.
  assert (Hres : _get_open3d_module rt name = Ok root).
  { unfold _get_open3d_module. rewrite Hroot, Himp. by rewrite split_no_sep. }
  split; [done|]. unfold generate_rst. simpl.
  apply bind_ext. intros _ w1. unfold bind at 1 3. unfold lift_result. by rewrite Hres.
Qed.

Lemma dotless_name_resolves_to_root_witness :
  _get_open3d_module sample_rt "numpy" = Ok open3d_root.
Proof.
  exact (proj1 (dotless_name_resolves_to_root sample_rt open3d_root "numpy" [] "python_api"
                  empty_world eq_refl eq_refl eq_refl)).
Defined.

End dotless.

(** ** The reference emitter: what the files say *)

Section texts.
Import PyAPIDocsBuilder.

Lemma heading_lines (title rest : string) :
  contains LF title = false →
  take 2 (split LF (title +:+ nl +:+ str_repeat "-" (String.length title) +:+ nl +:+ rest))
  = [title; str_repeat "-" (String.length title)].
Proof.
  intros Htitle. unfold nl.
  change (String LF "" +:+ ?s) with (String LF s).
  rewrite split_first_segment by done.
  change (String LF "" +:+ rest) with (String LF rest).
  rewrite split_first_segment by (by apply contains_str_repeat).
  by destruct (split LF rest).
Qed.

(** The loops of the module file only add to what is there. *)
Lemma foldl_appends {A} (g : A → string) (l : list A) (init : string) :
  ∃ more, foldl (λ out x, out +:+ g x) init l = init +:+ more.
Proof.
  revert init. induction l as [|x l IH]; intros init; simpl.
  - exists "". induction init as [|c init IHi]; [done|]. rewrite str_app_cons. by f_equal.
  - destruct (IH (init +:+ g x)) as [more ->]. exists (g x +:+ more).
    by rewrite string_app_assoc.
Qed.

Lemma sub_module_doc_heading name class_names function_names obj_names :
  ∃ rest, sub_module_doc name class_names function_names obj_names
          = name +:+ nl +:+ str_repeat "-" (String.length name) +:+ nl +:+ rest.
Proof.
  unfold sub_module_doc.
  change ("" +:+ name) with name.
  set (head := (name +:+ nl +:+ str_repeat "-" (String.length name))
               +:+ nl +:+ nl +:+ ".. currentmodule:: " +:+ name).
  assert (Hhead : ∃ rest, head = name +:+ nl +:+ str_repeat "-" (String.length name)
                                 +:+ nl +:+ rest).
  { eexists. subst head. by rewrite !string_app_assoc. }
  assert (Hgrow : ∀ (b : bool) (s : string) (title : string) (g : string → string)
                    (l : list string),
            (∃ rest, s = name +:+ nl +:+ str_repeat "-" (String.length name) +:+ nl +:+ rest) →
            ∃ rest, (if b then foldl (λ out x, out +:+ g x) (s +:+ title) l +:+ nl else s)
                    = name +:+ nl +:+ str_repeat "-" (String.length name) +:+ nl +:+ rest).
  { intros b s title g l [rest ->]. destruct b; [|by eexists].
    destruct (foldl_appends g l
                ((name +:+ nl +:+ str_repeat "-" (String.length name) +:+ nl +:+ rest)
                 +:+ title)) as [more ->].
    eexists. by rewrite !string_app_assoc. }
  destruct Hhead as [r0 H0].
  destruct (Hgrow (bool_decide (0 < length class_names)) head
              (nl +:+ nl +:+ "**Classes**" +:+ nl +:+ nl +:+ ".. autosummary::" +:+ nl)
              (λ x, nl +:+ "    " +:+ x) class_names (ex_intro _ r0 H0)) as [r1 H1].
  destruct (Hgrow (bool_decide (0 < length function_names)) _
              (nl +:+ nl +:+ "**Functions**" +:+ nl +:+ nl +:+ ".. autosummary::" +:+ nl)
              (λ x, nl +:+ "    " +:+ x) function_names (ex_intro _ r1 H1)) as [r2 H2].
  destruct (Hgrow (bool_decide (0 < length obj_names)) _
              (nl +:+ nl +:+ ".. toctree::" +:+ nl +:+ "    :hidden:" +:+ nl)
              (λ x, nl +:+ "    " +:+ x +:+ " <" +:+ name +:+ "." +:+ x +:+ ">")
              obj_names (ex_intro _ r2 H2)) as [r3 H3].
  exists r3. rewrite <- H3. clear.
  by rewrite !string_app_assoc.
Qed.

(** X6.  Every file the emitter writes opens with a title line and an
    underline of exactly the title's length: the dotted name of the class
    or function, or the name of the module, and as many dashes. *)
Theorem files_open_with_underlined_title name member class_names function_names obj_names :
  contains LF name = false → contains LF member = false →
  let title := name +:+ "." +:+ member in
  take 2 (split LF (class_doc name member))
  = [title; str_repeat "-" (String.length title)]
  ∧ take 2 (split LF (function_doc name member))
    = [title; str_repeat "-" (String.length title)]
  ∧ take 2 (split LF (sub_module_doc name class_names function_names obj_names))
    = [name; str_repeat "-" (String.length name)].
Proof.
  intros Hname Hmember title.
  assert (Htitle : contains LF title = false).
  { subst title. by rewrite !contains_app, Hname, Hmember. }
  split; [|split].
  - unfold class_doc. change ("" +:+ name +:+ "." +:+ member) with title.
    rewrite !string_app_assoc. by apply heading_lines.
  - unfold function_doc. change ("" +:+ name +:+ "." +:+ member) with title.
    rewrite !string_app_assoc. by apply heading_lines.
  - destruct (sub_module_doc_heading name class_names function_names obj_names)
      as [rest ->].
    by apply heading_lines.
Qed.

Lemma files_open_with_underlined_title_witness :
  take 2 (split LF (class_doc "open3d.camera" "PinholeCameraIntrinsic"))
  = ["open3d.camera.PinholeCameraIntrinsic"; "------------------------------------"]
  ∧ take 2 (split LF (module_doc_of "open3d.io" io_module))
    = ["open3d.io"; "---------"].
Proof.
  destruct (files_open_with_underlined_title "open3d.camera" "PinholeCameraIntrinsic"
              [] [] []) as (Hclass & _ & _); [reflexivity..|].
  destruct (files_open_with_underlined_title "open3d.io" ""
              (listed_classes (class_names_of io_module))
              (listed_functions (function_names_of io_module))
              (listed_objs (class_names_of io_module) (function_names_of io_module)))
    as (_ & _ & Hmodule); [reflexivity..|].
  split; [exact Hclass | exact Hmodule].
Defined.

Lemma names_of_documented_kinds (P : pyobj → bool) k k' ms :
  (∀ o, P o = true → isclass o || isbuiltin o = true) →
  (λ obj : string * pyobj, obj.1) <$> filter (λ obj, P obj.2) (getmembers (PyObj k ms))
  = (λ obj : string * pyobj, obj.1)
      <$> filter (λ obj, P obj.2)
            (getmembers (PyObj k' (filter (λ m, isclass m.2 || isbuiltin m.2) ms))).
Proof.
  intros HP. simpl. f_equal. rewrite list_filter_filter.
  apply list_filter_iff. intros [n o]; simpl. split; [|by intros [? _]].
  intros Ho. split; [done|]. apply Is_true_true, HP. by apply Is_true_true.
Qed.

(** X7.  Only the members that are classes or built-in callables count:
    a module documents as the same module without its other members (plain
    Python functions, sub-modules, constants), and what kind of object the
    module itself is plays no part. *)
Theorem other_members_undocumented name k k' ms out :
  _generate_sub_module_class_function_docs name (PyObj k ms) out
  = _generate_sub_module_class_function_docs name
      (PyObj k' (filter (λ m, isclass m.2 || isbuiltin m.2) ms)) out.
Proof.
  unfold _generate_sub_module_class_function_docs, class_names_of, function_names_of.
  rewrite <- (names_of_documented_kinds isclass k k' ms)
    by (by intros o ->).
  rewrite <- (names_of_documented_kinds isbuiltin k k' ms)
    by (intros o ->; apply orb_true_r).
  done.
Qed.

Lemma filter_none {A} (P : A → Prop) `{∀ x, Decision (P x)} (l : list A) :
  (∀ x, x ∈ l → ¬ P x) → filter P l = [].
Proof.
  induction l as [|x l IH]; intros Hl; [done|].
  rewrite filter_cons_False by (apply Hl; by left).
  apply IH. intros y Hy. apply Hl. by right.
Qed.

(** X8.  A module with no class and no built-in callable among its members
    still gets its module file, and only that: title, underline and the
    current-module line, with no summary, no navigation tree and no final
    line feed. *)
Theorem bare_module_file name module out w :
  (∀ m, m ∈ getmembers module → isclass m.2 = false ∧ isbuiltin m.2 = false) →
  _generate_sub_module_class_function_docs name module out w
  = (print ("Generating docs for submodule: " +:+ name) ;;
     on_fs (write_file (os_path_join out (name +:+ ".rst"))
              (name +:+ nl +:+ str_repeat "-" (String.length name) +:+ nl +:+ nl
               +:+ ".. currentmodule:: " +:+ name))) w.
Proof.
  intros Hnone.
  assert (Hc : class_names_of module = []).
  { unfold class_names_of. rewrite filter_none; [done|].
    intros m Hm Hcl%Is_true_true. destruct (Hnone m Hm). congruence. }
  assert (Hf : function_names_of module = []).
  { unfold function_names_of. rewrite filter_none; [done|].
    intros m Hm Hcl%Is_true_true. destruct (Hnone m Hm). congruence. }
  unfold _generate_sub_module_class_function_docs, _generate_sub_module_doc.
  rewrite Hc, Hf. unfold bind, print, for_each, ret; simpl.
  unfold listed_classes, listed_functions, listed_objs, sub_module_doc.
  change (sorted []) with (@nil string). simpl.
  by rewrite !string_app_assoc.
Qed.

Lemma bare_module_file_witness :
  files (fs (_generate_sub_module_class_function_docs "open3d" open3d_root "python_api"
               (World ∅ (FSys {["python_api"]} ∅) [])).2)
  = {["python_api/open3d.rst" := "open3d" +:+ nl +:+ "------" +:+ nl +:+ nl
                                  +:+ ".. currentmodule:: open3d"]}.
Proof.
  rewrite (bare_module_file "open3d" open3d_root "python_api").
  - reflexivity.
  - intros m Hm. repeat (apply elem_of_cons in Hm as [->|Hm]; [by split|]).
    by apply elem_of_nil in Hm.
Defined.

End texts.

(** ** [_create_or_clear_dir] *)

Section clearing.

Lemma files_outside_kept out (m : gmap string string) p :
  under out p = false → filter (λ kv, ¬ under out kv.1) m !! p = m !! p.
Proof.
  intros Hp. destruct (m !! p) as [s|] eqn:Hl.
  - apply map_lookup_filter_Some. split; [done|]. simpl. rewrite Hp. by intros [].
  - apply map_lookup_filter_None. by left.
Qed.

Lemma makedirs_any name f r f' :
  makedirs name f = (r, f') → files f' = files f ∧ dirs f ⊆ dirs f'.
Proof. intros (Hf & Hd & _)%makedirs_go_any. done. Qed.

(** Clearing, however it ends, keeps every file that is not below the
    directory, and every directory that is not the directory or below it. *)
Lemma clear_fs_outside out f r f1 :
  clear_fs out f = (r, f1) →
  (∀ p, under out p = false → files f1 !! p = files f !! p)
  ∧ (∀ d, within out d = false → d ∈ dirs f → d ∈ dirs f1).
Proof.
  unfold clear_fs.
  assert (Hmk : ∀ f0, (∀ p, under out p = false → files f0 !! p = files f !! p)
                      ∧ (∀ d, within out d = false → d ∈ dirs f → d ∈ dirs f0) →
                      makedirs out f0 = (r, f1) →
                      (∀ p, under out p = false → files f1 !! p = files f !! p)
                      ∧ (∀ d, within out d = false → d ∈ dirs f → d ∈ dirs f1)).
  { intros f0 [Hfiles Hdirs] [Hf Hd]%makedirs_any. split.
    - intros p Hp. rewrite Hf. by apply Hfiles.
    - intros d Hw Hin. by apply Hd, Hdirs. }
  destruct (path_exists f out); [|by apply Hmk].
  destruct (rmtree out f) as [[[]|e] f0] eqn:Hrm.
  - apply Hmk. apply rmtree_inv in Hrm as (_ & -> & ->). split.
    + intros p Hp. by apply files_outside_kept.
    + intros d Hw Hin. apply elem_of_filter. split; [rewrite Hw; by intros []|done].
  - intros [= <- <-]. unfold rmtree in Hrm.
    destruct (is_dir f out); [done|]. by destruct (is_file f out); injection Hrm as _ <-.
Qed.

Lemma create_or_clear_dir_ok out w w' :
  _create_or_clear_dir out w = (Ok tt, w') →
  clear_fs out (fs w) = (Ok tt, fs w')
  ∧ environ w' = environ w
  ∧ stdout w' = stdout w
                ++ (if path_exists (fs w) out then ["Removed directory " +:+ out] else [])
                ++ ["Created directory " +:+ out].
Proof.
  unfold _create_or_clear_dir, clear_fs, bind, fs_query, on_fs, print, ret. simpl.
  destruct (path_exists (fs w) out).
  - destruct (rmtree out (fs w)) as [[[]|e] f0]; simpl; [|done].
    destruct (makedirs out f0) as [[[]|e] f1]; simpl; [|done].
    intros [= <-]. simpl. by rewrite <- app_assoc.
  - destruct (makedirs out (fs w)) as [[[]|e] f1]; simpl; [|done].
    by intros [= <-].
Qed.

(** X9.  When [_create_or_clear_dir] returns, the directory is there and
    nothing, file or directory, lies below it, whatever did before; every
    file elsewhere is as it was, the environment is untouched, and the
    messages say whether something was removed.  The path and the entries
    of the tree are spelled normally and anchored alike, so that the path
    names what the operating system finds under it. *)
Theorem create_or_clear_dir_leaves_empty_dir out w w' :
  clean_dir out = true →
  spelled_as out (fs w) = true →
  orphan_free out (fs w) = true →
  _create_or_clear_dir out w = (Ok tt, w') →
  is_dir (fs w') out = true
  ∧ is_file (fs w') out = false
  ∧ (∀ p, under out p = true → (p ∉ dirs (fs w')) ∧ files (fs w') !! p = None)
  ∧ (∀ p, under out p = false → files (fs w') !! p = files (fs w) !! p)
  ∧ environ w' = environ w
  ∧ stdout w' = stdout w
                ++ (if path_exists (fs w) out then ["Removed directory " +:+ out] else [])
                ++ ["Created directory " +:+ out].
Proof.
  intros Hclean _ Horphan (Hclear & Henv & Hout)%create_or_clear_dir_ok.
  pose proof (clear_fs_fresh _ _ _ Hclean Horphan Hclear) as Hfresh.
  pose proof (clear_fs_outside _ _ _ _ Hclear) as [Hfiles _].
  split; [by apply fresh_dir_is_dir|].
  destruct Hfresh as (_ & Hnofile & Hempty & _).
  split; [|done].
  unfold is_file. rewrite Hnofile. apply bool_decide_eq_false. by intros [? ?].
Qed.

Lemma create_or_clear_dir_leaves_empty_dir_witness :
  files (fs (_create_or_clear_dir "python_api" stale_world).2)
    !! "python_api/open3d.removed.rst" = None
  ∧ files (fs (_create_or_clear_dir "python_api" stale_world).2) !! "index.rst"
    = Some "python_api/open3d.camera"
  ∧ stdout (_create_or_clear_dir "python_api" stale_world).2
    = ["Removed directory python_api"; "Created directory python_api"].
Proof.
  destruct (create_or_clear_dir_leaves_empty_dir "python_api" stale_world
              (_create_or_clear_dir "python_api" stale_world).2)
    as (_ & _ & Hbelow & Hkept & _ & Hout); [vm_compute; reflexivity..|].
  split; [apply Hbelow; reflexivity|]. split; [rewrite Hkept; reflexivity|].
  rewrite Hout. reflexivity.
Defined.

(** X10.  Asked to clear a path that names a regular file,
    [_create_or_clear_dir] raises [NotADirectoryError] from the removal and
    leaves the world as it was: the file stays and nothing is printed. *)
Theorem create_or_clear_dir_on_file path w :
  is_file (fs w) path = true → is_dir (fs w) path = false →
  _create_or_clear_dir path w = (Raise NotADirectoryError, w).
Proof.
  intros Hfile Hdir.
  unfold _create_or_clear_dir, bind, fs_query, on_fs, rmtree, path_exists.
  rewrite Hfile, Hdir. simpl. rewrite Hdir, Hfile. by destruct w.
Qed.

Lemma create_or_clear_dir_on_file_witness :
  _create_or_clear_dir "index.rst" stale_world = (Raise NotADirectoryError, stale_world).
Proof. apply create_or_clear_dir_on_file; reflexivity. Defined.

End clearing.

(** ** The reference emitter: what it leaves alone *)

Section confinement.
Import PyAPIDocsBuilder.

Lemma write_file_any p s f r f' :
  write_file p s f = (r, f') →
  dirs f' = dirs f ∧ ∀ q, q ≠ p → files f' !! q = files f !! q.
Proof.
  unfold write_file. destruct (is_dir f p); [by intros [= <- <-]|].
  destruct (parent_check f p) as [[]|e]; intros [= <- <-]; [|done].
  simpl. split; [done|]. intros q Hq. by rewrite lookup_insert_ne.
Qed.

Lemma write_all_any kvs f r f' :
  write_all kvs f = (r, f') →
  dirs f' = dirs f ∧ ∀ q, q ∉ kvs.*1 → files f' !! q = files f !! q.
Proof.
  revert f. induction kvs as [|[p s] kvs IH]; intros f; simpl.
  - by intros [= <- <-].
  - destruct (write_file p s f) as [[[]|e] f1] eqn:Hw;
      apply write_file_any in Hw as [Hd Hf].
    + intros [Hd' Hf']%IH. split; [congruence|].
      intros q [Hq Hrest]%not_elem_of_cons. rewrite Hf' by done. by apply Hf.
    + intros [= <- <-]. split; [done|].
      intros q [Hq Hrest]%not_elem_of_cons. by apply Hf.
Qed.

Lemma module_writes_below out name module p :
  clean_dir out = true → plain_members name module = true →
  p ∈ (module_writes out name module).*1 → under out p = true.
Proof.
  intros (Hne & Hend & _)%clean_dir_inv Hplain
    ([p' s] & -> & Hin)%list_elem_of_fmap. simpl.
  unfold plain_members in Hplain.
  apply andb_true_iff in Hplain as [Hname%negb_true_iff Hmembers].
  rewrite forallb_forall in Hmembers.
  assert (Hmember : ∀ c, c ∈ documented_names module →
            under out (os_path_join out (name +:+ "." +:+ c +:+ ".rst")) = true).
  { intros c Hc%list_elem_of_In. apply Hmembers, negb_true_iff in Hc.
    rewrite os_path_join_plain; [apply under_app|done..|].
    by rewrite !contains_app, Hname, Hc. }
  apply elem_of_module_writes in Hin as [(c & Hc & -> & _)|[(c & Hc & -> & _)|[-> _]]].
  - apply Hmember, elem_of_app. by left.
  - apply Hmember, elem_of_app. by right.
  - unfold descriptor_path. simpl.
    rewrite os_path_join_plain; [apply under_app|done..|].
    by rewrite contains_app, Hname.
Qed.

Lemma frame_module_docs name module out :
  env_frame (_generate_sub_module_class_function_docs name module out).
Proof.
  unfold _generate_sub_module_class_function_docs, _generate_class_doc,
    _generate_function_doc, _generate_sub_module_doc.
  frame.
Qed.

(** X11.  The steps of a pass that touch the tree stay in the output
    directory, however they end.  Clearing it changes no file that is not
    below it and removes no directory that is neither it nor below it;
    writing the files of a module changes no file that is not below it and
    no directory at all; neither touches the environment.  The output path
    and the entries of the tree are spelled normally and anchored alike, and
    the names of the module and of its documented members are free of
    slashes. *)
Theorem emitter_steps_stay_in_output_dir name module out w r w' :
  clean_dir out = true →
  spelled_as out (fs w) = true →
  plain_members name module = true →
  (_create_or_clear_dir out w = (r, w') →
   (∀ p, under out p = false → files (fs w') !! p = files (fs w) !! p)
   ∧ (∀ d, within out d = false → d ∈ dirs (fs w) → d ∈ dirs (fs w'))
   ∧ environ w' = environ w)
  ∧ (_generate_sub_module_class_function_docs name module out w = (r, w') →
     (∀ p, under out p = false → files (fs w') !! p = files (fs w) !! p)
     ∧ dirs (fs w') = dirs (fs w)
     ∧ environ w' = environ w).
Proof.
  intros Hclean _ Hplain. split; intros Hrun.
  - pose proof (frame_create_or_clear_dir out w) as Henv. rewrite Hrun in Henv.
    pose proof (runs_as_create_or_clear_dir out w) as Hfs. rewrite Hrun in Hfs.
    symmetry in Hfs. apply clear_fs_outside in Hfs as [Hfiles Hdirs]. done.
  - pose proof (frame_module_docs name module out w) as Henv. rewrite Hrun in Henv.
    pose proof (runs_as_module_docs name module out w) as Hfs. rewrite Hrun in Hfs.
    symmetry in Hfs. apply write_all_any in Hfs as [Hdirs Hfiles].
    split; [|done]. intros p Hp. apply Hfiles. intros Hin.
    by rewrite (module_writes_below _ _ _ _ Hclean Hplain Hin) in Hp.
Qed.

Lemma emitter_steps_stay_in_output_dir_witness :
  files (fs (_create_or_clear_dir "python_api" stale_world).2) !! "index.rst"
  = Some "python_api/open3d.camera"
  ∧ files (fs (_generate_sub_module_class_function_docs "open3d.camera" camera_module
                 "python_api" stale_world).2) !! "index.rst"
    = Some "python_api/open3d.camera".
Proof.
  destruct (emitter_steps_stay_in_output_dir "open3d.camera" camera_module "python_api"
              stale_world (_create_or_clear_dir "python_api" stale_world).1
              (_create_or_clear_dir "python_api" stale_world).2)
    as [Hclear _]; [reflexivity..|].
  destruct (emitter_steps_stay_in_output_dir "open3d.camera" camera_module "python_api"
              stale_world
              (_generate_sub_module_class_function_docs "open3d.camera" camera_module
                 "python_api" stale_world).1
              (_generate_sub_module_class_function_docs "open3d.camera" camera_module
                 "python_api" stale_world).2)
    as [_ Hwrite]; [reflexivity..|].
  destruct Hclear as [Hkept _]; [by destruct (_create_or_clear_dir _ _)|].
  destruct Hwrite as [Hkept' _];
    [by destruct (_generate_sub_module_class_function_docs _ _ _ _)|].
  split; [rewrite Hkept | rewrite Hkept']; reflexivity.
Defined.

End confinement.

(** ** The C++ reference builder *)

Section doxygen.
Import DoxygenDocsBuilder.


Lemma ends_with_slash_app_cons a c b :
  ends_with_slash (a +:+ String c b) = ends_with_slash (String c b).
Proof.
  induction a as [|x a IH]; [done|]. rewrite str_app_cons.
  destruct a as [|y a]; [done|]. exact IH.
Qed.

(** The destination of the C++ reference for a clean output directory. *)
Lemma cpp_api_path out :
  out ≠ "" → ends_with_slash out = false →
  os_path_join (os_path_join out "html") "cpp_api" = out +:+ "/html/cpp_api"
  ∧ os_path_split (out +:+ "/html/cpp_api") = (out +:+ "/html", "cpp_api")
  ∧ clean_dir (out +:+ "/html/cpp_api") = true.
Proof.
  intros Hne Hend.
  assert (Hhtml : out +:+ "/html" ≠ "" ∧ ends_with_slash (out +:+ "/html") = false).
  { split; [by destruct out|]. by rewrite ends_with_slash_app_cons. }
  destruct Hhtml as [Hne' Hend'].
  assert (Hsplit : os_path_split (out +:+ "/html/cpp_api") = (out +:+ "/html", "cpp_api")).
  { change (out +:+ "/html/cpp_api") with (out +:+ "/html" +:+ "/" +:+ "cpp_api").
    rewrite <- string_app_assoc. by apply os_path_split_app. }
  split; [|split; [done|]].
  - rewrite (os_path_join_plain out "html") by done.
    change (out +:+ "/" +:+ "html") with (out +:+ "/html").
    rewrite (os_path_join_plain (out +:+ "/html") "cpp_api") by done.
    by rewrite string_app_assoc.
  - unfold clean_dir, basename. rewrite Hsplit. simpl.
    change (out +:+ "/html/cpp_api") with (out +:+ String "/" "html/cpp_api").
    rewrite ends_with_slash_app_cons. simpl.
    rewrite bool_decide_eq_false_2; [done|]. by destruct out.
Qed.

(** The run, from the world the cleared temporary directory leaves and the
    outcome of the generator. *)
Lemma doxygen_run_steps rt self w w1 r2 f2 :
  _create_or_clear_dir "doxygen" w = (Ok tt, w1) →
  check_call rt ["doxygen"; "Doxyfile"] (environ w1) (fs w1) = (r2, f2) →
  let W f := World (environ w1) f (stdout w1 ++ ["Calling: " +:+ dq +:+ "doxygen Doxyfile" +:+ dq]) in
  run rt self w
  = match r2 with
    | Raise e => (Raise e, W f2)
    | Ok _ =>
        match copytree "doxygen/html"
                (os_path_join (os_path_join (html_output_dir self) "html") "cpp_api") f2 with
        | (Raise e, f3) => (Raise e, W f3)
        | (Ok _, f3) =>
            if path_exists f3 "doxygen"
            then ((rmtree "doxygen" f3).1, W (rmtree "doxygen" f3).2)
            else (Ok tt, W f3)
        end
    end.
Proof.
  intros Hclear Hcall W. unfold run. rewrite (bind_ok _ _ _ _ _ Hclear).
  unfold bind at 1. unfold print at 1. unfold bind at 1.
  unfold SphinxDocsBuilder.subprocess_check_call at 1. simpl. rewrite Hcall.
  destruct r2 as [[]|e]; [|done].
  unfold bind at 1. unfold on_fs at 1. simpl.
  change (os_path_join "doxygen" "html") with "doxygen/html".
  destruct (copytree _ _ f2) as [[[]|e] f3]; [|done].
  unfold bind, fs_query, on_fs, ret. simpl.
  destruct (path_exists f3 "doxygen"); [|done].
  cbn [fs environ stdout]. by destruct (rmtree "doxygen" f3).
Qed.

(** X12.  When the generator fails, its error ends the run there: nothing
    is copied and the temporary directory is not removed; the tree is as
    the generator left it. *)
Theorem doxygen_failure_leaves_temp_dir rt self w w1 e f2 :
  _create_or_clear_dir "doxygen" w = (Ok tt, w1) →
  check_call rt ["doxygen"; "Doxyfile"] (environ w1) (fs w1) = (Raise e, f2) →
  (run rt self w).1 = Raise e
  ∧ fs (run rt self w).2 = f2
  ∧ is_dir (fs (run rt self w).2) "doxygen" = is_dir f2 "doxygen".
Proof.
  intros Hclear Hcall. by rewrite (doxygen_run_steps rt self w w1 _ f2 Hclear Hcall).
Qed.

Lemma doxygen_failure_leaves_temp_dir_witness :
  (run doxygen_failing_rt doxygen_builder site_built_world).1 = Raise CalledProcessError
  ∧ is_dir (fs (run doxygen_failing_rt doxygen_builder site_built_world).2) "doxygen" = true
  ∧ files (fs (run doxygen_failing_rt doxygen_builder site_built_world).2)
      !! "/repo/docs/_out/html/cpp_api/index.html" = None.
Proof.
  destruct (doxygen_failure_leaves_temp_dir doxygen_failing_rt doxygen_builder
              site_built_world (_create_or_clear_dir "doxygen" site_built_world).2
              CalledProcessError
              (doxygen_writes (fs (_create_or_clear_dir "doxygen" site_built_world).2)))
    as (Hr & Hfs & Hdir); [vm_compute; reflexivity..|].
  split; [exact Hr|]. split; [rewrite Hdir | rewrite Hfs]; vm_compute; reflexivity.
Defined.

(** X13.  The copy needs a destination that does not exist yet.  Where the
    html directory of the output already holds an entry cpp_api, the run
    raises [FileExistsError] after the generator has run, copies nothing and
    leaves the temporary directory behind. *)
Theorem doxygen_destination_exists rt self w w1 f2 :
  html_output_dir self ≠ "" → ends_with_slash (html_output_dir self) = false →
  _create_or_clear_dir "doxygen" w = (Ok tt, w1) →
  check_call rt ["doxygen"; "Doxyfile"] (environ w1) (fs w1) = (Ok tt, f2) →
  is_dir f2 "doxygen/html" = true →
  path_exists f2 (html_output_dir self +:+ "/html") = true →
  path_exists f2 (html_output_dir self +:+ "/html/cpp_api") = true →
  (run rt self w).1 = Raise FileExistsError ∧ fs (run rt self w).2 = f2.
Proof.
  intros Hne Hend Hclear Hcall Hsrc Hparent Hdst.
  rewrite (doxygen_run_steps rt self w w1 _ f2 Hclear Hcall).
  destruct (cpp_api_path _ Hne Hend) as (-> & Hsplit & Hclean).
  unfold copytree. rewrite Hsrc. simpl.
  rewrite makedirs_parent_exists; [|done|].
  - unfold mkdir. by rewrite Hdst.
  - right. unfold dirname. by rewrite Hsplit.
Qed.

Lemma doxygen_destination_exists_witness :
  (run doxygen_rt doxygen_builder cpp_api_present_world).1 = Raise FileExistsError
  ∧ is_dir (fs (run doxygen_rt doxygen_builder cpp_api_present_world).2) "doxygen" = true.
Proof.
  destruct (doxygen_destination_exists doxygen_rt doxygen_builder cpp_api_present_world
              (_create_or_clear_dir "doxygen" cpp_api_present_world).2
              (doxygen_writes (fs (_create_or_clear_dir "doxygen" cpp_api_present_world).2)))
    as (Hr & Hfs); [done | vm_compute; reflexivity..|].
  split; [exact Hr|]. rewrite Hfs. vm_compute. reflexivity.
Defined.

(** X14.  A run that returns leaves no directory named doxygen: the
    temporary directory is removed once its html pages are copied. *)
Theorem doxygen_temp_dir_removed rt self w w' :
  run rt self w = (Ok tt, w') → is_dir (fs w') "doxygen" = false.
Proof.
  destruct (_create_or_clear_dir "doxygen" w) as [[[]|e] w1] eqn:Hclear.
  2:{ unfold run. by rewrite (bind_raise _ _ _ _ _ Hclear). }
  destruct (check_call rt ["doxygen"; "Doxyfile"] (environ w1) (fs w1)) as [r2 f2] eqn:Hcall.
  rewrite (doxygen_run_steps rt self w w1 _ f2 Hclear Hcall).
  destruct r2 as [[]|e]; [|done].
  destruct (copytree _ _ f2) as [[[]|e] f3]; [|done].
  destruct (path_exists f3 "doxygen") eqn:Hex.
  - destruct (rmtree "doxygen" f3) as [r4 f4] eqn:Hrm. simpl. intros [= -> <-].
    apply rmtree_inv in Hrm as (_ & Hdirs & _). simpl.
    apply bool_decide_eq_false. intros [?|Hin]; [done|].
    rewrite Hdirs in Hin. apply elem_of_filter in Hin as [Hw _]. apply Hw.
    unfold within. by rewrite bool_decide_eq_true_2.
  - intros [= <-]. simpl. by apply orb_false_iff in Hex as [? _].
Qed.

Lemma doxygen_temp_dir_removed_witness :
  is_dir (fs (run doxygen_rt doxygen_builder site_built_world).2) "doxygen" = false.
Proof.
  apply (doxygen_temp_dir_removed doxygen_rt doxygen_builder site_built_world).
  vm_compute. reflexivity.
Defined.






End doxygen.

(** ** The notebook stager: staging *)

Section staging.
Import JupyterDocsBuilder.

(** The loop of [stage_example_dir] runs [stage_notebook]. *)
Lemma stage_example_dir_loop self example_dir nb_paths :
  let in_dir :=
    Path_div (Path_div (Path_div (Path_parent (current_file_dir self)) "examples")
                       "Python") example_dir in
  let out_dir := Path_div (Path_div (current_file_dir self) "tutorial") example_dir in
  stage_example_dir self example_dir nb_paths
  = (on_fs (copy (Path_div (Path_parent in_dir) "open3d_tutorial.py")
                 (Path_div (Path_parent out_dir) "open3d_tutorial.py")) ;;
     (if clean_notebooks self then
        stale <- fs_query (glob_ipynb out_dir) ;;
        for_each stale (λ nb_out_path,
          print ("Delete: " +:+ nb_out_path) ;;
          on_fs (unlink nb_out_path))
      else ret tt) ;;
     found <- fs_query (glob_ipynb in_dir) ;;
     for_collect found nb_paths (stage_notebook out_dir)).
Proof. reflexivity. Qed.

(** Copying to a place that holds nothing yet adds a file at most. *)
Lemma copy_to_free_place src dst f r f' :
  is_dir f dst = false → is_file f dst = false →
  copy src dst f = (r, f') →
  dirs f' = dirs f
  ∧ (∀ p s, files f !! p = Some s → files f' !! p = Some s)
  ∧ (r = Ok tt → is_file f' dst = true).
Proof.
  intros Hdir Hfile. unfold copy. rewrite Hdir.
  destruct (files f !! src) as [s|]; [|by intros [= <- <-]].
  destruct (decide (src = dst)); [by intros [= <- <-]|].
  unfold write_file. rewrite Hdir.
  destruct (parent_check f dst) as [[]|e]; intros [= <- <-]; [|done].
  simpl. split; [done|]. split.
  - intros p s' Hp. rewrite lookup_insert_ne; [done|]. intros <-.
    apply bool_decide_eq_false in Hfile. apply Hfile. by eexists.
  - intros _. unfold is_file. simpl. apply bool_decide_eq_true.
    rewrite lookup_insert_eq. by eexists.
Qed.

Lemma stage_notebook_keeps out_dir x acc w r w' :
  is_dir (fs w) (Path_div out_dir (Path_name x)) = false →
  stage_notebook out_dir x acc w = (r, w') →
  dirs (fs w') = dirs (fs w)
  ∧ (∀ p s, files (fs w) !! p = Some s → files (fs w') !! p = Some s)
  ∧ (∀ l, r = Ok l → l = acc ++ [Path_div out_dir (Path_name x)]
                     ∧ is_file (fs w') (Path_div out_dir (Path_name x)) = true).
Proof.
  intros Hdir. unfold stage_notebook, bind, fs_query, print, on_fs, ret. simpl.
  destruct (is_file (fs w) (Path_div out_dir (Path_name x))) eqn:Hfile; simpl.
  - intros [= <- <-]. simpl. split; [done|]. split; [done|]. by intros l [= <-].
  - destruct (copy x (Path_div out_dir (Path_name x)) (fs w)) as [r1 f1] eqn:Hcopy.
    apply (copy_to_free_place _ _ _ _ _ Hdir Hfile) in Hcopy as (Hd & Hf & Hnew).
    destruct r1 as [[]|e]; intros [= <- <-]; simpl; [|done].
    split; [done|]. split; [done|]. intros l [= <-]. split; [done|]. by apply Hnew.
Qed.

(** X16.  The staging loop never changes or removes a file that is there,
    and adds no directory: a notebook is copied only where no staged copy
    exists, so a copy staged earlier stays even when the notebook in the
    examples has changed.  Copied or skipped, every notebook found is
    queued, in the order found, and when the loop returns each queued path
    is a regular file.  (No staged path names a directory.) *)
Theorem staging_keeps_existing_files out_dir found acc w r w' :
  (∀ x, x ∈ found → is_dir (fs w) (Path_div out_dir (Path_name x)) = false) →
  for_collect found acc (stage_notebook out_dir) w = (r, w') →
  dirs (fs w') = dirs (fs w)
  ∧ (∀ p s, files (fs w) !! p = Some s → files (fs w') !! p = Some s)
  ∧ (∀ l, r = Ok l →
          l = acc ++ ((λ x, Path_div out_dir (Path_name x)) <$> found)
          ∧ ∀ x, x ∈ found → is_file (fs w') (Path_div out_dir (Path_name x)) = true).
Proof.
  revert acc w. induction found as [|x found IH]; intros acc w Hdirs; simpl.
  - intros [= <- <-]. split; [done|]. split; [done|]. intros l [= <-].
    split; [by rewrite app_nil_r|]. by intros x ?%elem_of_nil.
  - unfold bind at 1.
    destruct (stage_notebook out_dir x acc w) as [r1 w1] eqn:Hstage.
    apply stage_notebook_keeps in Hstage as (Hd1 & Hf1 & Hl1); [|apply Hdirs; by left].
    destruct r1 as [l1|e]; [|by intros [= <- <-]].
    destruct (Hl1 l1 eq_refl) as [-> Hstaged].
    intros (Hd & Hf & Hl)%IH.
    2:{ intros y Hy. rewrite (is_dir_dirs _ (fs w)) by done. apply Hdirs. by right. }
    split; [congruence|]. split; [by eauto|].
    intros l Hr. destruct (Hl l Hr) as [-> Hfiles]. split; [by rewrite <- app_assoc|].
    intros y [->|Hy]%elem_of_cons; [|by apply Hfiles].
    apply bool_decide_eq_true in Hstaged as [s Hs].
    apply bool_decide_eq_true. exists s. by apply Hf.
Qed.

Lemma staging_keeps_existing_files_witness :
  files (fs (for_collect ["/repo/examples/Python/Basic/new.ipynb";
                          "/repo/examples/Python/Basic/pointcloud.ipynb"] []
               (stage_notebook "/repo/docs/tutorial/Basic") restaged_world).2)
    !! staged_path = Some (render_nb run_nb)
  ∧ files (fs restaged_world) !! "/repo/examples/Python/Basic/pointcloud.ipynb"
    = Some (render_nb fresh_nb)
  ∧ (for_collect ["/repo/examples/Python/Basic/new.ipynb";
                  "/repo/examples/Python/Basic/pointcloud.ipynb"] []
       (stage_notebook "/repo/docs/tutorial/Basic") restaged_world).1
    = Ok ["/repo/docs/tutorial/Basic/new.ipynb"; staged_path].
Proof.
  destruct (staging_keeps_existing_files "/repo/docs/tutorial/Basic"
              ["/repo/examples/Python/Basic/new.ipynb";
               "/repo/examples/Python/Basic/pointcloud.ipynb"] [] restaged_world
              (for_collect ["/repo/examples/Python/Basic/new.ipynb";
                            "/repo/examples/Python/Basic/pointcloud.ipynb"] []
                 (stage_notebook "/repo/docs/tutorial/Basic") restaged_world).1
              (for_collect ["/repo/examples/Python/Basic/new.ipynb";
                            "/repo/examples/Python/Basic/pointcloud.ipynb"] []
                 (stage_notebook "/repo/docs/tutorial/Basic") restaged_world).2)
    as (_ & Hkept & _).
  - intros x Hx. repeat (apply elem_of_cons in Hx as [->|Hx]; [vm_compute; reflexivity|]).
    by apply elem_of_nil in Hx.
  - by destruct (for_collect _ _ _ _).
  - split; [apply Hkept; reflexivity|]. split; [reflexivity|]. vm_compute. reflexivity.
Defined.



End staging.

(** ** The notebook stager: running a notebook *)

Section running.
Import JupyterDocsBuilder.

Lemma try_preprocess_other_error rt nb nb_path w e nb' f' :
  ep_preprocess rt (environ w) nb (Path_parent nb_path) (fs w) = (Raise e, nb', f') →
  e ≠ CellExecutionError →
  try_preprocess rt nb nb_path w = (Raise e, World (environ w) f' (stdout w)).
Proof.
  intros Hep He. unfold try_preprocess. unfold bind at 1. unfold preprocess.
  rewrite Hep. by destruct e.
Qed.

Lemma try_preprocess_ok rt nb nb_path w nb' f' :
  ep_preprocess rt (environ w) nb (Path_parent nb_path) (fs w) = (Ok tt, nb', f') →
  try_preprocess rt nb nb_path w = (Ok nb', World (environ w) f' (stdout w)).
Proof.
  intros Hep. unfold try_preprocess. unfold bind at 1. unfold preprocess.
  by rewrite Hep.
Qed.

(** X18.  Only a cell-execution error is ever swallowed.  Any other error
    of the kernel ends the run with that error, with or without TRAVIS in
    the environment, and the notebook file is not rewritten: the tree is as
    the kernel left it. *)
Theorem other_kernel_errors_propagate rt self nb_path w text nb e nb' f' :
  files (fs w) !! nb_path = Some text →
  nbformat_read rt text = Ok nb →
  execute self nb = true →
  ep_preprocess rt (environ w) nb (Path_parent nb_path) (fs w) = (Raise e, nb', f') →
  e ≠ CellExecutionError →
  (process_notebook rt self nb_path w).1 = Raise e
  ∧ fs (process_notebook rt self nb_path w).2 = f'
  ∧ environ (process_notebook rt self nb_path w).2 = environ w.
Proof.
  intros Hfile Hread Hexec Hep He.
  rewrite (process_notebook_executes rt self nb_path w text nb) by done.
  erewrite bind_raise;
    [|eapply try_preprocess_other_error; [exact Hep|exact He]].
  done.
Qed.

Lemma other_kernel_errors_propagate_witness :
  (process_notebook timeout_rt auto_builder staged_path staged_world).1
  = Raise (OtherError "TimeoutError")
  ∧ fs (process_notebook timeout_rt auto_builder staged_path staged_world).2 = staged_fs.
Proof.
  destruct (other_kernel_errors_propagate timeout_rt auto_builder staged_path staged_world
              (render_nb fresh_nb) fresh_nb (OtherError "TimeoutError") fresh_nb staged_fs)
    as (Hr & Hfs & _); [reflexivity..|discriminate|].
  split; [exact Hr | exact Hfs].
Defined.

(** X19.  A notebook that is executed without error is written back over
    the staged file, as the kernel left it: the outcome of the loop body is
    the outcome of that write, on the tree the kernel left. *)
Theorem executed_notebook_written_back rt self nb_path w text nb nb' f' :
  files (fs w) !! nb_path = Some text →
  nbformat_read rt text = Ok nb →
  execute self nb = true →
  ep_preprocess rt (environ w) nb (Path_parent nb_path) (fs w) = (Ok tt, nb', f') →
  let r := process_notebook rt self nb_path w in
  (r.1, fs r.2) = write_file nb_path (nbformat_write rt nb') f'
  ∧ (is_dir f' nb_path = false → parent_check f' nb_path = Ok tt →
     r.1 = Ok tt
     ∧ files (fs r.2) !! nb_path = Some (nbformat_write rt nb')
     ∧ ∀ p, p ≠ nb_path → files (fs r.2) !! p = files f' !! p).
Proof.
  intros Hfile Hread Hexec Hep r. subst r.
  rewrite (process_notebook_executes rt self nb_path w text nb) by done.
  erewrite bind_ok; [|eapply try_preprocess_ok; exact Hep].
  unfold on_fs. cbn [fs environ stdout].
  destruct (write_file nb_path (nbformat_write rt nb') f') as [r1 f1] eqn:Hw.
  split; [done|]. intros Hd Hp. rewrite (write_file_ok _ _ _ Hd Hp) in Hw.
  injection Hw as <- <-. simpl. split; [done|]. split; [apply lookup_insert_eq|].
  intros p Hne. by rewrite lookup_insert_ne.
Qed.

Lemma executed_notebook_written_back_witness :
  (process_notebook running_rt auto_builder staged_path staged_world).1 = Ok tt
  ∧ files (fs (process_notebook running_rt auto_builder staged_path staged_world).2)
      !! staged_path = Some (render_nb run_nb).
Proof.
  destruct (executed_notebook_written_back running_rt auto_builder staged_path staged_world
              (render_nb fresh_nb) fresh_nb run_nb staged_fs)
    as [_ Hwritten]; [reflexivity..|].
  destruct Hwritten as (Hr & Hfile & _); [reflexivity..|].
  split; [exact Hr | exact Hfile].
Defined.

(** X20.  A notebook the decision passes over never reaches the kernel and
    is never written: the loop body only reads it and prints, so its
    outcome is the same for every kernel and every notebook writer, and the
    tree is as it was. *)
Theorem skipped_notebook_untouched rt rt' self nb_path w text nb :
  files (fs w) !! nb_path = Some text →
  nbformat_read rt text = Ok nb →
  nbformat_read rt' = nbformat_read rt →
  execute self nb = false →
  process_notebook rt' self nb_path w = process_notebook rt self nb_path w
  ∧ (process_notebook rt self nb_path w).1 = Ok tt
  ∧ fs (process_notebook rt self nb_path w).2 = fs w.
Proof.
  intros Hfile Hread Hsame Hexec.
  rewrite (process_notebook_skips rt' self nb_path w text nb) by (by rewrite ?Hsame).
  by rewrite (process_notebook_skips rt self nb_path w text nb).
Qed.

Lemma skipped_notebook_untouched_witness :
  process_notebook failing_rt auto_builder staged_path
    (World ∅ (FSys (dirs repo_fs) (<[staged_path := render_nb run_nb]> (files repo_fs))) [])
  = process_notebook running_rt auto_builder staged_path
      (World ∅ (FSys (dirs repo_fs) (<[staged_path := render_nb run_nb]> (files repo_fs))) [])
  ∧ (process_notebook running_rt auto_builder staged_path
       (World ∅ (FSys (dirs repo_fs) (<[staged_path := render_nb run_nb]> (files repo_fs)))
          [])).1 = Ok tt.
Proof.
  destruct (skipped_notebook_untouched running_rt failing_rt auto_builder staged_path
              (World ∅ (FSys (dirs repo_fs)
                          (<[staged_path := render_nb run_nb]> (files repo_fs))) [])
              (render_nb run_nb) run_nb)
    as (Hsame & Hr & _); [reflexivity..|].
  split; [exact Hsame | exact Hr].
Defined.

End running.

(** ** The script body *)

Section script.

(** X21.  Without --sphinx the notebook and release options are never
    looked at: the script does the same whatever they are, and an execution
    mode the stager would reject goes unnoticed.  With --doxygen off as
    well, nothing outside the script is consulted at all. *)
Theorem options_unused_without_sphinx rt pwd a a' :
  build_sphinx a = false → build_sphinx a' = false →
  build_doxygen a' = build_doxygen a →
  main rt pwd a = main rt pwd a'
  ∧ (build_doxygen a = false → ∀ rt', main rt pwd a = main rt' pwd a').
Proof.
  intros Ha Ha' Hd. unfold main. rewrite Ha, Ha', Hd. split; [done|].
  by intros ->.
Qed.

Lemma options_unused_without_sphinx_witness :
  main sample_rt "/repo/docs" bogus_mode_args = main failing_rt "/repo/docs" no_args
  ∧ (main sample_rt "/repo/docs" bogus_mode_args built_world).1 = Ok tt.
Proof.
  destruct (options_unused_without_sphinx sample_rt "/repo/docs" bogus_mode_args no_args)
    as [_ Hrt]; [reflexivity..|].
  split; [apply Hrt; reflexivity|]. vm_compute. reflexivity.
Defined.

(** The script up to the builders: what a call without --sphinx and
    --doxygen does, less its two messages. *)
Lemma main_idle rt pwd a w :
  build_sphinx a = false → build_doxygen a = false →
  main rt pwd a w
  = (_create_or_clear_dir (os_path_join pwd "_out") ;;
     ex <- fs_query (λ f, path_exists f
             (os_path_join (os_path_join (os_path_join pwd "_static") "C++") "build")) ;;
     (if ex : bool then
        on_fs (rmtree (os_path_join (os_path_join (os_path_join pwd "_static") "C++")
                         "build")) ;;
        print ("Removed directory "
               +:+ os_path_join (os_path_join (os_path_join pwd "_static") "C++") "build")
      else ret tt) ;;
     print "Sphinx build disabled, use --sphinx to enable" ;;
     print "Doxygen build disabled, use --doxygen to enable") w.
Proof. intros Hs Hd. unfold main. by rewrite Hs, Hd. Qed.

(** What holds of a run after a step that a second run, known to return,
    shares with it. *)
Lemma bind_shared_step {A B C} (m : M A) (k : A → M B) (k' : A → M C) w c w0
    (Φ : result B * world → Prop) :
  bind m k' w = (Ok c, w0) →
  (∀ a w1, k' a w1 = (Ok c, w0) → Φ (k a w1)) →
  Φ (bind m k w).
Proof.
  unfold bind. destruct (m w) as [[a|e] w1]; [|done]. intros Hk' HΦ. by apply HΦ.
Qed.

Lemma stager_init_invalid current_file_dir clean_notebooks mode w :
  mode ≠ "auto" → mode ≠ "always" →
  JupyterDocsBuilder.__init__ current_file_dir clean_notebooks mode w
  = (Raise (ValueError ("Invalid execute option: " +:+ mode +:+ ".")), w).
Proof.
  intros Hauto Halways. unfold JupyterDocsBuilder.__init__.
  rewrite bool_decide_eq_true_2; [done|].
  rewrite elem_of_union, !elem_of_singleton. tauto.
Qed.

(** The branch of --sphinx ends at the construction of the stager when the
    mode is invalid. *)
Lemma sphinx_branch_invalid_mode {B} pwd clean mode (rest : JupyterDocsBuilder.t → M unit)
    (k : unit → M B) w :
  mode ≠ "auto" → mode ≠ "always" →
  bind (print "Sphinx build enabled" ;;
        print "Building Jupyter docs" ;;
        jdb <- JupyterDocsBuilder.__init__ pwd clean mode ;;
        rest jdb) k w
  = (Raise (ValueError ("Invalid execute option: " +:+ mode +:+ ".")),
     World (environ w) (fs w)
       (stdout w ++ ["Sphinx build enabled"; "Building Jupyter docs"])).
Proof.
  intros Hauto Halways. unfold bind, print. cbn [fs environ stdout].
  rewrite stager_init_invalid by done. by rewrite <- app_assoc.
Qed.

(** X22.  The execution mode is checked only after the output of earlier
    builds is gone.  With --sphinx and a mode other than auto and always the
    script raises [ValueError], and the tree is then the one a call without
    --sphinx and --doxygen leaves: the output directory cleared and the C++
    build directory removed. *)
Theorem invalid_mode_fails_after_clearing rt pwd a w w0 :
  build_sphinx a = true →
  arg_execute_notebooks a ≠ "auto" → arg_execute_notebooks a ≠ "always" →
  main rt pwd (Args (arg_clean_notebooks a) (arg_execute_notebooks a) false false
                 (arg_is_release a)) w = (Ok tt, w0) →
  (main rt pwd a w).1
  = Raise (ValueError ("Invalid execute option: " +:+ arg_execute_notebooks a +:+ "."))
  ∧ fs (main rt pwd a w).2 = fs w0
  ∧ environ (main rt pwd a w).2 = environ w0.
Proof.
  intros Hsphinx Hauto Halways. rewrite main_idle by done. intros Hidle.
  unfold main. rewrite Hsphinx.
  eapply (bind_shared_step _ _ _ _ _ _
            (λ rw, rw.1 = _ ∧ fs rw.2 = fs w0 ∧ environ rw.2 = environ w0));
    [exact Hidle|]. clear Hidle. intros [] w1 Hidle. cbv beta.
  eapply (bind_shared_step _ _ _ _ _ _
            (λ rw, rw.1 = _ ∧ fs rw.2 = fs w0 ∧ environ rw.2 = environ w0));
    [exact Hidle|]. clear Hidle. intros ex w2 Hidle. cbv beta.
  eapply (bind_shared_step _ _ _ _ _ _
            (λ rw, rw.1 = _ ∧ fs rw.2 = fs w0 ∧ environ rw.2 = environ w0));
    [exact Hidle|]. clear Hidle. intros [] w3 Hidle. cbv beta.
  unfold bind, print in Hidle. injection Hidle as <-.
  by rewrite sphinx_branch_invalid_mode.
Qed.

Lemma invalid_mode_fails_after_clearing_witness :
  (main sample_rt "/repo/docs" bogus_sphinx_args built_world).1
  = Raise (ValueError "Invalid execute option: bogus.")
  ∧ files (fs (main sample_rt "/repo/docs" bogus_sphinx_args built_world).2)
      !! "/repo/docs/_out/html/index.html" = None.
Proof.
  destruct (invalid_mode_fails_after_clearing sample_rt "/repo/docs" bogus_sphinx_args
              built_world
              (main sample_rt "/repo/docs" (Args false "bogus" false false false)
                 built_world).2)
    as (Hr & Hfs & _); [reflexivity | discriminate | discriminate | vm_compute; reflexivity |].
  split; [exact Hr|]. rewrite Hfs. vm_compute. reflexivity.
Defined.

(** The two directories of the script, for a clean script directory. *)
Lemma script_dirs pwd :
  pwd ≠ "" → ends_with_slash pwd = false →
  os_path_join pwd "_out" = pwd +:+ "/_out"
  ∧ clean_dir (pwd +:+ "/_out") = true
  ∧ os_path_join (os_path_join (os_path_join pwd "_static") "C++") "build"
    = pwd +:+ "/_static/C++/build".
Proof.
  intros Hne Hend. split; [by apply os_path_join_plain|]. split.
  - unfold clean_dir, basename.
    change (pwd +:+ "/_out") with (pwd +:+ "/" +:+ "_out").
    rewrite os_path_split_app by done. simpl.
    change (pwd +:+ "/" +:+ "_out") with (pwd +:+ String "/" "_out").
    rewrite ends_with_slash_app_cons. simpl.
    rewrite bool_decide_eq_false_2; [done|]. by destruct pwd.
  - rewrite (os_path_join_plain pwd "_static") by done.
    change (pwd +:+ "/" +:+ "_static") with (pwd +:+ String "/" "_static").
    rewrite (os_path_join_plain _ "C++");
      [|by destruct pwd|by rewrite ends_with_slash_app_cons|done].
    rewrite string_app_assoc.
    change (String "/" "_static" +:+ "/" +:+ "C++") with (String "/" "_static/C++").
    rewrite (os_path_join_plain _ "build");
      [|by destruct pwd|by rewrite ends_with_slash_app_cons|done].
    by rewrite string_app_assoc.
Qed.

(** X23.  The output of earlier builds is cleared whether or not anything
    is to be built.  A call without --sphinx and --doxygen that returns
    leaves the output directory empty, and no C++ build directory. *)
Theorem idle_call_clears_output rt pwd a w w' :
  pwd ≠ "" → ends_with_slash pwd = false →
  orphan_free (pwd +:+ "/_out") (fs w) = true →
  build_sphinx a = false → build_doxygen a = false →
  main rt pwd a w = (Ok tt, w') →
  is_dir (fs w') (pwd +:+ "/_out") = true
  ∧ (∀ p, under (pwd +:+ "/_out") p = true →
          (p ∉ dirs (fs w')) ∧ files (fs w') !! p = None)
  ∧ (pwd +:+ "/_static/C++/build") ∉ dirs (fs w').
Proof.
  intros Hne Hend Horphan Hs Hd. rewrite main_idle by done.
  destruct (script_dirs pwd Hne Hend) as (-> & Hclean & ->).
  unfold bind at 1.
  destruct (_create_or_clear_dir (pwd +:+ "/_out") w) as [[[]|e] w1] eqn:Hclear; [|done].
  apply create_or_clear_dir_ok in Hclear as (Hclear & _).
  pose proof (clear_fs_fresh _ _ _ Hclean Horphan Hclear) as (Hout & _ & Hempty & _).
  unfold bind, fs_query, on_fs, print, ret. cbn [fs environ stdout].
  destruct (path_exists (fs w1) (pwd +:+ "/_static/C++/build")) eqn:Hex.
  - destruct (rmtree (pwd +:+ "/_static/C++/build") (fs w1)) as [[[]|e] f2] eqn:Hrm; [|done].
    cbn [fs environ stdout]. intros [= <-]. cbn [fs].
    apply rmtree_inv in Hrm as (_ & Hdirs & Hfiles). split; [|split].
    + apply bool_decide_eq_true. right. rewrite Hdirs. apply elem_of_filter.
      split; [|done]. intros Hw%Is_true_true. unfold within in Hw.
      apply orb_true_iff in Hw as [Heq%bool_decide_eq_true|Hu].
      * by apply (inj (String.app pwd)) in Heq.
      * apply under_length in Hu. rewrite !str_length_app in Hu. simpl in Hu. lia.
    + intros p Hp. destruct (Hempty p Hp) as [Hnd Hnf]. split.
      * rewrite Hdirs. by intros [_ ?]%elem_of_filter.
      * rewrite Hfiles. apply map_lookup_filter_None. by left.
    + rewrite Hdirs. intros [Hw _]%elem_of_filter. apply Hw.
      unfold within. by rewrite bool_decide_eq_true_2.
  - intros [= <-]. cbn [fs]. split; [|split; [done|]].
    + apply bool_decide_eq_true. by right.
    + apply orb_false_iff in Hex as [Hdir%bool_decide_eq_false _].
      intros Hin. apply Hdir. by right.
Qed.

Lemma idle_call_clears_output_witness :
  is_dir (fs (main sample_rt "/repo/docs" no_args built_world).2) "/repo/docs/_out" = true
  ∧ files (fs (main sample_rt "/repo/docs" no_args built_world).2)
      !! "/repo/docs/_out/html/index.html" = None.
Proof.
  destruct (idle_call_clears_output sample_rt "/repo/docs" no_args built_world
              (main sample_rt "/repo/docs" no_args built_world).2)
    as (Hdir & Hempty & _);
    [discriminate | reflexivity | vm_compute; reflexivity | reflexivity | reflexivity
    | vm_compute; reflexivity |].
  split; [exact Hdir|]. apply Hempty. vm_compute. reflexivity.
Defined.

End script.

(** ** The notebook stager: what staging touches *)

Section relation_on_trees.

Variable R : fsys → fsys → Prop.
Hypothesis R_refl : ∀ f, R f f.
Hypothesis R_trans : ∀ f1 f2 f3, R f1 f2 → R f2 f3 → R f1 f3.

Lemma rel_bind {A B} (m : M A) (k : A → M B) w r w' :
  (∀ r1 w1, m w = (r1, w1) → R (fs w) (fs w1)) →
  (∀ a w1 r2 w2, m w = (Ok a, w1) → k a w1 = (r2, w2) → R (fs w1) (fs w2)) →
  bind m k w = (r, w') → R (fs w) (fs w').
Proof.
  intros Hm Hk. unfold bind. destruct (m w) as [[a|e] w1] eqn:Hmw.
  - intros Hkw. eapply R_trans; [by eapply Hm|by eapply Hk].
  - intros [= <- <-]. by eapply Hm.
Qed.

Lemma rel_for_each {A} (l : list A) (body : A → M unit) :
  (∀ x w r w', x ∈ l → body x w = (r, w') → R (fs w) (fs w')) →
  ∀ w r w', for_each l body w = (r, w') → R (fs w) (fs w').
Proof.
  induction l as [|x l IH]; intros Hbody w r w'; simpl.
  - intros [= <- <-]. apply R_refl.
  - apply rel_bind.
    + intros r1 w1. apply Hbody. by left.
    + intros _ w1 r2 w2 _. apply IH. intros y w0 r0 w0' Hy. apply Hbody. by right.
Qed.

Lemma rel_for_collect {A B} (l : list A) (body : A → list B → M (list B)) :
  (∀ x acc w r w', x ∈ l → body x acc w = (r, w') → R (fs w) (fs w')) →
  ∀ acc w r w', for_collect l acc body w = (r, w') → R (fs w) (fs w').
Proof.
  induction l as [|x l IH]; intros Hbody acc w r w'; simpl.
  - intros [= <- <-]. apply R_refl.
  - apply rel_bind.
    + intros r1 w1. apply Hbody. by left.
    + intros acc' w1 r2 w2 _. apply IH. intros y acc0 w0 r0 w0' Hy. apply Hbody.
      by right.
Qed.

Lemma rel_print s w r w' : print s w = (r, w') → R (fs w) (fs w').
Proof. intros [= <- <-]. apply R_refl. Qed.

Lemma rel_on_fs {A} (F : fsys → result A * fsys) w r w' :
  (∀ r f', F (fs w) = (r, f') → R (fs w) f') →
  on_fs F w = (r, w') → R (fs w) (fs w').
Proof.
  intros HF. unfold on_fs. destruct (F (fs w)) as [r1 f1] eqn:HFw.
  intros [= <- <-]. by eapply HF.
Qed.

End relation_on_trees.

Section staging_footprint.
Import JupyterDocsBuilder.

Lemma ends_with_slash_cut d : ends_with_slash d = true → ∃ d', d = d' +:+ "/".
Proof.
  induction d as [|c d IH]; [done|]. destruct d as [|c' d'].
  - simpl. intros ->%bool_decide_eq_true. by exists "".
  - intros Hd. destruct (IH Hd) as [d0 ->]. by exists (String c d0).
Qed.

Lemma basename_no_slash p : contains slash (basename p) = false.
Proof.
  unfold basename, os_path_split. destruct (rcut slash p) as [[h t]|] eqn:Hcut; simpl.
  - by apply rcut_some in Hcut as [_ ?].
  - by apply rcut_none_inv.
Qed.

Lemma basename_app_slash d b :
  contains slash b = false → basename (d +:+ String slash b) = b.
Proof. intros Hb. unfold basename, os_path_split. by rewrite rcut_app. Qed.

(** The name of an entry joined to a directory is the name that was
    joined. *)
Lemma basename_join d b : contains slash b = false → basename (os_path_join d b) = b.
Proof.
  intros Hb. unfold os_path_join.
  assert (startswith "/" b = false) as ->.
  { destruct b as [|c b]; [done|]. simpl in Hb. apply orb_false_iff in Hb as [Hc _].
    apply bool_decide_eq_false in Hc. unfold startswith. simpl.
    rewrite bool_decide_eq_false_2; [done|]. intros <-. by apply Hc. }
  destruct (bool_decide (d = "")) eqn:Hd; simpl.
  - apply bool_decide_eq_true in Hd as ->. unfold basename. by rewrite os_path_split_plain.
  - destruct (ends_with_slash d) eqn:Hend.
    + destruct (ends_with_slash_cut _ Hend) as [d' ->]. rewrite string_app_assoc.
      by apply basename_app_slash.
    + by apply basename_app_slash.
Qed.

Lemma basename_Path_div d b : contains slash b = false → basename (Path_div d b) = b.
Proof.
  intros Hb. unfold Path_div. destruct (decide (d = ".")); [|by apply basename_join].
  unfold basename. by rewrite os_path_split_plain.
Qed.

(** What the directory listing yields is named as a notebook. *)
Lemma glob_ipynb_names d f p :
  p ∈ glob_ipynb d f → endswith ".ipynb" (basename p) = true.
Proof.
  unfold glob_ipynb. destruct (is_dir f d); [|by intros ?%elem_of_nil].
  intros (q & -> & Hq)%list_elem_of_fmap.
  apply list_elem_of_filter in Hq as [[_ Hname] _].
  rewrite basename_Path_div by apply basename_no_slash. by apply Is_true_true.
Qed.

Lemma only_notebooks_touched_refl f : only_notebooks_touched f f.
Proof. by split. Qed.

Lemma only_notebooks_touched_trans f1 f2 f3 :
  only_notebooks_touched f1 f2 → only_notebooks_touched f2 f3 →
  only_notebooks_touched f1 f3.
Proof.
  intros [Hd1 Hf1] [Hd2 Hf2]. split; [congruence|].
  intros p Hp Hq. rewrite Hf2 by done. by apply Hf1.
Qed.

(** [copy] changes at most one file, named as its source or as its
    destination. *)
Lemma copy_any src dst f r f' :
  copy src dst f = (r, f') →
  dirs f' = dirs f
  ∧ ∀ p, basename p ≠ basename src → basename p ≠ basename dst →
         files f' !! p = files f !! p.
Proof.
  unfold copy. destruct (files f !! src) as [s|]; [|by intros [= <- <-]].
  destruct (decide (src = _)); [by intros [= <- <-]|].
  intros [Hd Hf]%write_file_any. split; [done|]. intros p Hsrc Hdst. apply Hf.
  intros ->. destruct (is_dir f dst); [|done].
  by rewrite basename_join in Hsrc by apply basename_no_slash.
Qed.

Lemma unlink_any p f r f' :
  unlink p f = (r, f') →
  dirs f' = dirs f ∧ ∀ q, q ≠ p → files f' !! q = files f !! q.
Proof.
  unfold unlink. destruct (is_file f p); intros [= <- <-]; [|done].
  simpl. split; [done|]. intros q Hq. by rewrite lookup_delete_ne.
Qed.

(** X24.  Staging an example directory, with or without cleaning and
    however it ends, leaves the directories as they are and touches no file
    but those named as notebooks and the tutorial helper script: every file
    whose name neither ends in .ipynb nor is open3d_tutorial.py is as it
    was. *)
Theorem staging_touches_only_notebooks self example_dir nb_paths w r w' :
  stage_example_dir self example_dir nb_paths w = (r, w') →
  dirs (fs w') = dirs (fs w)
  ∧ ∀ p, endswith ".ipynb" (basename p) = false → basename p ≠ "open3d_tutorial.py" →
         files (fs w') !! p = files (fs w) !! p.
Proof.
  change (stage_example_dir self example_dir nb_paths w = (r, w') →
          only_notebooks_touched (fs w) (fs w')).
  pose proof only_notebooks_touched_refl as Hrefl.
  pose proof only_notebooks_touched_trans as Htrans.
  rewrite stage_example_dir_loop.
  apply (rel_bind _ Htrans).
  { intros r1 w1. apply rel_on_fs. intros r0 f0 [Hd Hf]%copy_any.
    split; [done|]. intros p _ Hp. apply Hf; by rewrite basename_Path_div. }
  intros _ w1 r2 w2 _. apply (rel_bind _ Htrans).
  { intros r1 w1'. destruct (clean_notebooks self); [|by intros [= <- <-]].
    apply (rel_bind _ Htrans); [by intros ? ? [= <- <-]|].
    intros stale w0 r0 w0' [= <- <-].
    apply (rel_for_each _ Hrefl Htrans).
    intros x w3 r3 w3' Hx%glob_ipynb_names.
    apply (rel_bind _ Htrans); [apply (rel_print _ Hrefl)|].
    intros _ w4 r4 w4' _. apply rel_on_fs. intros r5 f5 [Hd Hf]%unlink_any.
    split; [done|]. intros p Hp _. apply Hf. intros ->. congruence. }
  intros _ w3 r3 w3' _. apply (rel_bind _ Htrans); [by intros ? ? [= <- <-]|].
  intros found w4 r4 w4' [= <- <-].
  apply (rel_for_collect _ Hrefl Htrans).
  intros x acc w5 r5 w5' Hx%glob_ipynb_names. unfold stage_notebook.
  apply (rel_bind _ Htrans); [by intros ? ? [= <- <-]|].
  intros is_f w6 r6 w6' _. apply (rel_bind _ Htrans); [|by intros ? ? ? ? _ [= <- <-]].
  intros r7 w7. destruct (negb is_f); [|apply (rel_print _ Hrefl)].
  apply (rel_bind _ Htrans); [apply (rel_print _ Hrefl)|].
  intros _ w8 r8 w8' _. apply rel_on_fs. intros r9 f9 [Hd Hf]%copy_any.
  split; [done|]. intros p Hp _. apply Hf.
  - intros Heq. congruence.
  - unfold Path_name. rewrite basename_Path_div by apply basename_no_slash.
    intros Heq. congruence.
Qed.

Lemma staging_touches_only_notebooks_witness :
  files (fs (stage_example_dir cleaning_builder "Basic" [] notes_world).2)
    !! "/repo/docs/tutorial/Basic/notes.txt" = Some "keep"
  ∧ files (fs (stage_example_dir cleaning_builder "Basic" [] notes_world).2)
      !! "/repo/docs/tutorial/Basic/gone.ipynb" = None
  ∧ (stage_example_dir cleaning_builder "Basic" [] notes_world).1
    = Ok ["/repo/docs/tutorial/Basic/pointcloud.ipynb"].
Proof.
  destruct (staging_touches_only_notebooks cleaning_builder "Basic" [] notes_world
              (stage_example_dir cleaning_builder "Basic" [] notes_world).1
              (stage_example_dir cleaning_builder "Basic" [] notes_world).2)
    as [_ Hkept]; [by destruct (stage_example_dir _ _ _ _)|].
  split; [|split; vm_compute; reflexivity].
  rewrite Hkept; [reflexivity | reflexivity | discriminate].
Defined.

End staging_footprint.
